(** * IDAMetrics_static: a shallow embedding of the metrics engine

    The development follows [IDAMetrics_static.py]: the control-flow
    builder of [Metrics_function.start_analysis], the basic-block
    partitioner [get_bbls], the node-graph builder [make_graph], the metric
    calculators and the module-level aggregation of [Metrics].

    Conventions of the embedding.
    - Addresses are integers.  The script stores [hex(ea)] strings in edges,
      blocks and usage lists and reads them back with [int(s, 16)]; [hex] is
      injective, so both conversions are the identity here.
    - A Python [dict] is an association list in insertion order with unique
      keys; a Python [set] is a duplicate-free list in insertion order.
    - The disassembler database (flags, operands, cross references, function
      attributes) is the record [database]; the [idc]/[idautils] calls of
      the script are read from it.
    - Mutation of [self] and of the module-wide [global_vars_dict] is
      explicit state; a raised exception keeps the state reached so far. *)

From Stdlib Require Import ZArith List String Ascii Bool Lia QArith.
Import ListNotations.

Set Primitive Projections.
Set Implicit Arguments.

Local Open Scope string_scope.
Local Open Scope list_scope.
Local Open Scope Z_scope.

(** ** Python values *)

Class EqDec (K : Type) := eq_dec : forall x y : K, {x = y} + {x <> y}.

#[export] Instance EqDec_Z : EqDec Z := Z.eq_dec.
#[export] Instance EqDec_string : EqDec string := string_dec.
#[export] Instance EqDec_prod {A B} `{EqDec A} `{EqDec B} : EqDec (A * B).
Proof. intros [a b] [c d]. destruct (eq_dec a c), (eq_dec b d); [left | right ..]; congruence. Defined.

Definition eqb {K} `{EqDec K} (x y : K) : bool := if eq_dec x y then true else false.

Section Containers.
Context {K : Type} `{EqDec K}.

(** [x in s] for a list or a set. *)
Definition py_in (x : K) (s : list K) : bool := existsb (eqb x) s.

(** [s.add(x)] *)
Definition set_add (x : K) (s : list K) : list K :=
  if py_in x s then s else s ++ [x].

(** [s.update(xs)] *)
Definition set_update (s xs : list K) : list K :=
  fold_left (fun acc x => set_add x acc) xs s.

Context {V : Type}.

Definition dict := list (K * V).

(** [d.get(k, None)] *)
Fixpoint dict_get (k : K) (d : list (K * V)) : option V :=
  match d with
  | [] => None
  | (k', v) :: d' => if eqb k k' then Some v else dict_get k d'
  end.

(** [d[k] = v]: an existing key keeps its position. *)
Fixpoint dict_set (k : K) (v : V) (d : list (K * V)) : list (K * V) :=
  match d with
  | [] => [(k, v)]
  | (k', v') :: d' =>
      if eqb k k' then (k', v) :: d' else (k', v') :: dict_set k v d'
  end.

(** [del d[k]] for a key known to be present; absent keys leave [d] as is
    (every caller tests [k in d] first). *)
Definition dict_del (k : K) (d : list (K * V)) : list (K * V) :=
  filter (fun kv => negb (eqb k (fst kv))) d.

(** [k in d] *)
Definition dict_mem (k : K) (d : list (K * V)) : bool := py_in k (map fst d).

Definition dict_keys (d : list (K * V)) : list K := map fst d.
End Containers.

(** [d.setdefault(k, []).append(x)] *)
Definition dict_append {K} `{EqDec K} {A} (k : K) (x : A) (d : list (K * list A)) : list (K * list A) :=
  match dict_get k d with
  | Some l => dict_set k (l ++ [x]) d
  | None => dict_set k [x] d
  end.

(** [d[k] = d.get(k, 0) + 1] *)
Definition dict_incr {K} `{EqDec K} (k : K) (d : list (K * Z)) : list (K * Z) :=
  match dict_get k d with
  | Some n => dict_set k (n + 1) d
  | None => dict_set k 1 d
  end.

Definition len {A} (l : list A) : Z := Z.of_nat (List.length l).

(** *** Strings *)

(** [sub in s] *)
Fixpoint str_contains (sub s : string) : bool :=
  String.prefix sub s ||
  match s with
  | EmptyString => false
  | String _ s' => str_contains sub s'
  end.

(** [s.startswith(p)] *)
Definition startswith (s p : string) : bool := String.prefix p s.

(** [s.count(c)] for a one-character [c] *)
Fixpoint str_count (c : ascii) (s : string) : Z :=
  match s with
  | EmptyString => 0
  | String a s' => (if Ascii.eqb a c then 1 else 0) + str_count c s'
  end.

(** [s.replace(c, "")] for a one-character [c] *)
Fixpoint str_remove (c : ascii) (s : string) : string :=
  match s with
  | EmptyString => EmptyString
  | String a s' => if Ascii.eqb a c then str_remove c s' else String a (str_remove c s')
  end.

(** [s.replace(sub, "")] for a non-empty [sub]: the occurrences are removed
    from left to right; [skip] counts the characters of an occurrence still
    to drop. *)
Fixpoint str_remove_sub_from (sub : string) (skip : nat) (s : string) : string :=
  match s with
  | EmptyString => EmptyString
  | String a s' =>
      match skip with
      | S k => str_remove_sub_from sub k s'
      | O =>
          if String.prefix sub s
          then str_remove_sub_from sub (Nat.pred (String.length sub)) s'
          else String a (str_remove_sub_from sub 0 s')
      end
  end.
Definition str_remove_sub (sub s : string) : string := str_remove_sub_from sub 0 s.

(** [s.find(c)]: the first index of [c], or -1. *)
Fixpoint str_find (c : ascii) (s : string) : Z :=
  match s with
  | EmptyString => -1
  | String a s' =>
      if Ascii.eqb a c then 0
      else let r := str_find c s' in if r <? 0 then -1 else r + 1
  end.

(** [s.rfind(c)]: the last index of [c], or -1. *)
Fixpoint str_rfind (c : ascii) (s : string) : Z :=
  match s with
  | EmptyString => -1
  | String a s' =>
      let r := str_rfind c s' in
      if 0 <=? r then r + 1 else if Ascii.eqb a c then 0 else -1
  end.

(** [s[a:b]] with Python's treatment of negative and out-of-range bounds. *)
Definition str_slice (s : string) (a b : Z) : string :=
  let n := Z.of_nat (String.length s) in
  let norm i := if i <? 0 then Z.max 0 (i + n) else Z.min i n in
  let a' := norm a in
  let b' := norm b in
  if a' <? b' then String.substring (Z.to_nat a') (Z.to_nat (b' - a')) s else "".

Definition hex_digit (c : ascii) : option Z :=
  let n := Z.of_nat (nat_of_ascii c) in
  if (48 <=? n) && (n <=? 57) then Some (n - 48)
  else if (65 <=? n) && (n <=? 70) then Some (n - 55)
  else if (97 <=? n) && (n <=? 102) then Some (n - 87)
  else None.

Fixpoint hex_digits (acc : Z) (s : string) : option Z :=
  match s with
  | EmptyString => Some acc
  | String c s' =>
      match hex_digit c with
      | Some d => hex_digits (16 * acc + d) s'
      | None => None
      end
  end.

(** [int(s, 16)] on the immediates the disassembler prints (a non-empty run
    of hexadecimal digits); [None] is Python's [ValueError]. *)
Definition int16 (s : string) : option Z :=
  match s with
  | EmptyString => None
  | _ => hex_digits 0 s
  end.

(** *** Exceptions and state *)

Inductive exn :=
| Exception (msg : string)
| ValueError (msg : string)
| IndexError (msg : string)
| TypeError (msg : string)
| ZeroDivisionError (msg : string)
| RecursionError (msg : string).

Inductive result (A : Type) :=
| Ok (a : A)
| Raise (e : exn).
Arguments Ok {A} a.
Arguments Raise {A} e.

(** A computation over a mutable state [S] that may raise: the state is
    returned in both cases, as Python leaves the mutated objects behind. *)
Definition M (S A : Type) := S -> result A * S.

Definition ret {S A} (a : A) : M S A := fun s => (Ok a, s).
Definition raise {S A} (e : exn) : M S A := fun s => (Raise e, s).
Definition bind {S A B} (m : M S A) (k : A -> M S B) : M S B :=
  fun s => match m s with
           | (Ok a, s') => k a s'
           | (Raise e, s') => (Raise e, s')
           end.
Definition get {S} : M S S := fun s => (Ok s, s).
Definition modify {S} (f : S -> S) : M S unit := fun s => (Ok tt, f s).

Declare Scope monad_scope.
Delimit Scope monad_scope with monad.
Notation "x <- m ;; k" := (bind m (fun x => k))
  (at level 61, m at next level, right associativity) : monad_scope.
Notation "m ;; k" := (bind m (fun _ => k))
  (at level 61, right associativity) : monad_scope.

(** [a / b] on integers: the exact quotient, or [ZeroDivisionError]. *)
Definition true_div {S} (a b : Z) : M S Q :=
  if b =? 0 then raise (ZeroDivisionError "division by zero")
  else ret (Qred (Qmake (a * Z.sgn b) (Z.to_pos (Z.abs b)))).

(** [for x in xs: body], threading a loop-carried value. *)
Fixpoint foldM {S A B} (f : B -> A -> M S B) (xs : list A) (b : B) : M S B :=
  match xs with
  | [] => ret b
  | x :: xs' => bind (f b x) (foldM f xs')
  end.

Local Open Scope monad_scope.

Definition when {S} (c : bool) (m : M S unit) : M S unit := if c then m else ret tt.

(** ** The disassembler database

    What the script reads through [idc], [idautils], [ida_bytes], [ida_idp],
    [ida_ua] and [ida_nalt].  Every item (head) of the database carries its
    flags, its decoded instruction and its outgoing code references. *)

Inductive inType :=
| OTHERS | CALL | CONDITIONAL_BRANCH | UNCONDITIONAL_BRACH | ASSIGNMENT | COMPARE.

Definition inType_eqb (a b : inType) : bool :=
  match a, b with
  | OTHERS, OTHERS | CALL, CALL | CONDITIONAL_BRANCH, CONDITIONAL_BRANCH
  | UNCONDITIONAL_BRACH, UNCONDITIONAL_BRACH | ASSIGNMENT, ASSIGNMENT
  | COMPARE, COMPARE => true
  | _, _ => false
  end.

(** Operand types [idc.o_*]. *)
Definition o_void := 0.
Definition o_reg := 1.
Definition o_mem := 2.
Definition o_phrase := 3.
Definition o_displ := 4.
Definition o_imm := 5.
Definition o_far := 6.
Definition o_near := 7.

(** One operand slot: [print_operand], [get_operand_type],
    [get_operand_value]. *)
Record operand := mk_operand {
  op_text : string;
  op_type : Z;
  op_value : Z }.

Record insn := mk_insn {
  flag_code : bool;              (* is_code(get_full_flags(ea)) *)
  flag_flow : bool;              (* is_flow(get_full_flags(ea)) *)
  insn_call : bool;              (* ida_idp.is_call_insn *)
  insn_chg : bool;               (* has_insn_feature(itype, CF_CHG) *)
  insn_use : bool;               (* has_insn_feature(itype, CF_USE) *)
  insn_mnem : string;            (* print_insn_mnem *)
  insn_ops : list operand;       (* operand slots 0..5 *)
  insn_disasm : string;          (* GetDisasm *)
  insn_crefs : list Z;           (* CodeRefsFrom(ea, 0) *)
  insn_switch : option (Z * Z)   (* get_switch_info: startea, ncases *) }.

(** An address that holds no item: zero flags, nothing decoded. *)
Definition no_insn : insn :=
  mk_insn false false false false false "" [] "" [] None.

Record database := mk_database {
  ea64 : bool;                       (* __EA64__ *)
  items : list (Z * insn);           (* the heads, in increasing address order *)
  crefs_to : Z -> list Z;            (* CodeRefsTo(ea, 0) *)
  drefs_to : Z -> list Z;            (* DataRefsTo(ea) *)
  func_name : Z -> string;           (* get_func_name *)
  func_end : Z -> Z;                 (* find_func_end *)
  func_chunks : Z -> list (Z * Z);   (* the chunk iterator of a function *)
  funcs : list Z;                    (* function starts, as get_next_func walks them *)
  segments : list Z                  (* Segments() *) }.

Section IDA.
Variable db : database.

Definition BADADDR : Z := if ea64 db then 18446744073709551615 else 4294967295.
Definition ARGUMENT_SIZE : Z := if ea64 db then 8 else 4.

Definition insn_at (ea : Z) : insn :=
  if ea =? BADADDR then no_insn
  else match dict_get ea (items db) with
       | Some i => i
       | None => no_insn
       end.

Definition is_code (ea : Z) : bool := flag_code (insn_at ea).
Definition is_flow (ea : Z) : bool := flag_flow (insn_at ea).
Definition print_insn_mnem (ea : Z) : string := insn_mnem (insn_at ea).
Definition GetDisasm (ea : Z) : string := insn_disasm (insn_at ea).
Definition CodeRefsFrom (ea : Z) : list Z := insn_crefs (insn_at ea).
Definition get_switch_info (ea : Z) : option (Z * Z) := insn_switch (insn_at ea).

Definition print_operand (ea i : Z) : string :=
  match nth_error (insn_ops (insn_at ea)) (Z.to_nat i) with
  | Some o => op_text o
  | None => ""
  end.
Definition get_operand_type (ea i : Z) : Z :=
  match nth_error (insn_ops (insn_at ea)) (Z.to_nat i) with
  | Some o => op_type o
  | None => o_void
  end.
Definition get_operand_value (ea i : Z) : Z :=
  match nth_error (insn_ops (insn_at ea)) (Z.to_nat i) with
  | Some o => op_value o
  | None => -1
  end.

Definition heads : list Z := map fst (items db).

(** [idautils.Heads(start, end)] *)
Definition Heads (chunk : Z * Z) : list Z :=
  filter (fun ea => (fst chunk <=? ea) && (ea <? snd chunk) && negb (ea =? BADADDR)) heads.

(** [idc.next_head(ea, maxea)] *)
Definition next_head (ea maxea : Z) : Z :=
  match find (fun h => (ea <? h) && (h <? maxea)) heads with
  | Some h => h
  | None => BADADDR
  end.

(** [idc.prev_head(ea, minea)] *)
Definition prev_head (ea minea : Z) : Z :=
  match find (fun h => (minea <=? h) && (h <? ea)) (rev heads) with
  | Some h => h
  | None => BADADDR
  end.

(** [enumerate_function_chunks]: the chunks of the iterator up to the
    first [BADADDR]. *)
Fixpoint enumerate_chunks (cs : list (Z * Z)) : list (Z * Z) :=
  match cs with
  | [] => []
  | c :: cs' => if fst c =? BADADDR then [] else c :: enumerate_chunks cs'
  end.
Definition enumerate_function_chunks (function_ea : Z) : list (Z * Z) :=
  enumerate_chunks (func_chunks db function_ea).

(** [get_instr_operands] *)
Definition get_instr_operands (head : Z) : list (string * Z) :=
  flat_map (fun i =>
              let op := print_operand head i in
              if eqb op "" then [] else [(op, get_operand_type head i)])
           [0; 1; 2; 3; 4; 5].

(** [GetInstructionType], with the [function_start] and [function_end]
    attributes of the routine under analysis. *)
Definition GetInstructionType (function_start function_end instr_addr : Z) : inType :=
  if insn_call (insn_at instr_addr) then CALL
  else
    let refs := filter (fun addr => (function_start <=? addr) && (addr <=? function_end))
                       (CodeRefsFrom instr_addr) in
    match refs with
    | _ :: _ =>
        let n_head := next_head instr_addr function_end in
        if is_flow n_head then CONDITIONAL_BRANCH else UNCONDITIONAL_BRACH
    | [] =>
        if insn_chg (insn_at instr_addr) then ASSIGNMENT
        else if insn_use (insn_at instr_addr) then COMPARE
        else OTHERS
    end.

(** [is_var_global] *)
Definition is_var_global (operand : Z) : bool :=
  if operand =? -1 then false
  else 1 <? len (drefs_to db operand).

(** [get_local_var_name].  [None] and the empty string are both falsy for
    the caller's [if name:].  With more than two ["+"] the script assigns
    the slice to [operand], so [name] keeps its initial [""] (or becomes
    [None] for an unknown mask). *)
Definition get_local_var_name (operand : string) : option string :=
  let operand := str_remove " "%char operand in
  let plus := str_count "+"%char operand in
  if plus =? 1 then
    Some (str_slice operand (str_find "+"%char operand + 1) (str_find "]"%char operand))
  else if plus =? 2 then
    Some (str_slice operand (str_rfind "+"%char operand + 1) (str_find "]"%char operand))
  else if 2 <? plus then
    if str_contains "var_" operand then Some ""
    else if str_contains "arg_" operand then Some ""
    else None
  else None.
End IDA.

(** ** Records of the script *)

(** The metric selection ([metrics_mask]); the keys ["c&s"] and ["h&c"] are
    the fields [mask_cs] and [mask_hc].  A flag is set when the script's
    test [metrics_mask[k] == 1] holds. *)
Record mask := mk_mask {
  mask_loc : bool;
  mask_bbls : bool;
  mask_calls : bool;
  mask_condit : bool;
  mask_assign : bool;
  mask_cc : bool;
  mask_cc_mod : bool;
  mask_jilb : bool;
  mask_abc : bool;
  mask_pi : bool;
  mask_h : bool;
  mask_harr : bool;
  mask_bound : bool;
  mask_span : bool;
  mask_global : bool;
  mask_oviedo : bool;
  mask_chepin : bool;
  mask_cs : bool;
  mask_hc : bool;
  mask_cocol : bool }.

(** Floating-point results.  A quotient of two integers is kept exact, as
    a rational ([Q]); a result of [math.log], [math.sqrt] or [**], and what
    is computed from one, is kept as the expression that produced it. *)
Inductive pyfloat :=
| Fint (z : Z)
| Flog2 (x : Z)
| Fsqrt (x : Z)
| Fadd (a b : pyfloat)
| Fmul (a b : pyfloat)
| Fdiv (a b : pyfloat)
| Fpow (a b : pyfloat).

(** [class Halstead_metric] *)
Record Halstead_metric := mk_Halstead {
  n1 : Z;
  n2 : Z;
  N1 : Z;
  N2 : Z;
  V : pyfloat;
  Ni : pyfloat;
  D : pyfloat;
  E : pyfloat;
  B : pyfloat }.

Definition set_n1 (v : Z) (s : Halstead_metric) : Halstead_metric :=
  mk_Halstead v (n2 s) (N1 s) (N2 s) (V s) (Ni s) (D s) (E s) (B s).
Definition set_n2 (v : Z) (s : Halstead_metric) : Halstead_metric :=
  mk_Halstead (n1 s) v (N1 s) (N2 s) (V s) (Ni s) (D s) (E s) (B s).
Definition set_N1 (v : Z) (s : Halstead_metric) : Halstead_metric :=
  mk_Halstead (n1 s) (n2 s) v (N2 s) (V s) (Ni s) (D s) (E s) (B s).
Definition set_N2 (v : Z) (s : Halstead_metric) : Halstead_metric :=
  mk_Halstead (n1 s) (n2 s) (N1 s) v (V s) (Ni s) (D s) (E s) (B s).
Definition set_V (v : pyfloat) (s : Halstead_metric) : Halstead_metric :=
  mk_Halstead (n1 s) (n2 s) (N1 s) (N2 s) v (Ni s) (D s) (E s) (B s).
Definition set_Ni (v : pyfloat) (s : Halstead_metric) : Halstead_metric :=
  mk_Halstead (n1 s) (n2 s) (N1 s) (N2 s) (V s) v (D s) (E s) (B s).
Definition set_D (v : pyfloat) (s : Halstead_metric) : Halstead_metric :=
  mk_Halstead (n1 s) (n2 s) (N1 s) (N2 s) (V s) (Ni s) v (E s) (B s).
Definition set_E (v : pyfloat) (s : Halstead_metric) : Halstead_metric :=
  mk_Halstead (n1 s) (n2 s) (N1 s) (N2 s) (V s) (Ni s) (D s) v (B s).
Definition set_B (v : pyfloat) (s : Halstead_metric) : Halstead_metric :=
  mk_Halstead (n1 s) (n2 s) (N1 s) (N2 s) (V s) (Ni s) (D s) (E s) v.

Definition Halstead_init : Halstead_metric :=
  mk_Halstead 0 0 0 0 (Fint 0) (Fint 0) (Fint 0) (Fint 0) (Fint 0).

(** The key of [calls_dict]: the f-strings ["reg_%d"], ["phrase_%d"],
    ["displ_%d"] and ["mem_%d"]. *)
Inductive call_kind := key_reg | key_phrase | key_displ | key_mem.
Definition call_key := (call_kind * Z)%type.

#[export] Instance EqDec_call_kind : EqDec call_kind.
Proof. intros a b. unfold EqDec. decide equality. Defined.

(** [class Metrics_function] *)
Record Metrics_function := mk_Metrics_function {
  function_name : string;
  function_ea : Z;
  function_end : Z;
  metrics_mask : mask;
  loc_count : Z;
  bbl_count : Z;
  condition_count : Z;
  calls_count : Z;
  R : Q;
  CC : Z;
  CL : Q;
  assign_count : Z;
  ABC : pyfloat;
  CC_modified : Z;
  Pivovarsky : Z;
  Halstead_basic : Halstead_metric;
  Harrison : Z;
  boundary_values : Z;
  span_metric : Z;
  vars_local : list (string * list Z);
  vars_args : list (string * list Z);
  Oviedo : Z;
  Chepin : Q;
  global_vars_access : Z;
  global_vars_used : list (string * list Z);
  global_vars_metric : Q;
  bbls_boundaries : list (Z * list Z);
  CardnGlass : Q;
  fan_in_i : Z;
  fan_in_s : Z;
  fan_out_i : Z;
  calls_dict : list (call_key * Z);
  fan_out_s : Z;
  HenrynCafura : Z;
  Cocol : pyfloat }.

Definition set_function_name (v : string) (s : Metrics_function) : Metrics_function :=
  mk_Metrics_function v (function_ea s) (function_end s) (metrics_mask s) (loc_count s) (bbl_count s) (condition_count s) (calls_count s) (R s) (CC s) (CL s) (assign_count s) (ABC s) (CC_modified s) (Pivovarsky s) (Halstead_basic s) (Harrison s) (boundary_values s) (span_metric s) (vars_local s) (vars_args s) (Oviedo s) (Chepin s) (global_vars_access s) (global_vars_used s) (global_vars_metric s) (bbls_boundaries s) (CardnGlass s) (fan_in_i s) (fan_in_s s) (fan_out_i s) (calls_dict s) (fan_out_s s) (HenrynCafura s) (Cocol s).
Definition set_function_ea (v : Z) (s : Metrics_function) : Metrics_function :=
  mk_Metrics_function (function_name s) v (function_end s) (metrics_mask s) (loc_count s) (bbl_count s) (condition_count s) (calls_count s) (R s) (CC s) (CL s) (assign_count s) (ABC s) (CC_modified s) (Pivovarsky s) (Halstead_basic s) (Harrison s) (boundary_values s) (span_metric s) (vars_local s) (vars_args s) (Oviedo s) (Chepin s) (global_vars_access s) (global_vars_used s) (global_vars_metric s) (bbls_boundaries s) (CardnGlass s) (fan_in_i s) (fan_in_s s) (fan_out_i s) (calls_dict s) (fan_out_s s) (HenrynCafura s) (Cocol s).
Definition set_function_end (v : Z) (s : Metrics_function) : Metrics_function :=
  mk_Metrics_function (function_name s) (function_ea s) v (metrics_mask s) (loc_count s) (bbl_count s) (condition_count s) (calls_count s) (R s) (CC s) (CL s) (assign_count s) (ABC s) (CC_modified s) (Pivovarsky s) (Halstead_basic s) (Harrison s) (boundary_values s) (span_metric s) (vars_local s) (vars_args s) (Oviedo s) (Chepin s) (global_vars_access s) (global_vars_used s) (global_vars_metric s) (bbls_boundaries s) (CardnGlass s) (fan_in_i s) (fan_in_s s) (fan_out_i s) (calls_dict s) (fan_out_s s) (HenrynCafura s) (Cocol s).
Definition set_metrics_mask (v : mask) (s : Metrics_function) : Metrics_function :=
  mk_Metrics_function (function_name s) (function_ea s) (function_end s) v (loc_count s) (bbl_count s) (condition_count s) (calls_count s) (R s) (CC s) (CL s) (assign_count s) (ABC s) (CC_modified s) (Pivovarsky s) (Halstead_basic s) (Harrison s) (boundary_values s) (span_metric s) (vars_local s) (vars_args s) (Oviedo s) (Chepin s) (global_vars_access s) (global_vars_used s) (global_vars_metric s) (bbls_boundaries s) (CardnGlass s) (fan_in_i s) (fan_in_s s) (fan_out_i s) (calls_dict s) (fan_out_s s) (HenrynCafura s) (Cocol s).
Definition set_loc_count (v : Z) (s : Metrics_function) : Metrics_function :=
  mk_Metrics_function (function_name s) (function_ea s) (function_end s) (metrics_mask s) v (bbl_count s) (condition_count s) (calls_count s) (R s) (CC s) (CL s) (assign_count s) (ABC s) (CC_modified s) (Pivovarsky s) (Halstead_basic s) (Harrison s) (boundary_values s) (span_metric s) (vars_local s) (vars_args s) (Oviedo s) (Chepin s) (global_vars_access s) (global_vars_used s) (global_vars_metric s) (bbls_boundaries s) (CardnGlass s) (fan_in_i s) (fan_in_s s) (fan_out_i s) (calls_dict s) (fan_out_s s) (HenrynCafura s) (Cocol s).
Definition set_bbl_count (v : Z) (s : Metrics_function) : Metrics_function :=
  mk_Metrics_function (function_name s) (function_ea s) (function_end s) (metrics_mask s) (loc_count s) v (condition_count s) (calls_count s) (R s) (CC s) (CL s) (assign_count s) (ABC s) (CC_modified s) (Pivovarsky s) (Halstead_basic s) (Harrison s) (boundary_values s) (span_metric s) (vars_local s) (vars_args s) (Oviedo s) (Chepin s) (global_vars_access s) (global_vars_used s) (global_vars_metric s) (bbls_boundaries s) (CardnGlass s) (fan_in_i s) (fan_in_s s) (fan_out_i s) (calls_dict s) (fan_out_s s) (HenrynCafura s) (Cocol s).
Definition set_condition_count (v : Z) (s : Metrics_function) : Metrics_function :=
  mk_Metrics_function (function_name s) (function_ea s) (function_end s) (metrics_mask s) (loc_count s) (bbl_count s) v (calls_count s) (R s) (CC s) (CL s) (assign_count s) (ABC s) (CC_modified s) (Pivovarsky s) (Halstead_basic s) (Harrison s) (boundary_values s) (span_metric s) (vars_local s) (vars_args s) (Oviedo s) (Chepin s) (global_vars_access s) (global_vars_used s) (global_vars_metric s) (bbls_boundaries s) (CardnGlass s) (fan_in_i s) (fan_in_s s) (fan_out_i s) (calls_dict s) (fan_out_s s) (HenrynCafura s) (Cocol s).
Definition set_calls_count (v : Z) (s : Metrics_function) : Metrics_function :=
  mk_Metrics_function (function_name s) (function_ea s) (function_end s) (metrics_mask s) (loc_count s) (bbl_count s) (condition_count s) v (R s) (CC s) (CL s) (assign_count s) (ABC s) (CC_modified s) (Pivovarsky s) (Halstead_basic s) (Harrison s) (boundary_values s) (span_metric s) (vars_local s) (vars_args s) (Oviedo s) (Chepin s) (global_vars_access s) (global_vars_used s) (global_vars_metric s) (bbls_boundaries s) (CardnGlass s) (fan_in_i s) (fan_in_s s) (fan_out_i s) (calls_dict s) (fan_out_s s) (HenrynCafura s) (Cocol s).
Definition set_R (v : Q) (s : Metrics_function) : Metrics_function :=
  mk_Metrics_function (function_name s) (function_ea s) (function_end s) (metrics_mask s) (loc_count s) (bbl_count s) (condition_count s) (calls_count s) v (CC s) (CL s) (assign_count s) (ABC s) (CC_modified s) (Pivovarsky s) (Halstead_basic s) (Harrison s) (boundary_values s) (span_metric s) (vars_local s) (vars_args s) (Oviedo s) (Chepin s) (global_vars_access s) (global_vars_used s) (global_vars_metric s) (bbls_boundaries s) (CardnGlass s) (fan_in_i s) (fan_in_s s) (fan_out_i s) (calls_dict s) (fan_out_s s) (HenrynCafura s) (Cocol s).
Definition set_CC (v : Z) (s : Metrics_function) : Metrics_function :=
  mk_Metrics_function (function_name s) (function_ea s) (function_end s) (metrics_mask s) (loc_count s) (bbl_count s) (condition_count s) (calls_count s) (R s) v (CL s) (assign_count s) (ABC s) (CC_modified s) (Pivovarsky s) (Halstead_basic s) (Harrison s) (boundary_values s) (span_metric s) (vars_local s) (vars_args s) (Oviedo s) (Chepin s) (global_vars_access s) (global_vars_used s) (global_vars_metric s) (bbls_boundaries s) (CardnGlass s) (fan_in_i s) (fan_in_s s) (fan_out_i s) (calls_dict s) (fan_out_s s) (HenrynCafura s) (Cocol s).
Definition set_CL (v : Q) (s : Metrics_function) : Metrics_function :=
  mk_Metrics_function (function_name s) (function_ea s) (function_end s) (metrics_mask s) (loc_count s) (bbl_count s) (condition_count s) (calls_count s) (R s) (CC s) v (assign_count s) (ABC s) (CC_modified s) (Pivovarsky s) (Halstead_basic s) (Harrison s) (boundary_values s) (span_metric s) (vars_local s) (vars_args s) (Oviedo s) (Chepin s) (global_vars_access s) (global_vars_used s) (global_vars_metric s) (bbls_boundaries s) (CardnGlass s) (fan_in_i s) (fan_in_s s) (fan_out_i s) (calls_dict s) (fan_out_s s) (HenrynCafura s) (Cocol s).
Definition set_assign_count (v : Z) (s : Metrics_function) : Metrics_function :=
  mk_Metrics_function (function_name s) (function_ea s) (function_end s) (metrics_mask s) (loc_count s) (bbl_count s) (condition_count s) (calls_count s) (R s) (CC s) (CL s) v (ABC s) (CC_modified s) (Pivovarsky s) (Halstead_basic s) (Harrison s) (boundary_values s) (span_metric s) (vars_local s) (vars_args s) (Oviedo s) (Chepin s) (global_vars_access s) (global_vars_used s) (global_vars_metric s) (bbls_boundaries s) (CardnGlass s) (fan_in_i s) (fan_in_s s) (fan_out_i s) (calls_dict s) (fan_out_s s) (HenrynCafura s) (Cocol s).
Definition set_ABC (v : pyfloat) (s : Metrics_function) : Metrics_function :=
  mk_Metrics_function (function_name s) (function_ea s) (function_end s) (metrics_mask s) (loc_count s) (bbl_count s) (condition_count s) (calls_count s) (R s) (CC s) (CL s) (assign_count s) v (CC_modified s) (Pivovarsky s) (Halstead_basic s) (Harrison s) (boundary_values s) (span_metric s) (vars_local s) (vars_args s) (Oviedo s) (Chepin s) (global_vars_access s) (global_vars_used s) (global_vars_metric s) (bbls_boundaries s) (CardnGlass s) (fan_in_i s) (fan_in_s s) (fan_out_i s) (calls_dict s) (fan_out_s s) (HenrynCafura s) (Cocol s).
Definition set_CC_modified (v : Z) (s : Metrics_function) : Metrics_function :=
  mk_Metrics_function (function_name s) (function_ea s) (function_end s) (metrics_mask s) (loc_count s) (bbl_count s) (condition_count s) (calls_count s) (R s) (CC s) (CL s) (assign_count s) (ABC s) v (Pivovarsky s) (Halstead_basic s) (Harrison s) (boundary_values s) (span_metric s) (vars_local s) (vars_args s) (Oviedo s) (Chepin s) (global_vars_access s) (global_vars_used s) (global_vars_metric s) (bbls_boundaries s) (CardnGlass s) (fan_in_i s) (fan_in_s s) (fan_out_i s) (calls_dict s) (fan_out_s s) (HenrynCafura s) (Cocol s).
Definition set_Pivovarsky (v : Z) (s : Metrics_function) : Metrics_function :=
  mk_Metrics_function (function_name s) (function_ea s) (function_end s) (metrics_mask s) (loc_count s) (bbl_count s) (condition_count s) (calls_count s) (R s) (CC s) (CL s) (assign_count s) (ABC s) (CC_modified s) v (Halstead_basic s) (Harrison s) (boundary_values s) (span_metric s) (vars_local s) (vars_args s) (Oviedo s) (Chepin s) (global_vars_access s) (global_vars_used s) (global_vars_metric s) (bbls_boundaries s) (CardnGlass s) (fan_in_i s) (fan_in_s s) (fan_out_i s) (calls_dict s) (fan_out_s s) (HenrynCafura s) (Cocol s).
Definition set_Halstead_basic (v : Halstead_metric) (s : Metrics_function) : Metrics_function :=
  mk_Metrics_function (function_name s) (function_ea s) (function_end s) (metrics_mask s) (loc_count s) (bbl_count s) (condition_count s) (calls_count s) (R s) (CC s) (CL s) (assign_count s) (ABC s) (CC_modified s) (Pivovarsky s) v (Harrison s) (boundary_values s) (span_metric s) (vars_local s) (vars_args s) (Oviedo s) (Chepin s) (global_vars_access s) (global_vars_used s) (global_vars_metric s) (bbls_boundaries s) (CardnGlass s) (fan_in_i s) (fan_in_s s) (fan_out_i s) (calls_dict s) (fan_out_s s) (HenrynCafura s) (Cocol s).
Definition set_Harrison (v : Z) (s : Metrics_function) : Metrics_function :=
  mk_Metrics_function (function_name s) (function_ea s) (function_end s) (metrics_mask s) (loc_count s) (bbl_count s) (condition_count s) (calls_count s) (R s) (CC s) (CL s) (assign_count s) (ABC s) (CC_modified s) (Pivovarsky s) (Halstead_basic s) v (boundary_values s) (span_metric s) (vars_local s) (vars_args s) (Oviedo s) (Chepin s) (global_vars_access s) (global_vars_used s) (global_vars_metric s) (bbls_boundaries s) (CardnGlass s) (fan_in_i s) (fan_in_s s) (fan_out_i s) (calls_dict s) (fan_out_s s) (HenrynCafura s) (Cocol s).
Definition set_boundary_values (v : Z) (s : Metrics_function) : Metrics_function :=
  mk_Metrics_function (function_name s) (function_ea s) (function_end s) (metrics_mask s) (loc_count s) (bbl_count s) (condition_count s) (calls_count s) (R s) (CC s) (CL s) (assign_count s) (ABC s) (CC_modified s) (Pivovarsky s) (Halstead_basic s) (Harrison s) v (span_metric s) (vars_local s) (vars_args s) (Oviedo s) (Chepin s) (global_vars_access s) (global_vars_used s) (global_vars_metric s) (bbls_boundaries s) (CardnGlass s) (fan_in_i s) (fan_in_s s) (fan_out_i s) (calls_dict s) (fan_out_s s) (HenrynCafura s) (Cocol s).
Definition set_span_metric (v : Z) (s : Metrics_function) : Metrics_function :=
  mk_Metrics_function (function_name s) (function_ea s) (function_end s) (metrics_mask s) (loc_count s) (bbl_count s) (condition_count s) (calls_count s) (R s) (CC s) (CL s) (assign_count s) (ABC s) (CC_modified s) (Pivovarsky s) (Halstead_basic s) (Harrison s) (boundary_values s) v (vars_local s) (vars_args s) (Oviedo s) (Chepin s) (global_vars_access s) (global_vars_used s) (global_vars_metric s) (bbls_boundaries s) (CardnGlass s) (fan_in_i s) (fan_in_s s) (fan_out_i s) (calls_dict s) (fan_out_s s) (HenrynCafura s) (Cocol s).
Definition set_vars_local (v : list (string * list Z)) (s : Metrics_function) : Metrics_function :=
  mk_Metrics_function (function_name s) (function_ea s) (function_end s) (metrics_mask s) (loc_count s) (bbl_count s) (condition_count s) (calls_count s) (R s) (CC s) (CL s) (assign_count s) (ABC s) (CC_modified s) (Pivovarsky s) (Halstead_basic s) (Harrison s) (boundary_values s) (span_metric s) v (vars_args s) (Oviedo s) (Chepin s) (global_vars_access s) (global_vars_used s) (global_vars_metric s) (bbls_boundaries s) (CardnGlass s) (fan_in_i s) (fan_in_s s) (fan_out_i s) (calls_dict s) (fan_out_s s) (HenrynCafura s) (Cocol s).
Definition set_vars_args (v : list (string * list Z)) (s : Metrics_function) : Metrics_function :=
  mk_Metrics_function (function_name s) (function_ea s) (function_end s) (metrics_mask s) (loc_count s) (bbl_count s) (condition_count s) (calls_count s) (R s) (CC s) (CL s) (assign_count s) (ABC s) (CC_modified s) (Pivovarsky s) (Halstead_basic s) (Harrison s) (boundary_values s) (span_metric s) (vars_local s) v (Oviedo s) (Chepin s) (global_vars_access s) (global_vars_used s) (global_vars_metric s) (bbls_boundaries s) (CardnGlass s) (fan_in_i s) (fan_in_s s) (fan_out_i s) (calls_dict s) (fan_out_s s) (HenrynCafura s) (Cocol s).
Definition set_Oviedo (v : Z) (s : Metrics_function) : Metrics_function :=
  mk_Metrics_function (function_name s) (function_ea s) (function_end s) (metrics_mask s) (loc_count s) (bbl_count s) (condition_count s) (calls_count s) (R s) (CC s) (CL s) (assign_count s) (ABC s) (CC_modified s) (Pivovarsky s) (Halstead_basic s) (Harrison s) (boundary_values s) (span_metric s) (vars_local s) (vars_args s) v (Chepin s) (global_vars_access s) (global_vars_used s) (global_vars_metric s) (bbls_boundaries s) (CardnGlass s) (fan_in_i s) (fan_in_s s) (fan_out_i s) (calls_dict s) (fan_out_s s) (HenrynCafura s) (Cocol s).
Definition set_Chepin (v : Q) (s : Metrics_function) : Metrics_function :=
  mk_Metrics_function (function_name s) (function_ea s) (function_end s) (metrics_mask s) (loc_count s) (bbl_count s) (condition_count s) (calls_count s) (R s) (CC s) (CL s) (assign_count s) (ABC s) (CC_modified s) (Pivovarsky s) (Halstead_basic s) (Harrison s) (boundary_values s) (span_metric s) (vars_local s) (vars_args s) (Oviedo s) v (global_vars_access s) (global_vars_used s) (global_vars_metric s) (bbls_boundaries s) (CardnGlass s) (fan_in_i s) (fan_in_s s) (fan_out_i s) (calls_dict s) (fan_out_s s) (HenrynCafura s) (Cocol s).
Definition set_global_vars_access (v : Z) (s : Metrics_function) : Metrics_function :=
  mk_Metrics_function (function_name s) (function_ea s) (function_end s) (metrics_mask s) (loc_count s) (bbl_count s) (condition_count s) (calls_count s) (R s) (CC s) (CL s) (assign_count s) (ABC s) (CC_modified s) (Pivovarsky s) (Halstead_basic s) (Harrison s) (boundary_values s) (span_metric s) (vars_local s) (vars_args s) (Oviedo s) (Chepin s) v (global_vars_used s) (global_vars_metric s) (bbls_boundaries s) (CardnGlass s) (fan_in_i s) (fan_in_s s) (fan_out_i s) (calls_dict s) (fan_out_s s) (HenrynCafura s) (Cocol s).
Definition set_global_vars_used (v : list (string * list Z)) (s : Metrics_function) : Metrics_function :=
  mk_Metrics_function (function_name s) (function_ea s) (function_end s) (metrics_mask s) (loc_count s) (bbl_count s) (condition_count s) (calls_count s) (R s) (CC s) (CL s) (assign_count s) (ABC s) (CC_modified s) (Pivovarsky s) (Halstead_basic s) (Harrison s) (boundary_values s) (span_metric s) (vars_local s) (vars_args s) (Oviedo s) (Chepin s) (global_vars_access s) v (global_vars_metric s) (bbls_boundaries s) (CardnGlass s) (fan_in_i s) (fan_in_s s) (fan_out_i s) (calls_dict s) (fan_out_s s) (HenrynCafura s) (Cocol s).
Definition set_global_vars_metric (v : Q) (s : Metrics_function) : Metrics_function :=
  mk_Metrics_function (function_name s) (function_ea s) (function_end s) (metrics_mask s) (loc_count s) (bbl_count s) (condition_count s) (calls_count s) (R s) (CC s) (CL s) (assign_count s) (ABC s) (CC_modified s) (Pivovarsky s) (Halstead_basic s) (Harrison s) (boundary_values s) (span_metric s) (vars_local s) (vars_args s) (Oviedo s) (Chepin s) (global_vars_access s) (global_vars_used s) v (bbls_boundaries s) (CardnGlass s) (fan_in_i s) (fan_in_s s) (fan_out_i s) (calls_dict s) (fan_out_s s) (HenrynCafura s) (Cocol s).
Definition set_bbls_boundaries (v : list (Z * list Z)) (s : Metrics_function) : Metrics_function :=
  mk_Metrics_function (function_name s) (function_ea s) (function_end s) (metrics_mask s) (loc_count s) (bbl_count s) (condition_count s) (calls_count s) (R s) (CC s) (CL s) (assign_count s) (ABC s) (CC_modified s) (Pivovarsky s) (Halstead_basic s) (Harrison s) (boundary_values s) (span_metric s) (vars_local s) (vars_args s) (Oviedo s) (Chepin s) (global_vars_access s) (global_vars_used s) (global_vars_metric s) v (CardnGlass s) (fan_in_i s) (fan_in_s s) (fan_out_i s) (calls_dict s) (fan_out_s s) (HenrynCafura s) (Cocol s).
Definition set_CardnGlass (v : Q) (s : Metrics_function) : Metrics_function :=
  mk_Metrics_function (function_name s) (function_ea s) (function_end s) (metrics_mask s) (loc_count s) (bbl_count s) (condition_count s) (calls_count s) (R s) (CC s) (CL s) (assign_count s) (ABC s) (CC_modified s) (Pivovarsky s) (Halstead_basic s) (Harrison s) (boundary_values s) (span_metric s) (vars_local s) (vars_args s) (Oviedo s) (Chepin s) (global_vars_access s) (global_vars_used s) (global_vars_metric s) (bbls_boundaries s) v (fan_in_i s) (fan_in_s s) (fan_out_i s) (calls_dict s) (fan_out_s s) (HenrynCafura s) (Cocol s).
Definition set_fan_in_i (v : Z) (s : Metrics_function) : Metrics_function :=
  mk_Metrics_function (function_name s) (function_ea s) (function_end s) (metrics_mask s) (loc_count s) (bbl_count s) (condition_count s) (calls_count s) (R s) (CC s) (CL s) (assign_count s) (ABC s) (CC_modified s) (Pivovarsky s) (Halstead_basic s) (Harrison s) (boundary_values s) (span_metric s) (vars_local s) (vars_args s) (Oviedo s) (Chepin s) (global_vars_access s) (global_vars_used s) (global_vars_metric s) (bbls_boundaries s) (CardnGlass s) v (fan_in_s s) (fan_out_i s) (calls_dict s) (fan_out_s s) (HenrynCafura s) (Cocol s).
Definition set_fan_in_s (v : Z) (s : Metrics_function) : Metrics_function :=
  mk_Metrics_function (function_name s) (function_ea s) (function_end s) (metrics_mask s) (loc_count s) (bbl_count s) (condition_count s) (calls_count s) (R s) (CC s) (CL s) (assign_count s) (ABC s) (CC_modified s) (Pivovarsky s) (Halstead_basic s) (Harrison s) (boundary_values s) (span_metric s) (vars_local s) (vars_args s) (Oviedo s) (Chepin s) (global_vars_access s) (global_vars_used s) (global_vars_metric s) (bbls_boundaries s) (CardnGlass s) (fan_in_i s) v (fan_out_i s) (calls_dict s) (fan_out_s s) (HenrynCafura s) (Cocol s).
Definition set_fan_out_i (v : Z) (s : Metrics_function) : Metrics_function :=
  mk_Metrics_function (function_name s) (function_ea s) (function_end s) (metrics_mask s) (loc_count s) (bbl_count s) (condition_count s) (calls_count s) (R s) (CC s) (CL s) (assign_count s) (ABC s) (CC_modified s) (Pivovarsky s) (Halstead_basic s) (Harrison s) (boundary_values s) (span_metric s) (vars_local s) (vars_args s) (Oviedo s) (Chepin s) (global_vars_access s) (global_vars_used s) (global_vars_metric s) (bbls_boundaries s) (CardnGlass s) (fan_in_i s) (fan_in_s s) v (calls_dict s) (fan_out_s s) (HenrynCafura s) (Cocol s).
Definition set_calls_dict (v : list (call_key * Z)) (s : Metrics_function) : Metrics_function :=
  mk_Metrics_function (function_name s) (function_ea s) (function_end s) (metrics_mask s) (loc_count s) (bbl_count s) (condition_count s) (calls_count s) (R s) (CC s) (CL s) (assign_count s) (ABC s) (CC_modified s) (Pivovarsky s) (Halstead_basic s) (Harrison s) (boundary_values s) (span_metric s) (vars_local s) (vars_args s) (Oviedo s) (Chepin s) (global_vars_access s) (global_vars_used s) (global_vars_metric s) (bbls_boundaries s) (CardnGlass s) (fan_in_i s) (fan_in_s s) (fan_out_i s) v (fan_out_s s) (HenrynCafura s) (Cocol s).
Definition set_fan_out_s (v : Z) (s : Metrics_function) : Metrics_function :=
  mk_Metrics_function (function_name s) (function_ea s) (function_end s) (metrics_mask s) (loc_count s) (bbl_count s) (condition_count s) (calls_count s) (R s) (CC s) (CL s) (assign_count s) (ABC s) (CC_modified s) (Pivovarsky s) (Halstead_basic s) (Harrison s) (boundary_values s) (span_metric s) (vars_local s) (vars_args s) (Oviedo s) (Chepin s) (global_vars_access s) (global_vars_used s) (global_vars_metric s) (bbls_boundaries s) (CardnGlass s) (fan_in_i s) (fan_in_s s) (fan_out_i s) (calls_dict s) v (HenrynCafura s) (Cocol s).
Definition set_HenrynCafura (v : Z) (s : Metrics_function) : Metrics_function :=
  mk_Metrics_function (function_name s) (function_ea s) (function_end s) (metrics_mask s) (loc_count s) (bbl_count s) (condition_count s) (calls_count s) (R s) (CC s) (CL s) (assign_count s) (ABC s) (CC_modified s) (Pivovarsky s) (Halstead_basic s) (Harrison s) (boundary_values s) (span_metric s) (vars_local s) (vars_args s) (Oviedo s) (Chepin s) (global_vars_access s) (global_vars_used s) (global_vars_metric s) (bbls_boundaries s) (CardnGlass s) (fan_in_i s) (fan_in_s s) (fan_out_i s) (calls_dict s) (fan_out_s s) v (Cocol s).
Definition set_Cocol (v : pyfloat) (s : Metrics_function) : Metrics_function :=
  mk_Metrics_function (function_name s) (function_ea s) (function_end s) (metrics_mask s) (loc_count s) (bbl_count s) (condition_count s) (calls_count s) (R s) (CC s) (CL s) (assign_count s) (ABC s) (CC_modified s) (Pivovarsky s) (Halstead_basic s) (Harrison s) (boundary_values s) (span_metric s) (vars_local s) (vars_args s) (Oviedo s) (Chepin s) (global_vars_access s) (global_vars_used s) (global_vars_metric s) (bbls_boundaries s) (CardnGlass s) (fan_in_i s) (fan_in_s s) (fan_out_i s) (calls_dict s) (fan_out_s s) (HenrynCafura s) v.

(** The state a routine's analysis mutates: the [Metrics_function] object
    and the module-level [global_vars_dict]. *)
Record world := mk_world {
  self : Metrics_function;
  global_vars_dict : list (string * Z) }.

Definition on_self (f : Metrics_function -> Metrics_function) : M world unit :=
  modify (fun w => mk_world (f (self w)) (global_vars_dict w)).

Definition on_globals (f : list (string * Z) -> list (string * Z)) : M world unit :=
  modify (fun w => mk_world (self w) (f (global_vars_dict w))).

(** The local variables of [Metrics_function.start_analysis]. *)
Record cfg := mk_cfg {
  edges : list (Z * Z);
  boundaries : list Z;
  mnemonics : list (string * Z);
  operands : list (string * Z);
  switchea : list Z;
  cases_in_switches : Z }.

Definition enumerate {A} (l : list A) : list (Z * A) :=
  combine (map Z.of_nat (seq 0 (List.length l))) l.

(** ** Control-flow builder: the loop of [Metrics_function.start_analysis] *)

Section ControlFlow.
Variable db : database.
Variable chunks : list (Z * Z).

Definition in_chunks (ref : Z) : bool :=
  existsb (fun chunk_filter => (fst chunk_filter <=? ref) && (ref <? snd chunk_filter)) chunks.

(** The references made from [head] that stay inside the function. *)
Definition filter_refs (refs : list Z) : M world (list Z) :=
  foldM (fun refs_filtered ref =>
           if ref =? BADADDR db then raise (Exception "Invalid reference for head")
           else ret (if in_chunks ref then set_add ref refs_filtered else refs_filtered))
        refs [].

(** The key under which a call is tallied in [calls_dict]. *)
Definition call_site_key (head : Z) : M world call_key :=
  let opnd_type := get_operand_type db head 0 in
  let opnd := get_operand_value db head 0 in
  if opnd_type =? o_reg then ret (key_reg, opnd)
  else if opnd_type =? o_phrase then ret (key_phrase, opnd)
  else if opnd_type =? o_displ then ret (key_displ, opnd)
  else if py_in opnd_type [o_mem; o_imm; o_far; o_near] then ret (key_mem, opnd)
  else raise (Exception "Cthulhu has awakened").

Definition count_instruction (head : Z) (instruction_type : inType) : M world unit :=
  match instruction_type with
  | CONDITIONAL_BRANCH =>
      on_self (fun s => set_condition_count (condition_count s + 1) s)
  | CALL =>
      on_self (fun s => set_calls_count (calls_count s + 1) s) ;;
      key <- call_site_key head ;;
      on_self (fun s => set_calls_dict (dict_incr key (calls_dict s)) s)
  | ASSIGNMENT =>
      on_self (fun s => set_assign_count (assign_count s + 1) s)
  | _ => ret tt
  end.

(** One operand of a non-branch, non-call instruction: the operand tally
    and the local/global variable usage lists. *)
Definition operand_step (head : Z) (ops_tally : list (string * Z)) (e : Z * (string * Z))
  : M world (list (string * Z)) :=
  let '(idx, (op, op_type)) := e in
  let ops_tally := dict_incr op ops_tally in
  (if op_type =? o_mem then
     if is_var_global db (get_operand_value db head idx) && negb (str_contains "__" op) then
       on_globals (dict_set op (match dict_get op ops_tally with Some n => n | None => 0 end + 1)) ;;
       on_self (fun s => set_global_vars_used (dict_append op head (global_vars_used s)) s) ;;
       on_self (fun s => set_global_vars_access (global_vars_access s + 1) s)
     else if negb (str_contains "__" op) then
       on_self (fun s => set_vars_local (dict_append op head (vars_local s)) s)
     else ret tt
   else if (op_type =? o_phrase) || (op_type =? o_displ) then
     match get_local_var_name op with
     | Some name =>
         if eqb name "" then ret tt
         else on_self (fun s => set_vars_local (dict_append name head (vars_local s)) s)
     | None => ret tt
     end
   else ret tt) ;;
  ret ops_tally.

(** The edges contributed by one reference [r] of [head]. *)
Definition add_edges (chunk : Z * Z) (head : Z) (es : list (Z * Z)) (r : Z) : list (Z * Z) :=
  let es :=
    if is_flow db r then
      let prev := prev_head db r (fst chunk) in
      if prev =? BADADDR db then set_add (head, r) es else set_add (prev, r) es
    else es in
  set_add (head, r) es.

Definition head_step (chunk : Z * Z) (l : cfg) (head : Z) : M world cfg :=
  if head =? BADADDR db then raise (Exception "Invalid head for parsing")
  else if negb (is_code db head) then ret l
  else
    on_self (fun s => set_loc_count (loc_count s + 1) s) ;;
    refs <- filter_refs (CodeRefsFrom db head) ;;
    s <- get ;;
    let instruction_type :=
      GetInstructionType db (function_ea (self s)) (function_end (self s)) head in
    count_instruction head instruction_type ;;
    let mnemonics' := dict_incr (print_insn_mnem db head) (mnemonics l) in
    let '(switchea', cases') :=
      match get_switch_info db head with
      | Some (startea, ncases) =>
          if py_in startea (switchea l) then (switchea l, cases_in_switches l)
          else (set_add startea (switchea l), cases_in_switches l + ncases)
      | None => (switchea l, cases_in_switches l)
      end in
    operands' <-
      (if negb (inType_eqb instruction_type CONDITIONAL_BRANCH)
          && negb (inType_eqb instruction_type CALL)
       then foldM (operand_step head) (enumerate (get_instr_operands db head)) (operands l)
       else ret (operands l)) ;;
    match refs with
    | [] => ret (mk_cfg (edges l) (boundaries l) mnemonics' operands' switchea' cases')
    | _ :: _ =>
        let nxt := next_head db head (snd chunk) in
        let refs := if is_flow db nxt then set_add nxt refs else refs in
        ret (mk_cfg (fold_left (add_edges chunk head) refs (edges l))
                    (set_update (boundaries l) refs)
                    mnemonics' operands' switchea' cases')
    end.

Definition chunk_step (l : cfg) (chunk : Z * Z) : M world cfg :=
  foldM (head_step chunk) (Heads db chunk) l.

Definition build_cfg (f_start : Z) : M world cfg :=
  foldM chunk_step chunks (mk_cfg [] [f_start] [] [] [] 0).
End ControlFlow.

(** ** Basic-block partitioner: [get_bbls] *)

Section Partition.
Variable db : database.
Variables function_start function_end_ea : Z.

(** [head in edges]: [head] is an int and [edges] holds pairs of strings,
    so the test never succeeds. *)
Definition int_in_edges (head : Z) (es : list (Z * Z)) : bool := false.

(** One iteration of the inner loop; the state is [(bbls, bbl)]. *)
Definition bbl_step (bounds : list Z) (es : list (Z * Z))
           (st : list (list Z) * list Z) (head : Z) : list (list Z) * list Z :=
  let '(bbls, bbl) := st in
  if py_in head bounds || int_in_edges head es then
    let bbls := if 0 <? len bbl then bbls ++ [bbl] else bbls in
    (bbls, [head])
  else if inType_eqb (GetInstructionType db function_start function_end_ea head)
                     CONDITIONAL_BRANCH then
    (bbls ++ [bbl ++ [head]], [])
  else (bbls, bbl ++ [head]).

Definition get_bbls (chunks : list (Z * Z)) (bounds : list Z) (es : list (Z * Z))
  : list (list Z) :=
  let '(bbls, bbl) :=
    fold_left (fun st chunk => fold_left (bbl_step bounds es) (Heads db chunk) st)
              chunks ([], []) in
  if 0 <? len bbl then bbls ++ [bbl] else bbls.
End Partition.

(** ** Node-graph builder: [make_graph] *)

(** A node maps to its successor list, or to [None] for a terminal node. *)
Definition node_graph := list (Z * option (list Z)).

(** [node_graph.get(node, None)]: [None] for an absent key and for a key
    mapped to [None] alike. *)
Definition graph_get (node : Z) (g : node_graph) : option (list Z) :=
  match dict_get node g with
  | Some (Some l) => Some l
  | _ => None
  end.

Definition rbind {A B} (r : result A) (k : A -> result B) : result B :=
  match r with
  | Ok a => k a
  | Raise e => Raise e
  end.

Fixpoint rfold {A B} (f : B -> A -> result B) (xs : list A) (b : B) : result B :=
  match xs with
  | [] => Ok b
  | x :: xs' => rbind (f b x) (rfold f xs')
  end.

(** [l[0]] and [l[len(l) - 1]] *)
Definition first {A} (l : list A) : result A :=
  match l with
  | x :: _ => Ok x
  | [] => Raise (IndexError "list index out of range")
  end.
Definition last_item {A} (l : list A) : result A := first (rev l).

Section MakeGraph.
Variable db : database.

Definition make_graph (es : list (Z * Z)) (bbls : list (list Z)) (bounds : list Z)
  : result node_graph :=
  rbind (rfold (fun (edges_dict : list (Z * list Z)) e =>
                  let '(edge_from, edge_to) := e in
                  if edge_from =? BADADDR db
                  then Raise (Exception "Invalid edge reference")
                  else Ok (dict_append edge_from edge_to edges_dict))
               es [])
  (fun edges_dict =>
  rbind (rfold (fun (bbls_dict : list (Z * list Z)) bbl =>
                  rbind (last_item bbl) (fun k => Ok (dict_set k bbl bbls_dict)))
               bbls [])
  (fun bbls_dict =>
  let boundaries_list := bounds in
  rbind (rfold (fun (g : node_graph) kv =>
                  let '(edge_from, node_edges_to) := kv in
                  if negb (py_in edge_from boundaries_list) then
                    match dict_get edge_from bbls_dict with
                    | None => Ok g
                    | Some bbl_edge_from =>
                        rbind (first bbl_edge_from)
                              (fun k => Ok (dict_set k (Some node_edges_to) g))
                    end
                  else Ok (dict_set edge_from (Some node_edges_to) g))
               edges_dict [])
  (fun g =>
  rbind (if (len g =? 0) && (len edges_dict =? 0) && (len boundaries_list =? 1) then
           rbind (first boundaries_list) (fun k => Ok (dict_set k None g))
         else if (len g =? 0) && negb (len edges_dict =? 0) then
           Raise (Exception "Error when creating node graph")
         else Ok g)
  (fun g =>
  rfold (fun (g : node_graph) bbl =>
           rbind (first bbl) (fun k =>
           match graph_get k g with
           | None => Ok (dict_set k None g)
           | Some _ => Ok g
           end))
        bbls g)))).
End MakeGraph.

(** ** Graph metrics *)

(** [get_subgraph_nodes_count]: the count and the visited list
    [nodes_passed] after the call.  [fuel] bounds the recursion depth. *)
Fixpoint get_subgraph_nodes_count (fuel : nat) (node : Z) (g : node_graph)
         (nodes_passed : list Z) : option (Z * list Z) :=
  match fuel with
  | O => None
  | S fuel' =>
      if py_in node nodes_passed then Some (1, nodes_passed)
      else
        let nodes_passed := nodes_passed ++ [node] in
        match graph_get node g with
        | None => Some (0, nodes_passed)
        | Some child_nodes =>
            fold_left
              (fun acc child_node =>
                 match acc with
                 | None => None
                 | Some (nodes_count, passed) =>
                     if py_in child_node passed then Some (nodes_count, passed)
                     else
                       match get_subgraph_nodes_count fuel' child_node g passed with
                       | None => None
                       | Some (c, passed') => Some (nodes_count + c + 1, passed')
                       end
                 end)
              child_nodes (Some (0, nodes_passed))
        end
  end.

(** Every node named by the graph, as a key or as a successor. *)
Definition graph_nodes (g : node_graph) : list Z :=
  flat_map (fun kv => fst kv :: match snd kv with Some l => l | None => [] end) g.

(** The recursion depth a traversal of [g] is given: one more than the
    number of nodes [g] names, which no traversal needs to exceed.  The
    interpreter's own recursion limit is not part of the model: a traversal
    deeper than that limit raises [RecursionError] in the script, and
    returns here. *)
Definition graph_fuel (g : node_graph) : nat := S (List.length (graph_nodes g)).

(** [get_boundary_value_metric] *)
Definition get_boundary_value_metric (g : node_graph) (pivovarsky : bool) : option Z :=
  let total :=
    fold_left
      (fun acc node =>
         match acc with
         | None => None
         | Some boundary_value =>
             match graph_get node g with
             | None => Some boundary_value
             | Some childs =>
                 let out_edges_count := len childs in
                 if pivovarsky then
                   if out_edges_count =? 2 then
                     match get_subgraph_nodes_count (graph_fuel g) node g [] with
                     | Some (c, _) => Some (boundary_value + c)
                     | None => None
                     end
                   else Some boundary_value
                 else if 2 <=? out_edges_count then
                   match get_subgraph_nodes_count (graph_fuel g) node g [] with
                   | Some (c, _) => Some (boundary_value + c)
                   | None => None
                   end
                 else Some (boundary_value + 1)
             end
         end)
      (dict_keys g) (Some 0) in
  match total with
  | Some boundary_value => Some (if pivovarsky then boundary_value else boundary_value - 1)
  | None => None
  end.

(** [get_node_complexity]: the measure and the visited list after the call.
    Called on a node already in [nodes_passed] the function returns a tuple,
    which the caller's [loc_measure +=] rejects with a [TypeError]; no call
    of the script does so.  Exhausted [fuel] stands for Python's
    [RecursionError]. *)
Fixpoint get_node_complexity (fuel : nat) (node : Z) (g : node_graph)
         (bbls_dict : list (Z * list Z)) (nodes_passed : list Z) : result (Z * list Z) :=
  match fuel with
  | O => Raise (RecursionError "maximum recursion depth exceeded")
  | S fuel' =>
      if py_in node nodes_passed
      then Raise (TypeError "unsupported operand type(s) for +=: 'int' and 'tuple'")
      else
        let nodes_passed := nodes_passed ++ [node] in
        match graph_get node g with
        | None => Ok (0, nodes_passed)
        | Some child_nodes =>
            rfold
              (fun (acc : Z * list Z) child_node =>
                 let '(loc_measure, passed) := acc in
                 if py_in child_node passed then Ok (loc_measure, passed)
                 else
                   match dict_get child_node bbls_dict with
                   | None => Ok (loc_measure, passed)
                   | Some bbls_node =>
                       rbind (get_node_complexity fuel' child_node g bbls_dict passed)
                             (fun r => Ok (loc_measure + len bbls_node + fst r, snd r))
                   end)
              child_nodes (0, nodes_passed)
        end
  end.

(** [get_harrison_metric] *)
Definition get_harrison_metric (g : node_graph) (bbls : list (list Z)) : result Z :=
  rbind (rfold (fun (bbls_dict : list (Z * list Z)) bbl =>
                  rbind (first bbl) (fun k => Ok (dict_set k bbl bbls_dict)))
               bbls [])
  (fun bbls_dict =>
  rfold (fun loc_measure node =>
           let own :=
             match dict_get node bbls_dict with
             | Some loc_measure_node => len loc_measure_node
             | None => 0
             end in
           match graph_get node g with
           | Some [_; _] =>
               rbind (get_node_complexity (graph_fuel g) node g bbls_dict [])
                     (fun r => Ok (loc_measure + fst r + own))
           | _ => Ok (loc_measure + own)
           end)
        (dict_keys g) 0).

(** ** Halstead: [Halstead_metric.calculate] *)

(** [math.log(x, 2)] raises [ValueError] unless [x] is positive. *)
Definition math_log2 (x : Z) : result pyfloat :=
  if 0 <? x then Ok (Flog2 x) else Raise (ValueError "math domain error").

Definition calculate : M Halstead_metric unit := fun h =>
  let n := n1 h + n2 h in
  let N := N1 h + N2 h in
  (* try: self.Ni = ...  except: print a warning *)
  let h :=
    match math_log2 (n1 h), math_log2 (n2 h) with
    | Ok l1, Ok l2 => set_Ni (Fadd (Fmul (Fint (n1 h)) l1) (Fmul (Fint (n2 h)) l2)) h
    | _, _ => h
    end in
  match math_log2 n with
  | Raise e => (Raise e, h)
  | Ok l =>
      let h := set_V (Fmul (Fint N) l) h in
      let h :=
        if negb (n2 h =? 0)
        then set_D (Fmul (Fdiv (Fint (n1 h)) (Fint 2)) (Fdiv (Fint (N2 h)) (Fint (n2 h)))) h
        else h in
      let h := set_E (Fmul (D h) (V h)) h in
      (Ok tt, set_B (Fdiv (Fpow (E h) (Fdiv (Fint 2) (Fint 3))) (Fint 3000)) h)
  end.

(** ** Variable metrics *)

Section VariableMetrics.
Variable db : database.

(** The operand loop of [get_oviedo_df], with its [break]. *)
Fixpoint oviedo_scan (local_var : string) (ops : list (Z * (string * Z))) (oviedo_df : Z) : Z :=
  match ops with
  | [] => oviedo_df
  | (idx, (operand, _)) :: rest =>
      if str_contains local_var operand && (idx =? 0) then oviedo_df - 1
      else oviedo_scan local_var rest oviedo_df
  end.

(** [get_oviedo_df] *)
Definition get_oviedo_df (local_vars : list (string * list Z)) : Z :=
  fold_left
    (fun oviedo_df local_var =>
       match dict_get local_var local_vars with
       | None => oviedo_df
       | Some usage_list =>
           fold_left
             (fun oviedo_df instr_addr =>
                if startswith (print_insn_mnem db instr_addr) "mov"
                then oviedo_scan local_var (enumerate (get_instr_operands db instr_addr)) oviedo_df
                else oviedo_df)
             usage_list oviedo_df
           + len usage_list
       end)
    (dict_keys local_vars) 0.

(** The first loop of [get_function_args_count]: the usages of each local
    variable that look like an argument access. *)
Definition args_of_usage (local_var : string) (args_dict : list (string * list Z)) (head : Z)
  : list (string * list Z) :=
  fold_left
    (fun args_dict e =>
       let '(idx, (op, _)) := e in
       if str_count "+"%char op =? 1 then
         let value := get_operand_value db head idx in
         if (value <? 15 * ARGUMENT_SIZE db) && str_contains "ebp" op
         then dict_append local_var head args_dict else args_dict
       else if str_count "+"%char op =? 2 then
         if str_contains "arg" local_var
         then dict_append local_var head args_dict else args_dict
       else args_dict)
    (enumerate (get_instr_operands db head)) args_dict.

Definition collect_args (local_vars : list (string * list Z)) : list (string * list Z) :=
  fold_left
    (fun args_dict local_var =>
       match dict_get local_var local_vars with
       | None => args_dict
       | Some usage_list => fold_left (args_of_usage local_var) usage_list args_dict
       end)
    (dict_keys local_vars) [].

(** [int(op.replace("h", ""), 16) / ARGUMENT_SIZE] *)
Definition args_from_immediate (op : string) : result Q :=
  match int16 (str_remove "h"%char op) with
  | Some v => Ok (Qred (Qmake v (Z.to_pos (ARGUMENT_SIZE db))))
  | None => Raise (ValueError "invalid literal for int() with base 16")
  end.

(** The [cdecl] search: an [add esp, x] after a call of the function.
    [None] when no call site matches. *)
Fixpoint args_from_callers (refs : list Z) : result (option Q) :=
  match refs with
  | [] => Ok None
  | ref :: refs' =>
      let head := next_head db ref (BADADDR db) in
      if head =? 0 then args_from_callers refs'
      else
        let disasm := GetDisasm db head in
        if str_contains "add" disasm && str_contains "esp," disasm then
          match nth_error (get_instr_operands db head) 1 with
          | None => Raise (IndexError "list index out of range")
          | Some (op, _) =>
              if eqb op "" then args_from_callers refs'
              else rbind (args_from_immediate op) (fun q => Ok (Some q))
          end
        else args_from_callers refs'
  end.

(** [get_function_args_count] *)
Definition get_function_args_count (function_ea : Z) (local_vars : list (string * list Z))
  : result (Q * list (string * list Z)) :=
  let args_dict := collect_args local_vars in
  let function_args_count := len args_dict in
  if negb (function_args_count =? 0) then Ok (inject_Z function_args_count, args_dict)
  else
    let f_end := prev_head db (func_end db function_ea) 0 in
    let stdcall :=
      if str_contains "ret" (print_insn_mnem db f_end) then
        match get_instr_operands db f_end with
        | [(op, _)] => rbind (args_from_immediate op) (fun q => Ok (Some q))
        | _ => Ok None
        end
      else Ok None in
    rbind stdcall (fun r =>
    match r with
    | Some q => Ok (q, args_dict)
    | None =>
        rbind (args_from_callers (crefs_to db function_ea)) (fun r =>
        match r with
        | Some q => Ok (q, args_dict)
        | None => Ok (inject_Z function_args_count, args_dict)
        end)
    end).

(** The variables of [local_vars] with a usage in a [cmp*] or [test*]
    instruction ([tmp_dict] of [get_chepin]). *)
Definition compared_vars (local_vars : list (string * list Z)) : list (string * list Z) :=
  fold_left
    (fun tmp_dict local_var =>
       match dict_get local_var local_vars with
       | None => tmp_dict
       | Some usage_list =>
           fold_left
             (fun tmp_dict instr_addr =>
                let instr_mnem := print_insn_mnem db instr_addr in
                if startswith instr_mnem "cmp" || startswith instr_mnem "test"
                then dict_append local_var instr_addr tmp_dict else tmp_dict)
             usage_list tmp_dict
       end)
    (dict_keys local_vars) [].

(** [for k in ks: if k in local_vars: del local_vars[k]] *)
Definition delete_keys {V} (ks : list string) (local_vars : list (string * V))
  : list (string * V) :=
  fold_left (fun lv k => if dict_mem k lv then dict_del k lv else lv) ks local_vars.

(** The body of [get_chepin] on the table it is handed: the value of the
    metric and the table as the deletions leave it. *)
Definition chepin_of (function_ea : Z) (local_vars : list (string * list Z))
  : result (Q * list (string * list Z)) :=
  rbind (get_function_args_count function_ea local_vars) (fun '(p, var_args_tmp) =>
  let tmp_dict := compared_vars local_vars in
  let local_vars := delete_keys (dict_keys var_args_tmp) local_vars in
  let local_vars := delete_keys (dict_keys tmp_dict) local_vars in
  let c := len tmp_dict in
  let m := len local_vars in
  Ok ((p + inject_Z (2 * m) + inject_Z (3 * c))%Q, local_vars)).

(** [get_chepin], called as [self.get_chepin(self.vars_local, function_ea)]:
    [local_vars] is the object [self.vars_local], so the deletions are
    made in the routine's own table. *)
Definition get_chepin (function_ea : Z) : M world Q :=
  w <- get ;;
  match chepin_of function_ea (vars_local (self w)) with
  | Raise e => raise e
  | Ok (chepin, local_vars) =>
      on_self (set_vars_local local_vars) ;;
      ret chepin
  end.

(** [op in instr_ops]: [op] is a string and [instr_ops] holds pairs, so
    the test never succeeds. *)
Definition str_in_operands (op : string) (instr_ops : list (string * Z)) : bool := false.

(** [is_operand_called]; [op] loses its ["ds:"] at the first call or
    conditional branch and is searched for in the disassembly line. *)
Fixpoint is_operand_called (function_start function_end_ea : Z) (op : string) (bbl : list Z)
  : bool :=
  match bbl with
  | [] => false
  | instr :: rest =>
      match GetInstructionType db function_start function_end_ea instr with
      | CALL | CONDITIONAL_BRANCH =>
          if str_in_operands op (get_instr_operands db instr) then true
          else
            let op := str_remove_sub "ds:" op in
            if str_contains op (GetDisasm db instr) then true
            else is_operand_called function_start function_end_ea op rest
      | _ => is_operand_called function_start function_end_ea op rest
      end
  end.

(** [get_span_metric] *)
Definition get_span_metric (function_start function_end_ea : Z)
           (bbls_dict : list (Z * list Z)) : Z :=
  fold_left
    (fun span_metric kv =>
       let bbl := snd kv in
       fold_left
         (fun span_metric head =>
            match GetInstructionType db function_start function_end_ea head with
            | CALL | CONDITIONAL_BRANCH => span_metric
            | _ =>
                fold_left
                  (fun span_metric o =>
                     if is_operand_called function_start function_end_ea (fst o) bbl
                     then span_metric
                     else if (o_mem <=? snd o) && (snd o <=? o_displ) then span_metric + 1
                     else span_metric)
                  (get_instr_operands db head) span_metric
            end)
         bbl span_metric)
    bbls_dict 0.

(** [get_unique_vars_read_write_count]: the operand loop, with its
    [break], on the pair of tallies [(tmp_dict_read, tmp_dict_write)]. *)
Fixpoint read_write_scan (arg_var : string) (ops : list (Z * (string * Z)))
         (rw : list (string * Z) * list (string * Z)) : list (string * Z) * list (string * Z) :=
  match ops with
  | [] => rw
  | (idx, (op, _)) :: rest =>
      if str_contains arg_var op && (idx =? 0) then (fst rw, dict_incr arg_var (snd rw))
      else read_write_scan arg_var rest (dict_incr arg_var (fst rw), snd rw)
  end.

Definition get_unique_vars_read_write_count (function_start function_end_ea : Z)
           (vars_dict : list (string * list Z)) : Z * Z :=
  let rw :=
    fold_left
      (fun rw arg_var =>
         match dict_get arg_var vars_dict with
         | None => rw
         | Some usage_list =>
             fold_left
               (fun rw instr_addr =>
                  match GetInstructionType db function_start function_end_ea instr_addr with
                  | ASSIGNMENT =>
                      read_write_scan arg_var (enumerate (get_instr_operands db instr_addr)) rw
                  | COMPARE => (dict_incr arg_var (fst rw), snd rw)
                  | _ => rw
                  end)
               usage_list rw
         end)
      (dict_keys vars_dict) ([], []) in
  (len (fst rw), len (snd rw)).

(** [get_henryncafura_metric] *)
Definition get_henryncafura_metric (f_ea : Z) : M world Z :=
  on_self (fun s => set_fan_out_s (len (calls_dict s)) s) ;;
  on_self (set_fan_in_s (len (crefs_to db f_ea))) ;;
  w <- get ;;
  match get_function_args_count f_ea (vars_local (self w)) with
  | Raise e => raise e
  | Ok (_, args) =>
      on_self (set_vars_args args) ;;
      on_self (fun s =>
                 let '(read, write) :=
                   get_unique_vars_read_write_count (function_ea s) (function_end s) (vars_args s) in
                 set_fan_out_i (fan_out_i s + write) (set_fan_in_i (fan_in_i s + read) s)) ;;
      on_self (fun s =>
                 let '(read, write) :=
                   get_unique_vars_read_write_count (function_ea s) (function_end s)
                                                    (global_vars_used s) in
                 set_fan_out_i (fan_out_i s + write) (set_fan_in_i (fan_in_i s + read) s)) ;;
      w <- get ;;
      let s := self w in
      let fan_in := fan_in_s s + fan_in_i s in
      let fan_out := fan_out_s s + fan_out_i s in
      ret (CC s + (fan_in + fan_out) ^ 2)
  end.
End VariableMetrics.

(** ** [Metrics_function.start_analysis] *)

(** [Metrics_function.__init__] *)
Definition Metrics_function_init (db : database) (function_ea : Z) (metrics_mask : mask)
  : Metrics_function :=
  mk_Metrics_function (func_name db function_ea) function_ea (func_end db function_ea)
    metrics_mask
    0 0 0 0 0%Q 0 0%Q 0 (Fint 0) 0 0 Halstead_init 0 0 0 [] [] 0 0%Q 0 [] 0%Q [] 0%Q 0 0 0 [] 0 0
    (Fint 0).

Section Routine.
Variable db : database.

(** [Halstead_basic.calculate()] on the routine's own record. *)
Definition calculate_basic : M world unit := fun w =>
  let '(r, h) := calculate (Halstead_basic (self w)) in
  (r, mk_world (set_Halstead_basic h (self w)) (global_vars_dict w)).

(** A traversal that exhausts [graph_fuel] stands for Python's
    [RecursionError]. *)
Definition boundary_value (g : node_graph) (pivovarsky : bool) : M world Z :=
  match get_boundary_value_metric g pivovarsky with
  | Some v => ret v
  | None => raise (RecursionError "maximum recursion depth exceeded")
  end.

(** The metrics computed once the control-flow loop is over. *)
Definition compute_metrics (chunks : list (Z * Z)) (l : cfg) : M world unit :=
  w <- get ;;
  let m := metrics_mask (self w) in
  let f_ea := function_ea (self w) in
  let f_end := function_end (self w) in
  let bbls := get_bbls db f_ea f_end chunks (boundaries l) (edges l) in
  foldM (fun (_ : unit) bbl =>
           match first bbl with
           | Ok k => on_self (fun s => set_bbls_boundaries (dict_set k bbl (bbls_boundaries s)) s)
           | Raise e => raise e
           end) bbls tt ;;
  when (mask_cc m || mask_cocol m)
       (on_self (set_CC (len (edges l) - len (boundaries l) + 2))) ;;
  (r <- true_div (len (edges l)) (len (boundaries l)) ;; on_self (set_R r)) ;;
  on_self (set_bbl_count (len (boundaries l))) ;;
  when (mask_jilb m)
       (s <- get ;;
        if loc_count (self s) =? 0 then on_self (set_CL 0%Q)
        else (q <- true_div (condition_count (self s) + calls_count (self s))
                            (loc_count (self s)) ;;
              on_self (set_CL q))) ;;
  when (mask_abc m)
       (on_self (fun s => set_ABC (Fsqrt (assign_count s ^ 2 + condition_count s ^ 2
                                          + calls_count s ^ 2)) s)) ;;
  g <- (if mask_harr m || mask_bound m || mask_pi m then
          match make_graph db (edges l) bbls (boundaries l) with
          | Ok g => ret g
          | Raise e => raise e
          end
        else ret []) ;;
  when (mask_harr m)
       (match get_harrison_metric g bbls with
        | Ok v => on_self (set_Harrison v)
        | Raise e => raise e
        end) ;;
  when (mask_bound m)
       (v <- boundary_value g false ;; on_self (set_boundary_values v)) ;;
  when (mask_cc_mod m)
       (if negb (cases_in_switches l =? 0) then
          on_self (set_CC_modified
                     ((len (edges l) - ((cases_in_switches l - 1) * 2))
                      - (len (boundaries l) - (cases_in_switches l - 1)) + 2))
        else on_self (fun s => set_CC_modified (CC s) s)) ;;
  when (mask_pi m)
       (v <- boundary_value g true ;;
        on_self (fun s => set_Pivovarsky (CC_modified s + v) s)) ;;
  when (mask_h m || mask_cocol m)
       (on_self (fun s => set_Halstead_basic
                            (set_n2 (len (operands l))
                               (set_n1 (len (mnemonics l))
                                  (set_N1 (loc_count s) (Halstead_basic s)))) s) ;;
        when (negb (len (operands l) =? 0))
             (on_self (fun s => set_Halstead_basic
                                  (set_N2 (fold_left Z.add (map snd (operands l)) 0)
                                          (Halstead_basic s)) s) ;;
              calculate_basic)) ;;
  when (mask_span m)
       (on_self (fun s => set_span_metric (get_span_metric db f_ea f_end (bbls_boundaries s)) s)) ;;
  when (mask_oviedo m)
       (on_self (fun s => set_Oviedo (len (edges l) + get_oviedo_df db (vars_local s)) s)) ;;
  when (mask_chepin m)
       (q <- get_chepin db f_ea ;; on_self (set_Chepin q)) ;;
  when (mask_hc m || mask_cs m)
       (v <- get_henryncafura_metric db f_ea ;; on_self (set_HenrynCafura v)) ;;
  when (mask_cs m)
       (s <- get ;;
        let fan_out := fan_out_i (self s) + fan_out_s (self s) in
        q <- true_div (len (vars_args (self s))) (fan_out + 1) ;;
        on_self (set_CardnGlass (Qred (inject_Z (fan_out ^ 2) + q)))) ;;
  (* free memory *)
  on_self (fun s => set_calls_dict [] (set_global_vars_used [] (set_vars_args [] (set_vars_local [] s)))).

Definition Metrics_function_start_analysis : M world unit :=
  w <- get ;;
  let f_start := function_ea (self w) in
  let chunks := enumerate_function_chunks db f_start in
  l <- build_cfg db chunks f_start ;;
  compute_metrics chunks l.
End Routine.

(** ** The module: [class Metrics] *)

(** [class Metrics] *)
Record Metrics := mk_Metrics {
  total_loc_count : Z;
  average_loc_count : Q;
  total_bbl_count : Z;
  total_func_count : Z;
  total_condition_count : Z;
  total_assign_count : Z;
  R_total : Q;
  CC_total : Z;
  CL_total : Q;
  ABC_total : pyfloat;
  Halstead_total : Halstead_metric;
  CC_modified_total : Z;
  Pivovarsky_total : Z;
  Harrison_total : Z;
  boundary_values_total : Z;
  span_metric_total : Z;
  Oviedo_total : Z;
  Chepin_total : Q;
  global_vars_metric_total : Q;
  Cocol_total : pyfloat;
  HenrynCafura_total : Z;
  CardnGlass_total : Q;
  functions : list (string * Metrics_function) }.

Definition set_total_loc_count (v : Z) (s : Metrics) : Metrics :=
  mk_Metrics v (average_loc_count s) (total_bbl_count s) (total_func_count s) (total_condition_count s) (total_assign_count s) (R_total s) (CC_total s) (CL_total s) (ABC_total s) (Halstead_total s) (CC_modified_total s) (Pivovarsky_total s) (Harrison_total s) (boundary_values_total s) (span_metric_total s) (Oviedo_total s) (Chepin_total s) (global_vars_metric_total s) (Cocol_total s) (HenrynCafura_total s) (CardnGlass_total s) (functions s).
Definition set_average_loc_count (v : Q) (s : Metrics) : Metrics :=
  mk_Metrics (total_loc_count s) v (total_bbl_count s) (total_func_count s) (total_condition_count s) (total_assign_count s) (R_total s) (CC_total s) (CL_total s) (ABC_total s) (Halstead_total s) (CC_modified_total s) (Pivovarsky_total s) (Harrison_total s) (boundary_values_total s) (span_metric_total s) (Oviedo_total s) (Chepin_total s) (global_vars_metric_total s) (Cocol_total s) (HenrynCafura_total s) (CardnGlass_total s) (functions s).
Definition set_total_bbl_count (v : Z) (s : Metrics) : Metrics :=
  mk_Metrics (total_loc_count s) (average_loc_count s) v (total_func_count s) (total_condition_count s) (total_assign_count s) (R_total s) (CC_total s) (CL_total s) (ABC_total s) (Halstead_total s) (CC_modified_total s) (Pivovarsky_total s) (Harrison_total s) (boundary_values_total s) (span_metric_total s) (Oviedo_total s) (Chepin_total s) (global_vars_metric_total s) (Cocol_total s) (HenrynCafura_total s) (CardnGlass_total s) (functions s).
Definition set_total_func_count (v : Z) (s : Metrics) : Metrics :=
  mk_Metrics (total_loc_count s) (average_loc_count s) (total_bbl_count s) v (total_condition_count s) (total_assign_count s) (R_total s) (CC_total s) (CL_total s) (ABC_total s) (Halstead_total s) (CC_modified_total s) (Pivovarsky_total s) (Harrison_total s) (boundary_values_total s) (span_metric_total s) (Oviedo_total s) (Chepin_total s) (global_vars_metric_total s) (Cocol_total s) (HenrynCafura_total s) (CardnGlass_total s) (functions s).
Definition set_total_condition_count (v : Z) (s : Metrics) : Metrics :=
  mk_Metrics (total_loc_count s) (average_loc_count s) (total_bbl_count s) (total_func_count s) v (total_assign_count s) (R_total s) (CC_total s) (CL_total s) (ABC_total s) (Halstead_total s) (CC_modified_total s) (Pivovarsky_total s) (Harrison_total s) (boundary_values_total s) (span_metric_total s) (Oviedo_total s) (Chepin_total s) (global_vars_metric_total s) (Cocol_total s) (HenrynCafura_total s) (CardnGlass_total s) (functions s).
Definition set_total_assign_count (v : Z) (s : Metrics) : Metrics :=
  mk_Metrics (total_loc_count s) (average_loc_count s) (total_bbl_count s) (total_func_count s) (total_condition_count s) v (R_total s) (CC_total s) (CL_total s) (ABC_total s) (Halstead_total s) (CC_modified_total s) (Pivovarsky_total s) (Harrison_total s) (boundary_values_total s) (span_metric_total s) (Oviedo_total s) (Chepin_total s) (global_vars_metric_total s) (Cocol_total s) (HenrynCafura_total s) (CardnGlass_total s) (functions s).
Definition set_R_total (v : Q) (s : Metrics) : Metrics :=
  mk_Metrics (total_loc_count s) (average_loc_count s) (total_bbl_count s) (total_func_count s) (total_condition_count s) (total_assign_count s) v (CC_total s) (CL_total s) (ABC_total s) (Halstead_total s) (CC_modified_total s) (Pivovarsky_total s) (Harrison_total s) (boundary_values_total s) (span_metric_total s) (Oviedo_total s) (Chepin_total s) (global_vars_metric_total s) (Cocol_total s) (HenrynCafura_total s) (CardnGlass_total s) (functions s).
Definition set_CC_total (v : Z) (s : Metrics) : Metrics :=
  mk_Metrics (total_loc_count s) (average_loc_count s) (total_bbl_count s) (total_func_count s) (total_condition_count s) (total_assign_count s) (R_total s) v (CL_total s) (ABC_total s) (Halstead_total s) (CC_modified_total s) (Pivovarsky_total s) (Harrison_total s) (boundary_values_total s) (span_metric_total s) (Oviedo_total s) (Chepin_total s) (global_vars_metric_total s) (Cocol_total s) (HenrynCafura_total s) (CardnGlass_total s) (functions s).
Definition set_CL_total (v : Q) (s : Metrics) : Metrics :=
  mk_Metrics (total_loc_count s) (average_loc_count s) (total_bbl_count s) (total_func_count s) (total_condition_count s) (total_assign_count s) (R_total s) (CC_total s) v (ABC_total s) (Halstead_total s) (CC_modified_total s) (Pivovarsky_total s) (Harrison_total s) (boundary_values_total s) (span_metric_total s) (Oviedo_total s) (Chepin_total s) (global_vars_metric_total s) (Cocol_total s) (HenrynCafura_total s) (CardnGlass_total s) (functions s).
Definition set_ABC_total (v : pyfloat) (s : Metrics) : Metrics :=
  mk_Metrics (total_loc_count s) (average_loc_count s) (total_bbl_count s) (total_func_count s) (total_condition_count s) (total_assign_count s) (R_total s) (CC_total s) (CL_total s) v (Halstead_total s) (CC_modified_total s) (Pivovarsky_total s) (Harrison_total s) (boundary_values_total s) (span_metric_total s) (Oviedo_total s) (Chepin_total s) (global_vars_metric_total s) (Cocol_total s) (HenrynCafura_total s) (CardnGlass_total s) (functions s).
Definition set_Halstead_total (v : Halstead_metric) (s : Metrics) : Metrics :=
  mk_Metrics (total_loc_count s) (average_loc_count s) (total_bbl_count s) (total_func_count s) (total_condition_count s) (total_assign_count s) (R_total s) (CC_total s) (CL_total s) (ABC_total s) v (CC_modified_total s) (Pivovarsky_total s) (Harrison_total s) (boundary_values_total s) (span_metric_total s) (Oviedo_total s) (Chepin_total s) (global_vars_metric_total s) (Cocol_total s) (HenrynCafura_total s) (CardnGlass_total s) (functions s).
Definition set_CC_modified_total (v : Z) (s : Metrics) : Metrics :=
  mk_Metrics (total_loc_count s) (average_loc_count s) (total_bbl_count s) (total_func_count s) (total_condition_count s) (total_assign_count s) (R_total s) (CC_total s) (CL_total s) (ABC_total s) (Halstead_total s) v (Pivovarsky_total s) (Harrison_total s) (boundary_values_total s) (span_metric_total s) (Oviedo_total s) (Chepin_total s) (global_vars_metric_total s) (Cocol_total s) (HenrynCafura_total s) (CardnGlass_total s) (functions s).
Definition set_Pivovarsky_total (v : Z) (s : Metrics) : Metrics :=
  mk_Metrics (total_loc_count s) (average_loc_count s) (total_bbl_count s) (total_func_count s) (total_condition_count s) (total_assign_count s) (R_total s) (CC_total s) (CL_total s) (ABC_total s) (Halstead_total s) (CC_modified_total s) v (Harrison_total s) (boundary_values_total s) (span_metric_total s) (Oviedo_total s) (Chepin_total s) (global_vars_metric_total s) (Cocol_total s) (HenrynCafura_total s) (CardnGlass_total s) (functions s).
Definition set_Harrison_total (v : Z) (s : Metrics) : Metrics :=
  mk_Metrics (total_loc_count s) (average_loc_count s) (total_bbl_count s) (total_func_count s) (total_condition_count s) (total_assign_count s) (R_total s) (CC_total s) (CL_total s) (ABC_total s) (Halstead_total s) (CC_modified_total s) (Pivovarsky_total s) v (boundary_values_total s) (span_metric_total s) (Oviedo_total s) (Chepin_total s) (global_vars_metric_total s) (Cocol_total s) (HenrynCafura_total s) (CardnGlass_total s) (functions s).
Definition set_boundary_values_total (v : Z) (s : Metrics) : Metrics :=
  mk_Metrics (total_loc_count s) (average_loc_count s) (total_bbl_count s) (total_func_count s) (total_condition_count s) (total_assign_count s) (R_total s) (CC_total s) (CL_total s) (ABC_total s) (Halstead_total s) (CC_modified_total s) (Pivovarsky_total s) (Harrison_total s) v (span_metric_total s) (Oviedo_total s) (Chepin_total s) (global_vars_metric_total s) (Cocol_total s) (HenrynCafura_total s) (CardnGlass_total s) (functions s).
Definition set_span_metric_total (v : Z) (s : Metrics) : Metrics :=
  mk_Metrics (total_loc_count s) (average_loc_count s) (total_bbl_count s) (total_func_count s) (total_condition_count s) (total_assign_count s) (R_total s) (CC_total s) (CL_total s) (ABC_total s) (Halstead_total s) (CC_modified_total s) (Pivovarsky_total s) (Harrison_total s) (boundary_values_total s) v (Oviedo_total s) (Chepin_total s) (global_vars_metric_total s) (Cocol_total s) (HenrynCafura_total s) (CardnGlass_total s) (functions s).
Definition set_Oviedo_total (v : Z) (s : Metrics) : Metrics :=
  mk_Metrics (total_loc_count s) (average_loc_count s) (total_bbl_count s) (total_func_count s) (total_condition_count s) (total_assign_count s) (R_total s) (CC_total s) (CL_total s) (ABC_total s) (Halstead_total s) (CC_modified_total s) (Pivovarsky_total s) (Harrison_total s) (boundary_values_total s) (span_metric_total s) v (Chepin_total s) (global_vars_metric_total s) (Cocol_total s) (HenrynCafura_total s) (CardnGlass_total s) (functions s).
Definition set_Chepin_total (v : Q) (s : Metrics) : Metrics :=
  mk_Metrics (total_loc_count s) (average_loc_count s) (total_bbl_count s) (total_func_count s) (total_condition_count s) (total_assign_count s) (R_total s) (CC_total s) (CL_total s) (ABC_total s) (Halstead_total s) (CC_modified_total s) (Pivovarsky_total s) (Harrison_total s) (boundary_values_total s) (span_metric_total s) (Oviedo_total s) v (global_vars_metric_total s) (Cocol_total s) (HenrynCafura_total s) (CardnGlass_total s) (functions s).
Definition set_global_vars_metric_total (v : Q) (s : Metrics) : Metrics :=
  mk_Metrics (total_loc_count s) (average_loc_count s) (total_bbl_count s) (total_func_count s) (total_condition_count s) (total_assign_count s) (R_total s) (CC_total s) (CL_total s) (ABC_total s) (Halstead_total s) (CC_modified_total s) (Pivovarsky_total s) (Harrison_total s) (boundary_values_total s) (span_metric_total s) (Oviedo_total s) (Chepin_total s) v (Cocol_total s) (HenrynCafura_total s) (CardnGlass_total s) (functions s).
Definition set_Cocol_total (v : pyfloat) (s : Metrics) : Metrics :=
  mk_Metrics (total_loc_count s) (average_loc_count s) (total_bbl_count s) (total_func_count s) (total_condition_count s) (total_assign_count s) (R_total s) (CC_total s) (CL_total s) (ABC_total s) (Halstead_total s) (CC_modified_total s) (Pivovarsky_total s) (Harrison_total s) (boundary_values_total s) (span_metric_total s) (Oviedo_total s) (Chepin_total s) (global_vars_metric_total s) v (HenrynCafura_total s) (CardnGlass_total s) (functions s).
Definition set_HenrynCafura_total (v : Z) (s : Metrics) : Metrics :=
  mk_Metrics (total_loc_count s) (average_loc_count s) (total_bbl_count s) (total_func_count s) (total_condition_count s) (total_assign_count s) (R_total s) (CC_total s) (CL_total s) (ABC_total s) (Halstead_total s) (CC_modified_total s) (Pivovarsky_total s) (Harrison_total s) (boundary_values_total s) (span_metric_total s) (Oviedo_total s) (Chepin_total s) (global_vars_metric_total s) (Cocol_total s) v (CardnGlass_total s) (functions s).
Definition set_CardnGlass_total (v : Q) (s : Metrics) : Metrics :=
  mk_Metrics (total_loc_count s) (average_loc_count s) (total_bbl_count s) (total_func_count s) (total_condition_count s) (total_assign_count s) (R_total s) (CC_total s) (CL_total s) (ABC_total s) (Halstead_total s) (CC_modified_total s) (Pivovarsky_total s) (Harrison_total s) (boundary_values_total s) (span_metric_total s) (Oviedo_total s) (Chepin_total s) (global_vars_metric_total s) (Cocol_total s) (HenrynCafura_total s) v (functions s).
Definition set_functions (v : list (string * Metrics_function)) (s : Metrics) : Metrics :=
  mk_Metrics (total_loc_count s) (average_loc_count s) (total_bbl_count s) (total_func_count s) (total_condition_count s) (total_assign_count s) (R_total s) (CC_total s) (CL_total s) (ABC_total s) (Halstead_total s) (CC_modified_total s) (Pivovarsky_total s) (Harrison_total s) (boundary_values_total s) (span_metric_total s) (Oviedo_total s) (Chepin_total s) (global_vars_metric_total s) (Cocol_total s) (HenrynCafura_total s) (CardnGlass_total s) v.

Definition Metrics_init : Metrics :=
  mk_Metrics 0 0%Q 0 0 0 0 0%Q 0 0%Q (Fint 0) Halstead_init 0 0 0 0 0 0 0%Q 0%Q (Fint 0) 0 0%Q [].

(** The module-wide state: the [Metrics] object and [global_vars_dict]. *)
Record module_state := mk_module {
  metrics : Metrics;
  globals : list (string * Z) }.

Definition on_metrics (f : Metrics -> Metrics) : M module_state unit :=
  modify (fun ms => mk_module (f (metrics ms)) (globals ms)).

Section Module.
Variable db : database.
Variable metrics_used : mask.

(** [collect_total_metrics] *)
Definition collect_total_metrics (function_name : string) : M module_state unit :=
  ms <- get ;;
  match dict_get function_name (functions (metrics ms)) with
  | None => raise (Exception "KeyError")
  | Some f =>
      on_metrics (fun t =>
        set_total_loc_count (total_loc_count t + loc_count f)
        (set_total_bbl_count (total_bbl_count t + bbl_count f)
        (set_total_func_count (total_func_count t + 1)
        (set_total_condition_count (total_condition_count t + condition_count f)
        (set_total_assign_count (total_assign_count t + assign_count f)
        (set_R_total (Qred (R_total t + R f))
        (set_CC_modified_total (CC_modified_total t + CC_modified f)
        (set_Pivovarsky_total (Pivovarsky_total t + Pivovarsky f)
        (set_Harrison_total (Harrison_total t + Harrison f)
        (set_boundary_values_total (boundary_values_total t + boundary_values f)
        (set_Halstead_total
           (set_n1 (n1 (Halstead_total t) + n1 (Halstead_basic f))
           (set_n2 (n2 (Halstead_total t) + n2 (Halstead_basic f))
           (set_N1 (N1 (Halstead_total t) + N1 (Halstead_basic f))
           (set_N2 (N2 (Halstead_total t) + N2 (Halstead_basic f))
                   (Halstead_total t)))))
        (set_CC_total (CC_total t + CC f)
        (set_CL_total (Qred (CL_total t + CL f))
        (set_ABC_total (Fadd (ABC_total t) (ABC f))
        (set_span_metric_total (span_metric_total t + span_metric f)
        (set_Oviedo_total (Oviedo_total t + Oviedo f)
        (set_Chepin_total (Chepin_total t + Chepin f)%Q
        (set_HenrynCafura_total (HenrynCafura_total t + HenrynCafura f)
        (set_CardnGlass_total (Qred (CardnGlass_total t + CardnGlass f)) t))))))))))))))))))) ;;
      when (mask_cocol metrics_used)
           (on_metrics (fun t =>
              set_functions
                (dict_set function_name
                   (set_Cocol (Fadd (Fadd (B (Halstead_basic f)) (Fint (CC f)))
                                    (Fint (loc_count f))) f)
                   (functions t)) t))
  end.

(** [add_global_vars_metric]: every entry of [self.functions] gets its
    ratio and adds it to the total. *)
Definition add_global_vars_metric : M module_state Q :=
  ms <- get ;;
  foldM (fun (total_metric_count : Q) function =>
           ms <- get ;;
           match dict_get function (functions (metrics ms)) with
           | None => raise (Exception "KeyError")
           | Some f =>
               let f :=
                 if 0 <? len (globals ms)
                 then set_global_vars_metric
                        (Qred (Qmake (global_vars_access f) (Z.to_pos (len (globals ms))))) f
                 else f in
               on_metrics (fun t => set_functions (dict_set function f (functions t)) t) ;;
               ret (Qred (total_metric_count + global_vars_metric f))
           end)
        (dict_keys (functions (metrics ms))) 0%Q.

(** [Halstead_total.calculate()] *)
Definition calculate_total : M module_state unit := fun ms =>
  let '(r, h) := calculate (Halstead_total (metrics ms)) in
  (r, mk_module (set_Halstead_total h (metrics ms)) (globals ms)).

(** [collect_final_metrics] *)
Definition collect_final_metrics : M module_state unit :=
  ms <- get ;;
  when (0 <? total_func_count (metrics ms))
       (on_metrics (fun t => set_average_loc_count
                               (Qred (Qmake (total_loc_count t) (Z.to_pos (total_func_count t)))) t)) ;;
  when (mask_h metrics_used || mask_cocol metrics_used) calculate_total ;;
  when (mask_global metrics_used)
       (q <- add_global_vars_metric ;; on_metrics (set_global_vars_metric_total q)) ;;
  when (mask_cocol metrics_used)
       (on_metrics (fun t =>
          set_Cocol_total
            (Fadd (Cocol_total t)
                  (Fadd (Fadd (B (Halstead_total t)) (Fint (CC_total t)))
                        (Fint (total_loc_count t)))) t)).

(** The addresses the [while] loop of a segment visits: the segment start,
    then each function start [get_next_func] returns after it. *)
Definition routines_from (seg_ea : Z) : list Z :=
  if seg_ea =? BADADDR db then []
  else seg_ea :: filter (fun f => (seg_ea <? f) && negb (f =? BADADDR db)) (funcs db).

(** The body of the [while] loop for one [function_ea]. *)
Definition analyse_routine (function_ea : Z) : M module_state unit := fun ms =>
  let function_name := func_name db function_ea in
  match dict_get function_name (functions (metrics ms)) with
  | Some _ => (Ok tt, ms)
  | None =>
      (* self.functions[function_name] = Metrics_function(...); the object
         is in the table while its start_analysis() runs and mutates it *)
      let '(r, w) :=
        Metrics_function_start_analysis db
          (mk_world (Metrics_function_init db function_ea metrics_used) (globals ms)) in
      let ms :=
        mk_module (set_functions (dict_set function_name (self w) (functions (metrics ms)))
                                 (metrics ms))
                  (global_vars_dict w) in
      match r with
      | Raise _ => (Ok tt, ms)   (* except Exception: print, skip *)
      | Ok _ => collect_total_metrics function_name ms
      end
  end.

(** [Metrics.start_analysis] *)
Definition Metrics_start_analysis : M module_state unit :=
  foldM (fun (_ : unit) seg_ea =>
           foldM (fun (_ : unit) function_ea => analyse_routine function_ea)
                 (routines_from seg_ea) tt)
        (segments db) tt ;;
  collect_final_metrics.
End Module.

(** ** The metrics as sums over nodes and variables *)

Definition zsum (l : list Z) : Z := fold_right Z.add 0 l.

(** The count [get_subgraph_nodes_count] returns for a traversal started at
    [node] with a fresh visited list. *)
Definition subgraph_count (g : node_graph) (node : Z) : Z :=
  match get_subgraph_nodes_count (graph_fuel g) node g [] with
  | Some (c, _) => c
  | None => 0
  end.

(** What one node adds to the boundary-value metric: nothing for a terminal
    node, the traversal count for a node with two successors or more, one
    otherwise. *)
Definition node_contribution (g : node_graph) (node : Z) : Z :=
  match graph_get node g with
  | None => 0
  | Some childs => if 2 <=? len childs then subgraph_count g node else 1
  end.

(** The boundary-value metric as the specification words it: a terminal
    node has no successors, hence fewer than two, and adds one. *)
Definition successor_count (g : node_graph) (node : Z) : Z :=
  match graph_get node g with
  | Some childs => len childs
  | None => 0
  end.

Definition claimed_boundary_value (g : node_graph) : Z :=
  zsum (map (fun node => if 2 <=? successor_count g node then subgraph_count g node else 1)
            (dict_keys g)) - 1.

(** The terminal nodes of a graph: its keys without a successor list. *)
Definition terminal_count (g : node_graph) : Z :=
  len (filter (fun node => match graph_get node g with None => true | Some _ => false end)
              (dict_keys g)).

(** A recorded use of [local_var] that [get_oviedo_df] discounts: a [mov*]
    instruction whose first operand names the variable. *)
Definition writes_var (db : database) (local_var : string) (instr_addr : Z) : bool :=
  startswith (print_insn_mnem db instr_addr) "mov" &&
  match get_instr_operands db instr_addr with
  | (operand, _) :: _ => str_contains local_var operand
  | [] => false
  end.

(** Per variable: its uses, less those that are writes. *)
Definition oviedo_df_sum (db : database) (local_vars : list (string * list Z)) : Z :=
  zsum (map (fun local_var =>
               match dict_get local_var local_vars with
               | Some usage_list => len usage_list - len (filter (writes_var db local_var) usage_list)
               | None => 0
               end)
            (dict_keys local_vars)).

(** The data-flow term as the specification words it: one use less for a
    variable whose first recorded use is a write, and for no other. *)
Definition claimed_oviedo_df (db : database) (local_vars : list (string * list Z)) : Z :=
  zsum (map (fun local_var =>
               match dict_get local_var local_vars with
               | Some (first_use :: rest) =>
                   len (first_use :: rest) - (if writes_var db local_var first_use then 1 else 0)
               | Some [] => 0
               | None => 0
               end)
            (dict_keys local_vars)).

(** Disjoint address ranges. *)
Definition chunks_disjoint (chunks : list (Z * Z)) : Prop :=
  ForallOrdPairs (fun c d => snd c <= fst d \/ snd d <= fst c) chunks.

(** ** Example routines *)

Definition all_metrics : mask :=
  mk_mask true true true true true true true true true true
          true true true true true true true true true true.

Definition code (flow chg use : bool) (mnem : string) (ops : list operand) (crefs : list Z) : insn :=
  mk_insn true flow false chg use mnem ops mnem crefs None.

(** A routine with one conditional branch inside it:
<<
   0  cmp [ebp+arg_0], 0
   1  jz  loc_4
   2  mov [ebp+var_4], eax
   3  mov [ebp+var_4], ebx
   4  retn
>> *)
Definition demo_db : database :=
  mk_database false
    [ (0, code false false true "cmp"
            [mk_operand "[ebp+arg_0]" o_displ 8; mk_operand "0" o_imm 0] []);
      (1, code true false false "jz" [mk_operand "loc_4" o_near 4] [4]);
      (2, code true true true "mov"
            [mk_operand "[ebp+var_4]" o_displ 4294967292; mk_operand "eax" o_reg 0] []);
      (3, code true true true "mov"
            [mk_operand "[ebp+var_4]" o_displ 4294967292; mk_operand "ebx" o_reg 3] []);
      (4, code true false false "retn" [] []) ]
    (fun _ => []) (fun _ => []) (fun _ => "demo") (fun _ => 5) (fun _ => [(0, 5)])
    [0] [0].

Definition demo_world (m : mask) : world := mk_world (Metrics_function_init demo_db 0 m) [].

Definition demo_cfg : cfg :=
  mk_cfg [(3, 4); (1, 4); (1, 2)] [0; 4; 2]
         [("cmp", 1); ("jz", 1); ("mov", 2); ("retn", 1)]
         [("[ebp+arg_0]", 1); ("0", 1); ("[ebp+var_4]", 2); ("eax", 1); ("ebx", 1)]
         [] 0.

Definition demo_graph : node_graph := [(2, Some [4]); (0, Some [4; 2]); (4, None)].

Definition demo_vars : list (string * list Z) := [("arg_0", [0]); ("var_4", [2; 3])].

(** A conditional jump to the address right after the routine, which is
    the value of [find_func_end]:
<<
   0  nop
   1  jz  loc_4      ; loc_4 is the first address past the routine
   3  retn
>> *)
Definition tail_jump_db : database :=
  mk_database false
    [ (0, code false false false "nop" [] []);
      (1, code true false false "jz" [mk_operand "loc_4" o_near 4] [4]);
      (3, code true false false "retn" [] []) ]
    (fun _ => []) (fun _ => []) (fun _ => "tail_jump") (fun _ => 4) (fun _ => [(0, 4)])
    [0] [0].

(** The same jump as the first instruction of its routine:
<<
   0  jz  loc_3      ; loc_3 is the first address past the routine
   2  retn
>> *)
Definition entry_jump_db : database :=
  mk_database false
    [ (0, code false false false "jz" [mk_operand "loc_3" o_near 3] [3]);
      (2, code true false false "retn" [] []) ]
    (fun _ => []) (fun _ => []) (fun _ => "entry_jump") (fun _ => 3) (fun _ => [(0, 3)])
    [0] [0].

(** A routine that reads a global and ends in a jump followed by padding;
    its edge starts inside a block that the padding keeps open, and
    [make_graph] raises:
<<
   0  mov eax, counter     ; counter at 100, referenced from two places
   1  jmp loc_0
   2  nop                  ; padding, not reached by flow
>> *)
Definition padded_db : database :=
  mk_database false
    [ (0, code false true true "mov"
            [mk_operand "eax" o_reg 0; mk_operand "counter" o_mem 100] []);
      (1, code true false false "jmp" [mk_operand "loc_0" o_near 0] [0]);
      (2, code false false false "nop" [] []) ]
    (fun _ => []) (fun ea => if ea =? 100 then [0; 50] else [])
    (fun _ => "padded") (fun _ => 3) (fun _ => [(0, 3)])
    [0] [0].

(** A routine of one block:
<<
   0  nop
   1  retn
>> *)
Definition straight_db : database :=
  mk_database false
    [ (0, code false false false "nop" [] []);
      (1, code true false false "retn" [] []) ]
    (fun _ => []) (fun _ => []) (fun _ => "straight") (fun _ => 2) (fun _ => [(0, 2)])
    [0] [0].

(** A routine that reads its argument through [esp] and pops it on return:
<<
   0  mov eax, [esp+arg_0]
   1  retn 4
>> *)
Definition stack_arg_db : database :=
  mk_database false
    [ (0, code false true true "mov"
            [mk_operand "eax" o_reg 0; mk_operand "[esp+arg_0]" o_displ 4] []);
      (1, code true false false "retn" [mk_operand "4" o_imm 4] []) ]
    (fun _ => []) (fun _ => []) (fun _ => "stack_arg") (fun _ => 2) (fun _ => [(0, 2)])
    [0] [0].

(** Only the boundary-value and global-access metrics selected. *)
Definition bound_global : mask :=
  mk_mask false false false false false false false false false false
          false false true false true false false false false false.

Definition module_init : module_state := mk_module Metrics_init [].

(** ** Notions used in the proofs *)

(** The instructions a state [(bbls, bbl)] of the partitioner holds. *)
Definition flat (st : list (list Z) * list Z) : list Z := List.concat (fst st) ++ snd st.

(** [keeps p m]: whatever its outcome, [m] leaves the component [p] of the
    state as it found it. *)
Definition keeps {S A X} (p : S -> X) (m : M S A) : Prop :=
  forall s r s', m s = (r, s') -> p s' = p s.

(** The nodes of [g] a traversal has not passed yet. *)
Definition unvisited (g : node_graph) (passed : list Z) : list Z :=
  filter (fun x => negb (py_in x passed)) (nodup Z.eq_dec (graph_nodes g)).

(** The loop over the successors inside [get_subgraph_nodes_count]. *)
Definition visit_children (fuel : nat) (g : node_graph) (childs : list Z)
           (acc : option (Z * list Z)) : option (Z * list Z) :=
  fold_left
    (fun acc child_node =>
       match acc with
       | None => None
       | Some (nodes_count, passed) =>
           if py_in child_node passed then Some (nodes_count, passed)
           else
             match get_subgraph_nodes_count fuel child_node g passed with
             | None => None
             | Some (c, passed') => Some (nodes_count + c + 1, passed')
             end
       end)
    childs acc.

(** An instruction that does not close its block on its own: a boundary,
    or anything but a conditional branch. *)
Definition plain_insn (db : database) (function_start function_end_ea : Z) (bounds : list Z)
           (x : Z) : Prop :=
  In x bounds \/ GetInstructionType db function_start function_end_ea x <> CONDITIONAL_BRANCH.

(** A block in which a conditional branch that is no boundary comes last. *)
Definition closed_block (db : database) (function_start function_end_ea : Z) (bounds : list Z)
           (b : list Z) : Prop :=
  forall pre x post,
    b = pre ++ x :: post -> ~ plain_insn db function_start function_end_ea bounds x -> post = [].

(** A table of variables of [local_vars], each listed once. *)
Definition table_of (local_vars d : list (string * list Z)) : Prop :=
  NoDup (dict_keys d) /\ incl (dict_keys d) (dict_keys local_vars).

(** The table [get_chepin] leaves in [self.vars_local]. *)
Definition reduced_table (db : database) (local_vars : list (string * list Z))
  : list (string * list Z) :=
  delete_keys (dict_keys (compared_vars db local_vars))
              (delete_keys (dict_keys (collect_args db local_vars)) local_vars).

(** Every metric but Chepin. *)
Definition without_chepin : mask :=
  mk_mask true true true true true true true true true true
          true true true true true true false true true true.

(** What makes [get_function_args_count] take a variable for an argument:
    an operand of one of its recorded uses with one ["+"], a small value and
    ["ebp"], or with two ["+"] when the variable's name contains ["arg"]. *)
Definition arg_operand (db : database) (local_var : string) (head : Z)
           (e : Z * (string * Z)) : bool :=
  let '(idx, (op, _)) := e in
  if str_count "+"%char op =? 1 then
    (get_operand_value db head idx <? 15 * ARGUMENT_SIZE db) && str_contains "ebp" op
  else if str_count "+"%char op =? 2 then str_contains "arg" local_var
  else false.

Definition arg_use (db : database) (local_var : string) (head : Z) : bool :=
  existsb (arg_operand db local_var head) (enumerate (get_instr_operands db head)).

Definition is_arg (db : database) (local_var : string) (usage_list : list Z) : bool :=
  existsb (arg_use db local_var) usage_list.

(** The successors of a node; a terminal or unknown node has none. *)
Definition successors (g : node_graph) (u : Z) : list Z :=
  match graph_get u g with
  | Some childs => childs
  | None => []
  end.

(** [reaches g passed u x]: a path leads from [u] to [x] along successor
    edges, and no node on it, ends included, is in [passed]. *)
Inductive reaches (g : node_graph) (passed : list Z) : Z -> Z -> Prop :=
| reaches_here u :
    ~ In u passed -> reaches g passed u u
| reaches_step u v x :
    ~ In u passed -> In v (successors g u) -> reaches g passed v x -> reaches g passed u x.

(** The demo routine after its control-flow loop and after its analysis. *)
Definition demo_after_cfg : world :=
  Eval vm_compute in snd (build_cfg demo_db [(0, 5)] 0 (demo_world all_metrics)).

Definition demo_final : world :=
  Eval vm_compute in snd (Metrics_function_start_analysis demo_db (demo_world all_metrics)).

Unset Implicit Arguments.

(** ** Equality tests *)

Lemma eqb_true_iff {K} `{EqDec K} (x y : K) : eqb x y = true <-> x = y.
Proof. unfold eqb. destruct (eq_dec x y); split; congruence. Qed.

Lemma eqb_false_iff {K} `{EqDec K} (x y : K) : eqb x y = false <-> x <> y.
Proof. unfold eqb. destruct (eq_dec x y); split; congruence. Qed.

Lemma eqb_refl {K} `{EqDec K} (x : K) : eqb x x = true.
Proof. now apply eqb_true_iff. Qed.

(** ** The partition covers the instruction stream *)

Section PartitionFacts.
Variable db : database.
Variables fs fe : Z.
Variable bounds : list Z.
Variable es : list (Z * Z).

Lemma len_pos_iff {A} (l : list A) : (0 <? len l) = true <-> l <> [].
Proof.
  destruct l; unfold len; simpl; split; try discriminate; try congruence; reflexivity.
Qed.

Lemma len_zero_nil {A} (l : list A) : (0 <? len l) = false -> l = [].
Proof. destruct l; unfold len; simpl; [reflexivity | discriminate]. Qed.

Lemma bbl_step_flat st head :
  flat (bbl_step db fs fe bounds es st head) = flat st ++ [head].
Proof.
  destruct st as [bbls bbl]. unfold bbl_step, flat.
  destruct (py_in head bounds || int_in_edges head es).
  - destruct (0 <? len bbl) eqn:E; simpl.
    + rewrite concat_app; simpl. now rewrite app_nil_r.
    + apply len_zero_nil in E; subst. now rewrite app_nil_r.
  - destruct (inType_eqb _ _); simpl.
    + rewrite concat_app; simpl. now rewrite !app_nil_r, app_assoc.
    + now rewrite app_assoc.
Qed.

Lemma bbl_step_nonempty st head :
  Forall (fun b => b <> []) (fst st) ->
  Forall (fun b => b <> []) (fst (bbl_step db fs fe bounds es st head)).
Proof.
  destruct st as [bbls bbl]. unfold bbl_step. simpl. intros F.
  destruct (py_in head bounds || int_in_edges head es).
  - destruct (0 <? len bbl) eqn:E; simpl; auto.
    apply Forall_app; split; auto. constructor; auto. now apply len_pos_iff.
  - destruct (inType_eqb _ _); simpl; auto.
    apply Forall_app; split; auto. constructor; auto. now destruct bbl.
Qed.

Lemma bbl_loop_flat hs : forall st,
  flat (fold_left (bbl_step db fs fe bounds es) hs st) = flat st ++ hs.
Proof.
  induction hs as [|h hs IH]; intros st; simpl.
  - now rewrite app_nil_r.
  - now rewrite IH, bbl_step_flat, <- app_assoc.
Qed.

Lemma bbl_loop_nonempty hs : forall st,
  Forall (fun b => b <> []) (fst st) ->
  Forall (fun b => b <> []) (fst (fold_left (bbl_step db fs fe bounds es) hs st)).
Proof.
  induction hs as [|h hs IH]; intros st F; simpl; auto using bbl_step_nonempty.
Qed.

Lemma chunk_loop_flat chunks : forall st,
  flat (fold_left (fun st chunk => fold_left (bbl_step db fs fe bounds es) (Heads db chunk) st)
                  chunks st)
  = flat st ++ flat_map (Heads db) chunks.
Proof.
  induction chunks as [|c cs IH]; intros st; simpl.
  - now rewrite app_nil_r.
  - now rewrite IH, bbl_loop_flat, <- app_assoc.
Qed.

Lemma chunk_loop_nonempty chunks : forall st,
  Forall (fun b => b <> []) (fst st) ->
  Forall (fun b => b <> [])
         (fst (fold_left (fun st chunk => fold_left (bbl_step db fs fe bounds es) (Heads db chunk) st)
                         chunks st)).
Proof.
  induction chunks as [|c cs IH]; intros st F; simpl; auto using bbl_loop_nonempty.
Qed.

Lemma get_bbls_concat chunks :
  List.concat (get_bbls db fs fe chunks bounds es) = flat_map (Heads db) chunks.
Proof.
  unfold get_bbls.
  pose proof (chunk_loop_flat chunks ([], [])) as F.
  destruct (fold_left _ chunks ([], [])) as [bbls bbl]. unfold flat in F; simpl in F.
  destruct (0 <? len bbl) eqn:E.
  - rewrite concat_app; simpl. now rewrite app_nil_r.
  - apply len_zero_nil in E; subst. now rewrite app_nil_r in F.
Qed.

Lemma get_bbls_nonempty chunks :
  Forall (fun b => b <> []) (get_bbls db fs fe chunks bounds es).
Proof.
  unfold get_bbls.
  pose proof (chunk_loop_nonempty chunks ([], []) (Forall_nil _)) as F.
  destruct (fold_left _ chunks ([], [])) as [bbls bbl]. simpl in F.
  destruct (0 <? len bbl) eqn:E; auto.
  apply Forall_app; split; auto. constructor; auto. now apply len_pos_iff.
Qed.
End PartitionFacts.

(** ** The partition is a disjoint cover *)


Lemma Heads_range db chunk a :
  In a (Heads db chunk) -> fst chunk <= a < snd chunk.
Proof.
  unfold Heads. rewrite filter_In. intros [_ E].
  apply andb_true_iff in E as [E _]. apply andb_true_iff in E as [E1 E2].
  apply Z.leb_le in E1. apply Z.ltb_lt in E2. lia.
Qed.

Lemma Heads_NoDup db chunk : NoDup (heads db) -> NoDup (Heads db chunk).
Proof. intros N. now apply NoDup_filter. Qed.

Lemma all_heads_NoDup db chunks :
  NoDup (heads db) -> chunks_disjoint chunks -> NoDup (flat_map (Heads db) chunks).
Proof.
  intros N D. induction D as [|c cs F D IH]; simpl; [constructor|].
  apply NoDup_app; auto using Heads_NoDup.
  intros a Ha Hb. apply in_flat_map in Hb as (d & Hd & Hb).
  rewrite Forall_forall in F. specialize (F d Hd).
  apply Heads_range in Ha, Hb. lia.
Qed.

Lemma NoDup_concat_unique {A} (l : list (list A)) :
  NoDup (List.concat l) ->
  forall i j b b' a,
    nth_error l i = Some b -> nth_error l j = Some b' -> In a b -> In a b' -> i = j.
Proof.
  induction l as [|x l IH]; intros N i j b b' a Hi Hj Ha Ha'.
  - now destruct i.
  - simpl in N.
    assert (Hx : forall k c, nth_error l k = Some c -> In a c -> In a x -> False).
    { intros k c Hk Hc Hax. apply NoDup_app_remove_l in N as N'.
      clear IH. revert N. generalize (List.concat l) (in_concat l a). intros L HL N.
      assert (In a L) by (apply HL; exists c; split; eauto using nth_error_In).
      clear -N Hax H. induction x as [|y x IHx]; [easy|].
      simpl in N. inversion N; subst. destruct Hax as [->|Hax]; auto.
      apply H2. apply in_or_app. now right. }
    destruct i, j; simpl in *; auto.
    + injection Hi as <-. exfalso; eauto.
    + injection Hj as <-. exfalso; eauto.
    + f_equal. apply NoDup_app_remove_l in N. eauto.
Qed.

(** C2. For every routine whose chunks are disjoint address ranges of a
    database with distinct heads, the blocks of [get_bbls], read in order,
    are exactly the instruction stream of the chunks: nothing is missing,
    no block is empty, no address occurs twice, and every instruction address
    of every chunk lies in exactly one block. *)
Theorem get_bbls_disjoint_cover db function_start function_end_ea chunks bounds es :
  NoDup (heads db) ->
  chunks_disjoint chunks ->
  let bbls := get_bbls db function_start function_end_ea chunks bounds es in
  List.concat bbls = flat_map (Heads db) chunks /\
  Forall (fun bbl => bbl <> []) bbls /\
  NoDup (List.concat bbls) /\
  forall chunk a, In chunk chunks -> In a (Heads db chunk) ->
    exists i bbl, nth_error bbls i = Some bbl /\ In a bbl /\
      forall j bbl', nth_error bbls j = Some bbl' -> In a bbl' -> j = i.
Proof.
  intros N D bbls.
  assert (C : List.concat bbls = flat_map (Heads db) chunks) by apply get_bbls_concat.
  assert (N' : NoDup (List.concat bbls)) by (rewrite C; now apply all_heads_NoDup).
  split; [exact C | split; [apply get_bbls_nonempty | split; [exact N' |]]].
  intros chunk a Hc Ha.
  assert (Hin : In a (List.concat bbls)).
  { rewrite C. apply in_flat_map. now exists chunk. }
  apply in_concat in Hin as (bbl & Hb & Hab).
  apply In_nth_error in Hb as [i Hi].
  exists i, bbl. split; [exact Hi | split; [exact Hab |]].
  intros j bbl' Hj Hab'. eapply NoDup_concat_unique; eauto.
Qed.

(** ** Reasoning about stateful computations *)

Lemma bind_ok_inv {S A B} (m : M S A) (k : A -> M S B) s b s' :
  bind m k s = (Ok b, s') ->
  exists a s1, m s = (Ok a, s1) /\ k a s1 = (Ok b, s').
Proof.
  unfold bind. destruct (m s) as [[a|e] s1]; intros E; [eauto | discriminate].
Qed.

Lemma bind_inv {S A B} (m : M S A) (k : A -> M S B) s r s' :
  bind m k s = (r, s') ->
  (exists a s1, m s = (Ok a, s1) /\ k a s1 = (r, s')) \/
  (exists e, m s = (Raise e, s') /\ r = Raise e).
Proof.
  unfold bind. destruct (m s) as [[a|e] s1]; intros E; [left; eauto | right].
  injection E as <- <-. eauto.
Qed.

Section Keeps.
Context {S X : Type} (p : S -> X).

Lemma keeps_ret {A} (a : A) : keeps p (ret a).
Proof. intros s r s' E. now injection E as <- <-. Qed.

Lemma keeps_raise {A} (e : exn) : keeps p (@raise S A e).
Proof. intros s r s' E. now injection E as <- <-. Qed.

Lemma keeps_get : keeps p get.
Proof. intros s r s' E. now injection E as <- <-. Qed.

Lemma keeps_modify (f : S -> S) : (forall s, p (f s) = p s) -> keeps p (modify f).
Proof. intros F s r s' E. injection E as <- <-. apply F. Qed.

Lemma keeps_bind {A B} (m : M S A) (k : A -> M S B) :
  keeps p m -> (forall a, keeps p (k a)) -> keeps p (bind m k).
Proof.
  intros Hm Hk s r s' E. apply bind_inv in E as [(a & s1 & E1 & E2) | (e & E1 & _)].
  - rewrite (Hk _ _ _ _ E2). eauto.
  - eauto.
Qed.

Lemma keeps_foldM {A B} (f : B -> A -> M S B) (xs : list A) :
  (forall b a, keeps p (f b a)) -> forall b, keeps p (foldM f xs b).
Proof.
  intros F. induction xs as [|x xs IH]; intros b; simpl.
  - apply keeps_ret.
  - apply keeps_bind; auto.
Qed.

Lemma keeps_when (c : bool) (m : M S unit) : keeps p m -> keeps p (when c m).
Proof. destruct c; simpl; auto using keeps_ret. Qed.
End Keeps.

Lemma keeps_on_self {X} (p : world -> X) f :
  (forall w, p (mk_world (f (self w)) (global_vars_dict w)) = p w) -> keeps p (on_self f).
Proof. intros F. now apply keeps_modify. Qed.

Lemma keeps_on_globals {X} (p : world -> X) f :
  (forall w, p (mk_world (self w) (f (global_vars_dict w))) = p w) -> keeps p (on_globals f).
Proof. intros F. now apply keeps_modify. Qed.

(** Decompose a computation along its structure; the leaves left over are
    the state updates that touch the component. *)
Ltac frame_leaf :=
  intros; cbn;
  repeat match goal with
         | |- context [match ?x with _ => _ end] => destruct x; cbn
         end;
  reflexivity.

Ltac frame :=
  repeat first
    [ apply keeps_ret
    | apply keeps_raise
    | apply keeps_get
    | apply keeps_when
    | apply keeps_bind; [| intros ?]
    | apply keeps_foldM; intros ? ?
    | apply keeps_on_self; frame_leaf
    | apply keeps_on_globals; frame_leaf
    | match goal with
      | |- keeps _ (match ?x with _ => _ end) => destruct x
      | |- keeps _ (let _ := _ in _) => cbv zeta
      end ].

Section RoutineFrames.
Variable db : database.
Context {X : Type} (p : world -> X).

(** The control-flow loop only touches the counters, the call table, the
    usage lists and the global table. *)
Lemma build_cfg_keeps chunks f_start :
  (forall w v, p (mk_world (set_loc_count v (self w)) (global_vars_dict w)) = p w) ->
  (forall w v, p (mk_world (set_condition_count v (self w)) (global_vars_dict w)) = p w) ->
  (forall w v, p (mk_world (set_calls_count v (self w)) (global_vars_dict w)) = p w) ->
  (forall w v, p (mk_world (set_assign_count v (self w)) (global_vars_dict w)) = p w) ->
  (forall w v, p (mk_world (set_calls_dict v (self w)) (global_vars_dict w)) = p w) ->
  (forall w v, p (mk_world (set_global_vars_used v (self w)) (global_vars_dict w)) = p w) ->
  (forall w v, p (mk_world (set_global_vars_access v (self w)) (global_vars_dict w)) = p w) ->
  (forall w v, p (mk_world (set_vars_local v (self w)) (global_vars_dict w)) = p w) ->
  (forall w v, p (mk_world (self w) v) = p w) ->
  keeps p (build_cfg db chunks f_start).
Proof.
  intros H1 H2 H3 H4 H5 H6 H7 H8 H9.
  unfold build_cfg, chunk_step, head_step, filter_refs, count_instruction, call_site_key,
    operand_step.
  repeat first
    [ apply keeps_ret | apply keeps_raise | apply keeps_get | apply keeps_when
    | apply keeps_bind; [| intros ?]
    | apply keeps_foldM; intros ? ?
    | apply keeps_on_self; intros; solve [auto]
    | apply keeps_on_globals; intros; solve [auto]
    | match goal with
      | |- keeps _ (match ?x with _ => _ end) => destruct x
      | |- keeps _ (let _ := _ in _) => cbv zeta
      end ].
Qed.
End RoutineFrames.

(** ** Cyclomatic complexity *)

Lemma calculate_basic_keeps {X} (p : world -> X) :
  (forall w h, p (mk_world (set_Halstead_basic h (self w)) (global_vars_dict w)) = p w) ->
  keeps p calculate_basic.
Proof.
  intros F s r s'. unfold calculate_basic.
  destruct (calculate _) as [r0 h]. intros E. injection E as <- <-. apply F.
Qed.

Lemma build_cfg_keeps_mask db chunks f_start :
  keeps (fun w => metrics_mask (self w)) (build_cfg db chunks f_start).
Proof. apply build_cfg_keeps; reflexivity. Qed.

Lemma build_cfg_keeps_function_ea db chunks f_start :
  keeps (fun w => function_ea (self w)) (build_cfg db chunks f_start).
Proof. apply build_cfg_keeps; reflexivity. Qed.

Lemma when_true {S} (m : M S unit) : when true m = m.
Proof. reflexivity. Qed.

(** C1. When the routine's analysis completes with the cyclomatic metric
    selected, [CC] is the number of edges minus the number of boundaries
    plus two, for the edge and boundary sets the control-flow loop built. *)
Theorem cyclomatic_complexity_formula db w l w1 w2 :
  mask_cc (metrics_mask (self w)) = true ->
  build_cfg db (enumerate_function_chunks db (function_ea (self w))) (function_ea (self w)) w
  = (Ok l, w1) ->
  Metrics_function_start_analysis db w = (Ok tt, w2) ->
  CC (self w2) = len (edges l) - len (boundaries l) + 2.
Proof.
  intros Hcc Hcfg Hrun.
  pose proof (@build_cfg_keeps_mask db _ _ _ _ _ Hcfg) as Hmask. simpl in Hmask.
  unfold Metrics_function_start_analysis in Hrun.
  apply bind_ok_inv in Hrun as (w0 & s0 & E0 & Hrun). injection E0 as <- <-.
  apply bind_ok_inv in Hrun as (l' & w1' & E1 & Hrun).
  rewrite Hcfg in E1. injection E1 as <- <-.
  unfold compute_metrics in Hrun.
  apply bind_ok_inv in Hrun as (w0 & s0 & E0 & Hrun). injection E0 as <- <-.
  apply bind_ok_inv in Hrun as (u & s1 & E1 & Hrun).
  assert (M1 : metrics_mask (self s1) = metrics_mask (self w1)).
  { revert E1. apply (@keeps_foldM _ _ (fun w => metrics_mask (self w))).
    intros [] bbl. frame. }
  rewrite Hmask, Hcc in Hrun. simpl orb in Hrun. rewrite when_true in Hrun.
  apply bind_ok_inv in Hrun as (u' & s2 & E2 & Hrun).
  injection E2 as _ <-.
  match type of Hrun with
  | ?m _ = _ => assert (K : keeps (fun w => CC (self w)) m)
  end.
  { unfold boundary_value, get_chepin, get_henryncafura_metric, true_div.
    frame. apply calculate_basic_keeps. reflexivity. }
  apply K in Hrun. now rewrite Hrun.
Qed.

(** ** Boundary values *)

Lemma py_in_In {K} `{EqDec K} (x : K) (l : list K) : py_in x l = true <-> In x l.
Proof.
  unfold py_in. rewrite existsb_exists. split.
  - intros (y & Hy & E). apply eqb_true_iff in E. now subst.
  - intros Hx. exists x. split; auto. apply eqb_refl.
Qed.

Lemma py_in_not_In {K} `{EqDec K} (x : K) (l : list K) : py_in x l = false <-> ~ In x l.
Proof.
  rewrite <- py_in_In. destruct (py_in x l); split; congruence.
Qed.

Lemma dict_get_In {K V} `{EqDec K} (k : K) (d : list (K * V)) v :
  dict_get k d = Some v -> In (k, v) d.
Proof.
  induction d as [|[k' v'] d IH]; simpl; [discriminate|].
  destruct (eqb k k') eqn:E.
  - apply eqb_true_iff in E. subst. intros [= ->]. now left.
  - intros G. right. auto.
Qed.

Lemma graph_get_children g node childs :
  graph_get node g = Some childs -> incl childs (graph_nodes g).
Proof.
  unfold graph_get. destruct (dict_get node g) as [[l|]|] eqn:E; try discriminate.
  intros [= ->]. apply dict_get_In in E.
  intros x Hx. unfold graph_nodes. apply in_flat_map.
  exists (node, Some childs). split; auto. simpl. now right.
Qed.

Lemma graph_keys_nodes g : incl (dict_keys g) (graph_nodes g).
Proof.
  intros x Hx. unfold dict_keys in Hx. apply in_map_iff in Hx as ([k v] & <- & Hk).
  unfold graph_nodes. apply in_flat_map. exists (k, v). split; auto. now left.
Qed.

Lemma filter_length_le {A} (f h : A -> bool) (l : list A) :
  (forall x, In x l -> f x = true -> h x = true) ->
  (List.length (filter f l) <= List.length (filter h l))%nat.
Proof.
  induction l as [|a l IH]; intros F; simpl; [lia|].
  assert (IH' : (List.length (filter f l) <= List.length (filter h l))%nat)
    by (apply IH; intros; apply F; simpl; auto).
  destruct (f a) eqn:Ea.
  - rewrite (F a (or_introl eq_refl) Ea). simpl. lia.
  - destruct (h a); simpl; lia.
Qed.

Lemma filter_length_lt {A} (f h : A -> bool) (l : list A) a :
  (forall x, In x l -> f x = true -> h x = true) ->
  In a l -> f a = false -> h a = true ->
  (List.length (filter f l) < List.length (filter h l))%nat.
Proof.
  induction l as [|b l IH]; intros F Ha Ef Eh; simpl; [easy|].
  destruct Ha as [->|Ha].
  - rewrite Ef, Eh. simpl.
    assert ((List.length (filter f l) <= List.length (filter h l))%nat)
      by (apply filter_length_le; intros; apply F; simpl; auto).
    lia.
  - assert (IH' : (List.length (filter f l) < List.length (filter h l))%nat)
      by (apply IH; auto; intros; apply F; simpl; auto).
    destruct (f b) eqn:Eb.
    + rewrite (F b (or_introl eq_refl) Eb). simpl. lia.
    + destruct (h b); simpl; lia.
Qed.

Lemma unvisited_incl g passed passed' :
  incl passed passed' ->
  (List.length (unvisited g passed') <= List.length (unvisited g passed))%nat.
Proof.
  intros I. apply filter_length_le. intros x _ E.
  apply negb_true_iff in E. apply negb_true_iff.
  apply py_in_not_In. apply py_in_not_In in E. auto.
Qed.

Lemma unvisited_pass g passed node :
  In node (graph_nodes g) -> ~ In node passed ->
  (List.length (unvisited g (passed ++ [node])) < List.length (unvisited g passed))%nat.
Proof.
  intros Hn Hp. apply filter_length_lt with (a := node).
  - intros x _ E. apply negb_true_iff in E. apply negb_true_iff.
    apply py_in_not_In. apply py_in_not_In in E. intros Hx. apply E, in_or_app. now left.
  - now apply nodup_In.
  - apply negb_false_iff, py_in_In, in_or_app. right. now left.
  - now apply negb_true_iff, py_in_not_In.
Qed.

Lemma unvisited_bound g passed :
  (List.length (unvisited g passed) < graph_fuel g)%nat.
Proof.
  unfold graph_fuel, unvisited.
  pose proof (filter_length (fun x => negb (py_in x passed)) (nodup Z.eq_dec (graph_nodes g))).
  pose proof (NoDup_incl_length (NoDup_nodup Z.eq_dec (graph_nodes g))
                                (fun x => proj1 (nodup_In Z.eq_dec (graph_nodes g) x))).
  pose proof (filter_length_le (fun x => negb (py_in x passed)) (fun _ => true)
                               (nodup Z.eq_dec (graph_nodes g)) (fun _ _ _ => eq_refl)).
  assert (E : forall l : list Z, filter (fun _ => true) l = l)
    by (induction l; simpl; congruence).
  rewrite E in *. lia.
Qed.

Lemma get_subgraph_nodes_count_eq fuel node g passed :
  get_subgraph_nodes_count (S fuel) node g passed =
  if py_in node passed then Some (1, passed)
  else match graph_get node g with
       | None => Some (0, passed ++ [node])
       | Some childs => visit_children fuel g childs (Some (0, passed ++ [node]))
       end.
Proof. reflexivity. Qed.

(** With fuel above the number of unvisited nodes the traversal returns. *)
Lemma get_subgraph_nodes_count_total g : forall fuel node passed,
  In node (graph_nodes g) ->
  (List.length (unvisited g passed) < fuel)%nat ->
  exists c passed',
    get_subgraph_nodes_count fuel node g passed = Some (c, passed') /\ incl passed passed'.
Proof.
  induction fuel as [|fuel IH]; intros node passed Hn Hf; [lia|].
  rewrite get_subgraph_nodes_count_eq.
  destruct (py_in node passed) eqn:Ep.
  { exists 1, passed. split; auto using incl_refl. }
  apply py_in_not_In in Ep.
  pose proof (unvisited_pass g passed node Hn Ep) as Hlt.
  destruct (graph_get node g) as [childs|] eqn:Eg.
  2:{ exists 0, (passed ++ [node]). split; auto using incl_appl, incl_refl. }
  apply graph_get_children in Eg.
  assert (G : forall cs n p,
             incl cs (graph_nodes g) -> incl (passed ++ [node]) p ->
             exists c p', visit_children fuel g cs (Some (n, p)) = Some (c, p') /\
                          incl (passed ++ [node]) p').
  { induction cs as [|x cs IHcs]; intros n p Hcs Hp; simpl.
    - eauto.
    - destruct (py_in x p) eqn:Ex.
      + apply IHcs; auto. intros y Hy. apply Hcs. now right.
      + destruct (IH x p) as (c & p' & -> & Hp').
        * apply Hcs. now left.
        * pose proof (unvisited_incl g _ _ Hp). lia.
        * apply IHcs.
          -- intros y Hy. apply Hcs. now right.
          -- eauto using incl_tran. }
  destruct (G childs 0 (passed ++ [node]) Eg (incl_refl _)) as (c & p' & -> & Hp').
  exists c, p'. split; auto. eauto using incl_tran, incl_appl, incl_refl.
Qed.

Lemma subgraph_count_spec g node :
  In node (dict_keys g) ->
  exists passed, get_subgraph_nodes_count (graph_fuel g) node g [] = Some (subgraph_count g node, passed).
Proof.
  intros Hn. unfold subgraph_count.
  destruct (get_subgraph_nodes_count_total g (graph_fuel g) node [])
    as (c & p & -> & _); eauto using unvisited_bound.
  now apply graph_keys_nodes.
Qed.

Lemma zsum_cons x l : zsum (x :: l) = x + zsum l.
Proof. reflexivity. Qed.

(** The loop of [get_boundary_value_metric] adds up the contributions. *)
Lemma boundary_loop_sum g nodes : forall acc,
  incl nodes (dict_keys g) ->
  fold_left
    (fun acc node =>
       match acc with
       | None => None
       | Some boundary_value =>
           match graph_get node g with
           | None => Some boundary_value
           | Some childs =>
               if 2 <=? len childs then
                 match get_subgraph_nodes_count (graph_fuel g) node g [] with
                 | Some (c, _) => Some (boundary_value + c)
                 | None => None
                 end
               else Some (boundary_value + 1)
           end
       end)
    nodes (Some acc)
  = Some (acc + zsum (map (node_contribution g) nodes)).
Proof.
  induction nodes as [|n nodes IH]; intros acc Hin; cbn [fold_left map]; rewrite ?zsum_cons.
  - now rewrite Z.add_0_r.
  - assert (Hn : In n (dict_keys g)) by (apply Hin; now left).
    assert (Hin' : incl nodes (dict_keys g)) by (intros x Hx; apply Hin; now right).
    unfold node_contribution at 1.
    destruct (graph_get n g) as [childs|].
    + destruct (2 <=? len childs).
      * destruct (subgraph_count_spec g n Hn) as (p & ->).
        rewrite IH by assumption. f_equal; lia.
      * rewrite IH by assumption. f_equal; lia.
    + rewrite IH by assumption. f_equal; lia.
Qed.


(** ** What the traversal counts *)

Section Traversal.
Variable g : node_graph.

Lemma reaches_start passed u x : reaches g passed u x -> ~ In u passed.
Proof. now destruct 1. Qed.

Lemma reaches_end passed u x : reaches g passed u x -> ~ In x passed.
Proof. induction 1; auto. Qed.

Lemma reaches_mono passed passed' u x :
incl passed' passed -> reaches g passed u x -> reaches g passed' u x.
Proof.
intros I. induction 1 as [u Hu | u v x Hu Hv _ IH].
- apply reaches_here. auto.
- eapply reaches_step; eauto.
Qed.

Lemma reaches_trans passed u y x :
reaches g passed u y -> reaches g passed y x -> reaches g passed u x.
Proof.
induction 1 as [u Hu | u v y Hu Hv _ IH]; intros R; auto.
eapply reaches_step; eauto.
Qed.

(** A path that avoids [passed] avoids [extra] too, or goes through it. *)
Lemma reaches_split passed extra u x :
reaches g passed u x ->
reaches g (passed ++ extra) u x \/ exists y, In y extra /\ reaches g passed y x.
Proof.
induction 1 as [u Hu | u v x Hu Hv R IH].
- destruct (in_dec Z.eq_dec u extra) as [He|He].
  + right. exists u. split; auto. now apply reaches_here.
  + left. apply reaches_here. intros Hin. apply in_app_or in Hin. tauto.
- destruct IH as [IH|IH]; [|now right].
  destruct (in_dec Z.eq_dec u extra) as [He|He].
  + right. exists u. split; auto. eapply reaches_step; eauto.
  + left. eapply reaches_step; eauto. intros Hin. apply in_app_or in Hin. tauto.
Qed.

(** A path from [u] ends at [u] or leaves it for good through a successor. *)
Lemma reaches_root passed u x :
reaches g passed u x ->
x = u \/ exists v, In v (successors g u) /\ reaches g (passed ++ [u]) v x.
Proof.
intros R.
assert (G : forall a, reaches g passed a x ->
              reaches g (passed ++ [u]) a x \/
              (x = u \/ exists v, In v (successors g u) /\ reaches g (passed ++ [u]) v x)).
{ clear R. induction 1 as [a Ha | a b x Ha Hb R IH].
  - destruct (Z.eq_dec a u) as [->|Hne]; [right; now left|].
    left. apply reaches_here. intros Hin. apply in_app_or in Hin as [Hin|[Hin|[]]]; auto.
  - destruct IH as [IH|IH]; [|now right].
    destruct (Z.eq_dec a u) as [->|Hne].
    + right. right. eauto.
    + left. eapply reaches_step; eauto.
      intros Hin. apply in_app_or in Hin as [Hin|[Hin|[]]]; auto. }
destruct (G u R) as [Bad|Good]; auto.
apply reaches_start in Bad. exfalso. apply Bad, in_or_app. right. now left.
Qed.

Lemma visit_children_none fuel childs : visit_children fuel g childs None = None.
Proof. unfold visit_children. induction childs; simpl; auto. Qed.

Lemma visit_children_cons fuel child childs n passed :
visit_children fuel g (child :: childs) (Some (n, passed))
= if py_in child passed then visit_children fuel g childs (Some (n, passed))
  else match get_subgraph_nodes_count fuel child g passed with
       | None => None
       | Some (c, passed') => visit_children fuel g childs (Some (n + c + 1, passed'))
       end.
Proof.
unfold visit_children. simpl. destruct (py_in child passed); auto.
destruct (get_subgraph_nodes_count fuel child g passed) as [[c p]|]; auto.
apply visit_children_none.
Qed.

(** The nodes a traversal newly passes are those a path avoiding the
  passed ones leads to, each once; the count is their number less one. *)
Lemma get_subgraph_nodes_count_reaches : forall fuel node passed c passed',
~ In node passed ->
get_subgraph_nodes_count fuel node g passed = Some (c, passed') ->
exists new,
  passed' = passed ++ new /\ NoDup new /\
  (forall x, In x new <-> reaches g passed node x) /\
  c = len new - 1.
Proof.
induction fuel as [|fuel IH]; intros node passed c passed' Hn H; [discriminate|].
rewrite get_subgraph_nodes_count_eq in H.
replace (py_in node passed) with false in H by (symmetry; now apply py_in_not_In).
assert (L : forall childs n p c p',
           visit_children fuel g childs (Some (n, p)) = Some (c, p') ->
           exists new,
             p' = p ++ new /\ NoDup new /\
             (forall x, In x new <-> exists ch, In ch childs /\ reaches g p ch x) /\
             c = n + len new).
{ clear -IH. induction childs as [|ch childs IHc]; intros n p c p' H.
  - injection H as <- <-. exists []. rewrite app_nil_r. repeat split.
    + constructor.
    + intros [].
    + intros (ch & [] & _).
    + unfold len. simpl. lia.
  - rewrite visit_children_cons in H. destruct (py_in ch p) eqn:Ep.
    + apply py_in_In in Ep.
      destruct (IHc _ _ _ _ H) as (new & -> & N & I & ->).
      exists new. repeat split; auto.
      * intros Hx. apply I in Hx as (ch' & Hch & R). exists ch'. split; auto. now right.
      * intros (ch' & [<-|Hch] & R).
        -- apply reaches_start in R. contradiction.
        -- apply I. eauto.
    + apply py_in_not_In in Ep.
      destruct (get_subgraph_nodes_count fuel ch g p) as [[c1 p1]|] eqn:E; [|discriminate].
      destruct (IH _ _ _ _ Ep E) as (new1 & -> & N1 & I1 & ->).
      destruct (IHc _ _ _ _ H) as (new2 & -> & N2 & I2 & ->).
      exists (new1 ++ new2). rewrite <- app_assoc. repeat split.
      * apply NoDup_app; auto. intros x H1 H2.
        apply I2 in H2 as (ch' & _ & R). apply reaches_end in R.
        apply R, in_or_app. now right.
      * intros Hx. apply in_app_or in Hx as [Hx|Hx].
        -- exists ch. split; [now left | now apply I1].
        -- apply I2 in Hx as (ch' & Hch & R). exists ch'. split; [now right|].
           eapply reaches_mono; [|exact R]. apply incl_appl, incl_refl.
      * intros (ch' & [<-|Hch] & R); apply in_or_app.
        -- left. now apply I1.
        -- destruct (reaches_split p new1 ch' x R) as [R'|(y & Hy & R')].
           ++ right. apply I2. eauto.
           ++ left. apply I1. apply I1 in Hy. eapply reaches_trans; eauto.
      * unfold len. rewrite length_app. lia. }
destruct (graph_get node g) as [childs|] eqn:Eg.
- destruct (L _ _ _ _ _ H) as (new & -> & N & I & ->).
  exists (node :: new). rewrite <- app_assoc. repeat split.
  + constructor; auto. intros Hin. apply I in Hin as (ch & _ & R).
    apply reaches_end in R. apply R, in_or_app. right. now left.
  + intros [<-|Hx]; [now apply reaches_here|].
    apply I in Hx as (ch & Hch & R).
    apply reaches_step with (v := ch); auto.
    * unfold successors. now rewrite Eg.
    * eapply reaches_mono; [|exact R]. apply incl_appl, incl_refl.
  + intros R. apply reaches_root in R as [->|(v & Hv & R)]; [now left|].
    right. apply I. exists v. split; auto. unfold successors in Hv. now rewrite Eg in Hv.
  + unfold len. simpl List.length. lia.
- injection H as <- <-. exists [node]. repeat split.
  + repeat constructor. intros [].
  + intros [<-|[]]. now apply reaches_here.
  + intros R. apply reaches_root in R as [->|(v & Hv & _)]; [now left|].
    unfold successors in Hv. now rewrite Eg in Hv.
Qed.

(** The count for a node of the graph: the nodes reachable from it, itself
  included, less one. *)
Lemma subgraph_count_reachable node :
In node (dict_keys g) ->
exists reached,
  NoDup reached /\
  (forall x, In x reached <-> reaches g [] node x) /\
  subgraph_count g node = len reached - 1.
Proof.
intros Hn. destruct (subgraph_count_spec g node Hn) as (p & E).
destruct (get_subgraph_nodes_count_reaches (graph_fuel g) node [] _ _ (@in_nil Z node) E)
  as (new & _ & N & I & C).
exists new. auto.
Qed.
End Traversal.

(** The metric against the sum in which every node with fewer than two
    successors adds one: whenever the traversals return, each terminal node
    of the graph, skipped by the loop, leaves the metric one short. *)
Lemma claimed_terms_deficit g nodes :
  zsum (map (fun node => if 2 <=? successor_count g node then subgraph_count g node else 1)
            nodes)
  = zsum (map (node_contribution g) nodes)
    + len (filter (fun node => match graph_get node g with None => true | Some _ => false end)
                  nodes).
Proof.
  induction nodes as [|n nodes IH]; [reflexivity|].
  cbn [map filter]. rewrite !zsum_cons, IH. clear IH.
  generalize (zsum (map (node_contribution g) nodes)). intros rest.
  unfold node_contribution, successor_count.
  destruct (graph_get n g) as [childs|]; cbv iota beta.
  - lia.
  - change (2 <=? 0) with false. cbv iota.
    unfold len. cbn [List.length]. lia.
Qed.

Lemma boundary_value_terminal_deficit g v :
  get_boundary_value_metric g false = Some v ->
  v = claimed_boundary_value g - terminal_count g.
Proof.
  unfold get_boundary_value_metric. cbv zeta.
  rewrite (boundary_loop_sum g (dict_keys g) 0 (incl_refl _)).
  intros [= <-]. unfold claimed_boundary_value, terminal_count.
  rewrite claimed_terms_deficit. lia.
Qed.

(** C6, at the failing inputs.  [get_boundary_value_metric] skips the nodes
    mapped to [None] and still subtracts the one that its comment says
    excludes the terminal node.  For the demo routine (graph
    [{2: [4], 0: [4, 2], 4: None}]) the analysis records 2, where the sum in
    which the terminal node 4 adds one, less one, is 3; for a routine of one
    block (graph [{0: None}]) it records -1, where that sum is 0. *)
Lemma boundary_value_excludes_terminal_twice :
  let straight := mk_world (Metrics_function_init straight_db 0 all_metrics) [] in
  Metrics_function_start_analysis demo_db (demo_world all_metrics) = (Ok tt, demo_final) /\
  boundary_values (self demo_final) = 2 /\
  make_graph demo_db (edges demo_cfg)
             (get_bbls demo_db 0 5 [(0, 5)] (boundaries demo_cfg) (edges demo_cfg))
             (boundaries demo_cfg) = Ok demo_graph /\
  get_boundary_value_metric demo_graph false = Some 2 /\
  claimed_boundary_value demo_graph = 3 /\
  terminal_count demo_graph = 1 /\
  fst (Metrics_function_start_analysis straight_db straight) = Ok tt /\
  boundary_values (self (snd (Metrics_function_start_analysis straight_db straight))) = -1 /\
  make_graph straight_db [] (get_bbls straight_db 0 2 [(0, 2)] [0] []) [0] = Ok [(0, None)] /\
  get_boundary_value_metric [(0, None)] false = Some (-1) /\
  claimed_boundary_value [(0, None)] = 0.
Proof. repeat split; reflexivity. Qed.

(** ** Oviedo *)

Lemma oviedo_scan_later local_var ops : forall k n df,
  oviedo_scan local_var (combine (map Z.of_nat (seq (S k) n)) ops) df = df.
Proof.
  induction ops as [|[op ty] ops IH]; intros k n df.
  - now destruct n.
  - destruct n as [|n]; simpl; [reflexivity|].
    replace (Z.pos (Pos.of_succ_nat k) =? 0) with false by (symmetry; apply Z.eqb_neq; lia).
    rewrite andb_false_r. apply IH.
Qed.

Lemma oviedo_scan_enumerate db local_var instr_addr df :
  startswith (print_insn_mnem db instr_addr) "mov" = true ->
  oviedo_scan local_var (enumerate (get_instr_operands db instr_addr)) df
  = df - (if writes_var db local_var instr_addr then 1 else 0).
Proof.
  intros Hm. unfold writes_var, enumerate. rewrite Hm. simpl andb.
  destruct (get_instr_operands db instr_addr) as [|[op ty] ops]; simpl.
  - lia.
  - rewrite andb_true_r. destruct (str_contains local_var op); [reflexivity|].
    rewrite oviedo_scan_later. lia.
Qed.

Lemma oviedo_usage_loop db local_var usage_list : forall df,
  fold_left
    (fun oviedo_df instr_addr =>
       if startswith (print_insn_mnem db instr_addr) "mov"
       then oviedo_scan local_var (enumerate (get_instr_operands db instr_addr)) oviedo_df
       else oviedo_df)
    usage_list df
  = df - len (filter (writes_var db local_var) usage_list).
Proof.
  induction usage_list as [|a u IH]; intros df; cbn [fold_left filter].
  - unfold len. simpl. lia.
  - rewrite IH. destruct (startswith (print_insn_mnem db a) "mov") eqn:Hm.
    + rewrite oviedo_scan_enumerate by assumption.
      destruct (writes_var db local_var a); unfold len; simpl List.length; lia.
    + assert (W : writes_var db local_var a = false) by (unfold writes_var; now rewrite Hm).
      rewrite W. lia.
Qed.

Lemma oviedo_vars_loop db local_vars vars : forall df,
  fold_left
    (fun oviedo_df local_var =>
       match dict_get local_var local_vars with
       | None => oviedo_df
       | Some usage_list =>
           fold_left
             (fun oviedo_df instr_addr =>
                if startswith (print_insn_mnem db instr_addr) "mov"
                then oviedo_scan local_var (enumerate (get_instr_operands db instr_addr)) oviedo_df
                else oviedo_df)
             usage_list oviedo_df
           + len usage_list
       end)
    vars df
  = df + zsum (map (fun local_var =>
                      match dict_get local_var local_vars with
                      | Some usage_list =>
                          len usage_list - len (filter (writes_var db local_var) usage_list)
                      | None => 0
                      end) vars).
Proof.
  induction vars as [|v vars IH]; intros df; cbn [fold_left map]; rewrite ?zsum_cons.
  - unfold zsum. simpl. lia.
  - rewrite IH. destruct (dict_get v local_vars) as [u|].
    + rewrite oviedo_usage_loop. lia.
    + lia.
Qed.

(** [get_oviedo_df] counts, per variable, its uses that are not writes. *)
Lemma get_oviedo_df_sum db local_vars :
  get_oviedo_df db local_vars = oviedo_df_sum db local_vars.
Proof.
  unfold get_oviedo_df, oviedo_df_sum. now rewrite oviedo_vars_loop.
Qed.

Lemma keeps_bind_ok {S A B X} (p : S -> X) (m : M S A) (k : A -> M S B) s b s' :
  keeps p m ->
  bind m k s = (Ok b, s') ->
  exists a s1, p s1 = p s /\ k a s1 = (Ok b, s').
Proof.
  intros K E. apply bind_ok_inv in E as (a & s1 & E1 & E2). eauto.
Qed.

(** Run one step of a computation that is known to succeed, carrying the
    fact [P] about the component [p] of the state across it. *)
Ltac advance p Hrun P :=
  let K := fresh "K" in
  apply (keeps_bind_ok p) in Hrun;
  [ destruct Hrun as (? & ? & K & Hrun); cbv beta in K;
    let P' := fresh "P" in
    pose proof (eq_trans K P) as P'; clear K P; rename P' into P
  | unfold boundary_value, get_chepin, get_henryncafura_metric, true_div; frame;
    try (apply calculate_basic_keeps; reflexivity) ].

(** C8, as amended.  When the routine's analysis completes with the Oviedo
    metric selected, [Oviedo] is the number of edges plus, for every local
    variable, the number of its recorded uses less the number of those uses
    that are writes ([mov*] instructions whose first operand names the
    variable): every write is discounted, whatever its position in the
    usage list. *)
Theorem oviedo_formula db w l w1 w2 :
  mask_oviedo (metrics_mask (self w)) = true ->
  build_cfg db (enumerate_function_chunks db (function_ea (self w))) (function_ea (self w)) w
  = (Ok l, w1) ->
  Metrics_function_start_analysis db w = (Ok tt, w2) ->
  Oviedo (self w2) = len (edges l) + oviedo_df_sum db (vars_local (self w1)).
Proof.
  intros Hov Hcfg Hrun.
  pose proof (build_cfg_keeps_mask db _ _ _ _ _ Hcfg) as Hmask. simpl in Hmask.
  unfold Metrics_function_start_analysis in Hrun.
  apply bind_ok_inv in Hrun as (w0 & s0 & E0 & Hrun). injection E0 as <- <-.
  apply bind_ok_inv in Hrun as (l' & w1' & E1 & Hrun).
  rewrite Hcfg in E1. injection E1 as <- <-.
  unfold compute_metrics in Hrun.
  apply bind_ok_inv in Hrun as (w0 & s0 & E0 & Hrun). injection E0 as <- <-.
  rewrite Hmask, Hov in Hrun.
  assert (P : vars_local (self w1) = vars_local (self w1)) by reflexivity.
  do 13 advance (fun w => vars_local (self w)) Hrun P.
  rewrite when_true in Hrun.
  apply bind_ok_inv in Hrun as (u' & s2 & E2 & Hrun).
  injection E2 as _ <-.
  match type of Hrun with
  | ?m _ = _ => assert (K : keeps (fun w => Oviedo (self w)) m)
  end.
  { unfold boundary_value, get_chepin, get_henryncafura_metric, true_div. frame. }
  apply K in Hrun. rewrite Hrun. simpl. now rewrite P, get_oviedo_df_sum.
Qed.

(** C8, counterexample.  In the demo routine [var_4] is written twice: the
    metric is 4 where one discount per write-first variable gives 5. *)
Lemma oviedo_writes_counterexample :
  build_cfg demo_db [(0, 5)] 0 (demo_world all_metrics) = (Ok demo_cfg, demo_after_cfg) /\
  vars_local (self demo_after_cfg) = demo_vars /\
  Metrics_function_start_analysis demo_db (demo_world all_metrics) = (Ok tt, demo_final) /\
  Oviedo (self demo_final) = 4 /\
  len (edges demo_cfg) + claimed_oviedo_df demo_db demo_vars = 5.
Proof. repeat split; reflexivity. Qed.

(** ** Chepin *)

Lemma dict_del_keys {V} (k : string) (d : list (string * V)) v :
  In v (dict_keys (dict_del k d)) <-> In v (dict_keys d) /\ v <> k.
Proof.
  unfold dict_keys, dict_del. rewrite !in_map_iff. split.
  - intros ([k' x] & <- & Hf). apply filter_In in Hf as [Hin Hneq]. simpl in *.
    apply negb_true_iff, eqb_false_iff in Hneq. split; [exists (k', x); auto | congruence].
  - intros [([k' x] & <- & Hin) Hneq]. exists (k', x). split; auto.
    apply filter_In. split; auto. simpl in *. apply negb_true_iff, eqb_false_iff. congruence.
Qed.

Lemma delete_keys_keys {V} (ks : list string) : forall (d : list (string * V)) v,
  In v (dict_keys (delete_keys ks d)) <-> In v (dict_keys d) /\ ~ In v ks.
Proof.
  unfold delete_keys. induction ks as [|k ks IH]; intros d v; simpl.
  - tauto.
  - rewrite IH. destruct (dict_mem k d) eqn:E.
    + rewrite dict_del_keys. intuition congruence.
    + unfold dict_mem in E. apply py_in_not_In in E. fold (dict_keys d) in E.
      split.
      * intros [Hin Hn]. split; auto. intros [->|H]; auto.
      * intros [Hin Hn]. split; auto.
  Qed.

Lemma dict_del_NoDup {V} (k : string) (d : list (string * V)) :
  NoDup (dict_keys d) -> NoDup (dict_keys (dict_del k d)).
Proof.
  unfold dict_keys, dict_del. induction d as [|[k' x] d IH]; simpl; intros N; [constructor|].
  inversion N as [|? ? Hn N']; subst.
  destruct (negb (eqb k k')); simpl; auto.
  constructor; auto. intros Hin. apply Hn.
  apply in_map_iff in Hin as (y & <- & Hy). apply filter_In in Hy as [Hy _].
  now apply in_map.
Qed.

Lemma delete_keys_NoDup {V} (ks : list string) : forall (d : list (string * V)),
  NoDup (dict_keys d) -> NoDup (dict_keys (delete_keys ks d)).
Proof.
  unfold delete_keys. induction ks as [|k ks IH]; intros d N; simpl; auto.
  apply IH. destruct (dict_mem k d); auto using dict_del_NoDup.
Qed.

(** Every return of [get_function_args_count] hands back the table of
    argument variables it collected; the count is its size when it is not
    empty. *)
Lemma get_function_args_count_args db function_ea local_vars p args :
  get_function_args_count db function_ea local_vars = Ok (p, args) ->
  args = collect_args db local_vars /\
  (args <> [] -> p = inject_Z (len args)).
Proof.
  unfold get_function_args_count.
  destruct (len (collect_args db local_vars) =? 0) eqn:E; simpl.
  - apply Z.eqb_eq in E.
    assert (Hnil : collect_args db local_vars = [])
      by (destruct (collect_args db local_vars); [reflexivity | unfold len in E; simpl in E; lia]).
    intros H. assert (args = collect_args db local_vars).
    { unfold rbind in H.
      repeat match type of H with
             | context [match ?x with _ => _ end] => destruct x; try discriminate
             end; now injection H as _ <-. }
    split; auto. intros Hne. congruence.
  - intros [= <- <-]. split; auto.
Qed.

(** C7, counterexample.  In the demo routine [arg_0] is an argument and is
    compared: it is counted in P and in C, and the metric is
    1 + 2 * 1 + 3 * 1. *)
Lemma chepin_argument_compared_counterexample :
  chepin_of demo_db 0 demo_vars = Ok (6%Q, [("var_4", [2; 3])]) /\
  dict_keys (collect_args demo_db demo_vars) = ["arg_0"] /\
  dict_keys (compared_vars demo_db demo_vars) = ["arg_0"].
Proof. repeat split; reflexivity. Qed.

(** The count without a detected argument.  In [stack_arg_db] the variable
    [arg_0] is read through [esp], so no variable is taken for an argument;
    P is 1, read off the operand of [retn 4], while [arg_0] stays in the
    table and is counted in M: the metric is 1 + 2 * 1 + 3 * 0. *)
Lemma chepin_count_from_return_operand :
  chepin_of stack_arg_db 0 [("arg_0", [0])] = Ok (3%Q, [("arg_0", [0])]) /\
  collect_args stack_arg_db [("arg_0", [0])] = [] /\
  compared_vars stack_arg_db [("arg_0", [0])] = [] /\
  get_function_args_count stack_arg_db 0 [] = Ok (1%Q, []).
Proof. repeat split; reflexivity. Qed.
(** ** The reduced table holds no argument *)

Lemma dict_set_keys {K V} `{EqDec K} (k : K) (v : V) (d : list (K * V)) x :
  In x (dict_keys (dict_set k v d)) <-> x = k \/ In x (dict_keys d).
Proof.
  unfold dict_keys. induction d as [|[k' v'] d IH]; simpl.
  - intuition.
  - destruct (eqb k k') eqn:E; simpl.
    + apply eqb_true_iff in E. subst. intuition.
    + rewrite IH. intuition.
Qed.

Lemma dict_append_keys {K A} `{EqDec K} (k : K) (a : A) (d : list (K * list A)) x :
  In x (dict_keys (dict_append k a d)) <-> x = k \/ In x (dict_keys d).
Proof.
  unfold dict_append. destruct (dict_get k d); apply dict_set_keys.
Qed.

Lemma dict_append_nonempty {K A} `{EqDec K} (k : K) (a : A) (d : list (K * list A)) :
  dict_append k a d <> [].
Proof.
  intros E. assert (Hk : In k (dict_keys (dict_append k a d))) by (apply dict_append_keys; auto).
  now rewrite E in Hk.
Qed.

Lemma dict_get_dict_del {V} (k v : string) (d : list (string * V)) :
  v <> k -> dict_get v (dict_del k d) = dict_get v d.
Proof.
  intros Hne. unfold dict_del. induction d as [|[k' x] d IH]; simpl; auto.
  destruct (eqb k k') eqn:E; simpl.
  - apply eqb_true_iff in E. subst k'.
    replace (eqb v k) with false by (symmetry; now apply eqb_false_iff). exact IH.
  - destruct (eqb v k'); auto.
Qed.

Lemma dict_get_delete_keys {V} (ks : list string) v : forall (d : list (string * V)),
  ~ In v ks -> dict_get v (delete_keys ks d) = dict_get v d.
Proof.
  unfold delete_keys. induction ks as [|k ks IH]; intros d Hn; simpl; auto.
  rewrite IH by (intros Hin; apply Hn; now right).
  destruct (dict_mem k d); auto.
  apply dict_get_dict_del. intros ->. apply Hn. now left.
Qed.

Section Arguments.
Variable db : database.

(** One operand of [args_of_usage]. *)
Lemma args_step_spec local_var head (d : list (string * list Z)) (e : Z * (string * Z)) :
(let '(idx, (op, _)) := e in
 if str_count "+"%char op =? 1 then
   let value := get_operand_value db head idx in
   if (value <? 15 * ARGUMENT_SIZE db) && str_contains "ebp" op
   then dict_append local_var head d else d
 else if str_count "+"%char op =? 2 then
   if str_contains "arg" local_var then dict_append local_var head d else d
 else d)
= if arg_operand db local_var head e then dict_append local_var head d else d.
Proof.
destruct e as [idx [op ty]]. unfold arg_operand. cbv zeta.
destruct (str_count "+"%char op =? 1); [reflexivity|].
destruct (str_count "+"%char op =? 2); reflexivity.
Qed.

Lemma args_of_usage_fold local_var head ops : forall args_dict,
fold_left
  (fun args_dict e =>
     let '(idx, (op, _)) := e in
     if str_count "+"%char op =? 1 then
       let value := get_operand_value db head idx in
       if (value <? 15 * ARGUMENT_SIZE db) && str_contains "ebp" op
       then dict_append local_var head args_dict else args_dict
     else if str_count "+"%char op =? 2 then
       if str_contains "arg" local_var
       then dict_append local_var head args_dict else args_dict
     else args_dict)
  ops args_dict
= fold_left
    (fun args_dict e =>
       if arg_operand db local_var head e then dict_append local_var head args_dict
       else args_dict)
    ops args_dict.
Proof.
induction ops as [|e ops IH]; intros d; simpl; auto.
destruct e as [idx [op ty]]. rewrite IH. f_equal.
apply (args_step_spec local_var head d (idx, (op, ty))).
Qed.

Lemma args_of_usage_spec local_var head args_dict :
(arg_use db local_var head = false ->
 args_of_usage db local_var args_dict head = args_dict) /\
(arg_use db local_var head = true ->
 In local_var (dict_keys (args_of_usage db local_var args_dict head))) /\
(forall v, In v (dict_keys args_dict) ->
           In v (dict_keys (args_of_usage db local_var args_dict head))).
Proof.
unfold args_of_usage, arg_use. rewrite args_of_usage_fold.
generalize (enumerate (get_instr_operands db head)) as ops.
intros ops. revert args_dict.
induction ops as [|e ops IH]; intros d; simpl.
- repeat split; auto; discriminate.
- destruct (arg_operand db local_var head e); simpl.
  + destruct (IH (dict_append local_var head d)) as (_ & _ & K).
    repeat split; try discriminate.
    * intros _. apply K, dict_append_keys. now left.
    * intros v Hv. apply K, dict_append_keys. now right.
  + apply IH.
Qed.

Lemma usage_loop_spec local_var usage_list : forall args_dict,
(is_arg db local_var usage_list = false ->
 fold_left (args_of_usage db local_var) usage_list args_dict = args_dict) /\
(is_arg db local_var usage_list = true ->
 In local_var (dict_keys (fold_left (args_of_usage db local_var) usage_list args_dict))) /\
(forall v, In v (dict_keys args_dict) ->
           In v (dict_keys (fold_left (args_of_usage db local_var) usage_list args_dict))).
Proof.
unfold is_arg. induction usage_list as [|h u IH]; intros d; simpl.
- repeat split; auto; discriminate.
- destruct (args_of_usage_spec local_var h d) as (A1 & A2 & A3).
  destruct (IH (args_of_usage db local_var d h)) as (I1 & I2 & I3).
  destruct (arg_use db local_var h) eqn:E; simpl.
  + repeat split; try discriminate; auto.
  + rewrite A1 by reflexivity. apply IH.
Qed.

Lemma collect_loop_nil local_vars vars :
(forall v usage_list, In v vars -> dict_get v local_vars = Some usage_list ->
                      is_arg db v usage_list = false) ->
fold_left
  (fun args_dict local_var =>
     match dict_get local_var local_vars with
     | None => args_dict
     | Some usage_list => fold_left (args_of_usage db local_var) usage_list args_dict
     end) vars [] = [].
Proof.
induction vars as [|v vars IH]; intros F; simpl; auto.
destruct (dict_get v local_vars) as [u|] eqn:E.
- destruct (usage_loop_spec v u []) as (U1 & _).
  rewrite U1 by (apply (F v u); [now left | exact E]).
  apply IH. intros v' u' Hin. apply F. now right.
- apply IH. intros v' u' Hin. apply F. now right.
Qed.

Lemma collect_loop_keys local_vars vars : forall args_dict v,
In v (dict_keys args_dict) ->
In v (dict_keys
        (fold_left
           (fun args_dict local_var =>
              match dict_get local_var local_vars with
              | None => args_dict
              | Some usage_list => fold_left (args_of_usage db local_var) usage_list args_dict
              end) vars args_dict)).
Proof.
induction vars as [|x vars IH]; intros d v Hv; simpl; auto.
apply IH. destruct (dict_get x local_vars) as [u|]; auto.
destruct (usage_loop_spec x u d) as (_ & _ & U3). auto.
Qed.

Lemma collect_loop_arg local_vars vars : forall args_dict v usage_list,
In v vars -> dict_get v local_vars = Some usage_list -> is_arg db v usage_list = true ->
In v (dict_keys
        (fold_left
           (fun args_dict local_var =>
              match dict_get local_var local_vars with
              | None => args_dict
              | Some usage_list => fold_left (args_of_usage db local_var) usage_list args_dict
              end) vars args_dict)).
Proof.
induction vars as [|x vars IH]; intros d v u Hin Hg Ha; [easy|]. simpl.
destruct Hin as [->|Hin].
- rewrite Hg. apply collect_loop_keys.
  destruct (usage_loop_spec v u d) as (_ & U2 & _). auto.
- eapply IH; eauto.
Qed.

(** Once the argument variables are deleted, argument detection over what
  is left finds nothing. *)
Lemma reduced_table_has_no_argument local_vars :
collect_args db (reduced_table db local_vars) = [].
Proof.
unfold collect_args at 1. apply collect_loop_nil.
intros v u Hin Hg. unfold reduced_table in Hin, Hg.
apply delete_keys_keys in Hin as [Hin Hc].
apply delete_keys_keys in Hin as [Hin Ha].
rewrite !dict_get_delete_keys in Hg by assumption.
destruct (is_arg db v u) eqn:E; auto.
exfalso. apply Ha. unfold collect_args. eapply collect_loop_arg; eauto.
Qed.
End Arguments.

(** ** The three tables of the Chepin metric *)

Lemma dict_set_keys_eq {K V} `{EqDec K} (k : K) (v : V) (d : list (K * V)) :
  dict_keys (dict_set k v d)
  = if py_in k (dict_keys d) then dict_keys d else dict_keys d ++ [k].
Proof.
  unfold dict_keys, py_in. induction d as [|[k' v'] d IH]; [reflexivity|].
  cbn [dict_set map fst existsb].
  destruct (eqb k k') eqn:E; cbn [orb map fst].
  - reflexivity.
  - rewrite IH. now destruct (existsb (eqb k) (map fst d)).
Qed.

Lemma dict_append_NoDup {K A} `{EqDec K} (k : K) (a : A) (d : list (K * list A)) :
  NoDup (dict_keys d) -> NoDup (dict_keys (dict_append k a d)).
Proof.
  intros N. unfold dict_append.
  destruct (dict_get k d); rewrite dict_set_keys_eq;
    (destruct (py_in k (dict_keys d)) eqn:E; [assumption|]);
    apply py_in_not_In in E;
    (apply NoDup_app; [assumption | repeat constructor; intros [] |]);
    intros x Hx [<-|[]]; contradiction.
Qed.

Lemma fold_left_preserves {A B} (P : B -> Prop) (f : B -> A -> B) xs :
  (forall b a, In a xs -> P b -> P (f b a)) -> forall b, P b -> P (fold_left f xs b).
Proof.
  induction xs as [|x xs IH]; intros F b Hb; simpl; auto.
  apply IH.
  - intros. apply F; auto. now right.
  - apply F; auto. now left.
Qed.

Section Tables.
Variable db : database.
Variable local_vars : list (string * list Z).

Lemma table_append k a d :
  In k (dict_keys local_vars) -> table_of local_vars d -> table_of local_vars (dict_append k a d).
Proof.
  intros Hk [N I]. split.
  - now apply dict_append_NoDup.
  - intros x Hx. apply dict_append_keys in Hx as [->|Hx]; auto.
Qed.

Lemma collect_args_table : table_of local_vars (collect_args db local_vars).
Proof.
  unfold collect_args. apply fold_left_preserves.
  - intros d local_var Hk Hd.
    destruct (dict_get local_var local_vars) as [usage_list|]; auto.
    apply fold_left_preserves; auto. clear d Hd. intros d head _ Hd.
    unfold args_of_usage. apply fold_left_preserves; auto. clear d Hd.
    intros d [idx [op t]] _ Hd.
    destruct (str_count "+"%char op =? 1).
    + cbv zeta. destruct (_ && _); auto using table_append.
    + destruct (str_count "+"%char op =? 2); auto.
      destruct (str_contains "arg" local_var); auto using table_append.
  - split; [constructor | intros x []].
Qed.

Lemma compared_vars_table : table_of local_vars (compared_vars db local_vars).
Proof.
  unfold compared_vars. apply fold_left_preserves.
  - intros d local_var Hk Hd.
    destruct (dict_get local_var local_vars) as [usage_list|]; auto.
    apply fold_left_preserves; auto. clear d Hd. intros d instr_addr _ Hd.
    cbv zeta. destruct (_ || _); auto using table_append.
  - split; [constructor | intros x []].
Qed.
End Tables.

(** Without a detected argument the count does not depend on the table:
    it is read off the routine's [ret] operand or a caller's stack
    adjustment. *)
Lemma get_function_args_count_fallback db function_ea local_vars :
  collect_args db local_vars = [] ->
  get_function_args_count db function_ea local_vars
  = get_function_args_count db function_ea [].
Proof. intros H. unfold get_function_args_count. rewrite H. reflexivity. Qed.

(** C7, as amended.  Let A be the variables [get_function_args_count]
    takes for arguments and T the variables with a use in a [cmp*] or
    [test*] instruction, both read off the table as [get_chepin] receives
    it; each lists variables of the table, and none twice.  The variables
    left in the table, which M counts, are exactly those in neither A nor
    T.  The value is [P + 2M + 3C], where C is the size of T and P is the
    count [get_function_args_count] returns: the size of A when A is not
    empty, and otherwise the count read off the [ret] operand or a caller's
    stack adjustment, which is the same for every table.  A and T are not
    kept apart: with a variable in both, the value is
    [|A| + 2M + 3|T|], the variable counted in P and in C. *)
Theorem chepin_categories db function_ea local_vars q local_vars' :
  chepin_of db function_ea local_vars = Ok (q, local_vars') ->
  (forall v, In v (dict_keys local_vars') <->
     In v (dict_keys local_vars) /\
     ~ In v (dict_keys (collect_args db local_vars)) /\
     ~ In v (dict_keys (compared_vars db local_vars))) /\
  (NoDup (dict_keys local_vars) -> NoDup (dict_keys local_vars')) /\
  NoDup (dict_keys (collect_args db local_vars)) /\
  incl (dict_keys (collect_args db local_vars)) (dict_keys local_vars) /\
  NoDup (dict_keys (compared_vars db local_vars)) /\
  incl (dict_keys (compared_vars db local_vars)) (dict_keys local_vars) /\
  (exists p : Q,
     get_function_args_count db function_ea local_vars
     = Ok (p, collect_args db local_vars) /\
     q = (p + inject_Z (2 * len local_vars')
            + inject_Z (3 * len (compared_vars db local_vars)))%Q /\
     (collect_args db local_vars <> [] -> p = inject_Z (len (collect_args db local_vars))) /\
     (collect_args db local_vars = [] ->
      get_function_args_count db function_ea [] = Ok (p, []))) /\
  (forall v,
     In v (dict_keys (collect_args db local_vars)) ->
     In v (dict_keys (compared_vars db local_vars)) ->
     q = (inject_Z (len (collect_args db local_vars))
          + inject_Z (2 * len local_vars')
          + inject_Z (3 * len (compared_vars db local_vars)))%Q).
Proof.
  unfold chepin_of, rbind.
  destruct (get_function_args_count db function_ea local_vars) as [[p args]|e] eqn:E;
    [|discriminate].
  pose proof E as E'.
  apply get_function_args_count_args in E' as [-> Hp].
  intros [= <- <-].
  destruct (collect_args_table db local_vars) as [NA IA].
  destruct (compared_vars_table db local_vars) as [NT IT].
  repeat match goal with |- _ /\ _ => split end; auto.
  - intros v. split.
    + intros Hv. apply delete_keys_keys in Hv as [Hv Hc].
      apply delete_keys_keys in Hv as [Hv Ha]. auto.
    + intros (Hv & Ha & Hc). apply delete_keys_keys. split; auto.
      apply delete_keys_keys. auto.
  - intros N. now apply delete_keys_NoDup, delete_keys_NoDup.
  - exists p. repeat match goal with |- _ /\ _ => split end; auto.
    intros Hnil. rewrite <- (get_function_args_count_fallback db function_ea local_vars Hnil).
    now rewrite E, Hnil.
  - intros v Ha _. rewrite Hp; [reflexivity|].
    intros Hnil. rewrite Hnil in Ha. destruct Ha.
Qed.

(** ** Chepin before Henry and Cafura *)

Lemma get_chepin_table db f_ea w q w1 :
  get_chepin db f_ea w = (Ok q, w1) ->
  vars_local (self w1) = reduced_table db (vars_local (self w)).
Proof.
  unfold get_chepin. intros H.
  apply bind_ok_inv in H as (w0 & s0 & E0 & H). injection E0 as <- <-.
  destruct (chepin_of db f_ea (vars_local (self w))) as [[c lv]|e] eqn:E; [|discriminate].
  apply bind_ok_inv in H as (u & s1 & E1 & H). injection E1 as _ <-.
  injection H as _ <-. simpl.
  unfold chepin_of, rbind in E.
  destruct (get_function_args_count db f_ea (vars_local (self w))) as [[p args]|e'] eqn:Ea;
    [|discriminate].
  apply get_function_args_count_args in Ea as [-> _].
  now injection E as _ <-.
Qed.

Lemma get_henryncafura_args db f_ea w v w2 :
  get_henryncafura_metric db f_ea w = (Ok v, w2) ->
  vars_args (self w2) = collect_args db (vars_local (self w)) /\
  v = CC (self w2) + ((fan_in_s (self w2) + fan_in_i (self w2))
                      + (fan_out_s (self w2) + fan_out_i (self w2))) ^ 2.
Proof.
  unfold get_henryncafura_metric. intros H.
  apply bind_ok_inv in H as (u0 & s0 & E0 & H). injection E0 as _ <-.
  apply bind_ok_inv in H as (u1 & s1 & E1 & H). injection E1 as _ <-.
  apply bind_ok_inv in H as (w0 & s2 & E2 & H). injection E2 as <- <-.
  cbn [self vars_local set_fan_in_s set_fan_out_s] in H.
  destruct (get_function_args_count db f_ea (vars_local (self w))) as [[p args]|e] eqn:Ea;
    [|discriminate].
  apply get_function_args_count_args in Ea as [-> _].
  apply bind_ok_inv in H as (u3 & s3 & E3 & H). injection E3 as _ <-.
  apply bind_ok_inv in H as (u4 & s4 & E4 & H). injection E4 as _ <-.
  apply bind_ok_inv in H as (u5 & s5 & E5 & H). injection E5 as _ <-.
  apply bind_ok_inv in H as (w6 & s6 & E6 & H). injection E6 as <- <-.
  injection H as <- <-. cbn.
  repeat match goal with
         | |- context [let '(_, _) := ?x in _] => destruct x
         end.
  split; reflexivity.
Qed.

(** What [get_henryncafura_metric] leaves in the fan counters: the
    structural ones from the call table and the callers, the informational
    ones raised by the read and write counts of the argument table it
    detects in [vars_local] and of the global usage table. *)
Lemma get_henryncafura_fans db f_ea w v w2 :
  get_henryncafura_metric db f_ea w = (Ok v, w2) ->
  fan_in_s (self w2) = len (crefs_to db f_ea) /\
  fan_out_s (self w2) = len (calls_dict (self w)) /\
  fan_in_i (self w2)
  = fan_in_i (self w)
    + fst (get_unique_vars_read_write_count db (function_ea (self w)) (function_end (self w))
             (collect_args db (vars_local (self w))))
    + fst (get_unique_vars_read_write_count db (function_ea (self w)) (function_end (self w))
             (global_vars_used (self w))) /\
  fan_out_i (self w2)
  = fan_out_i (self w)
    + snd (get_unique_vars_read_write_count db (function_ea (self w)) (function_end (self w))
             (collect_args db (vars_local (self w))))
    + snd (get_unique_vars_read_write_count db (function_ea (self w)) (function_end (self w))
             (global_vars_used (self w))) /\
  CC (self w2) = CC (self w).
Proof.
  unfold get_henryncafura_metric. intros H.
  apply bind_ok_inv in H as (u0 & s0 & E0 & H). injection E0 as _ <-.
  apply bind_ok_inv in H as (u1 & s1 & E1 & H). injection E1 as _ <-.
  apply bind_ok_inv in H as (w0 & s2 & E2 & H). injection E2 as <- <-.
  cbn [self vars_local set_fan_in_s set_fan_out_s] in H.
  destruct (get_function_args_count db f_ea (vars_local (self w))) as [[p args]|e] eqn:Ea;
    [|discriminate].
  apply get_function_args_count_args in Ea as [-> _].
  apply bind_ok_inv in H as (u3 & s3 & E3 & H). injection E3 as _ <-.
  apply bind_ok_inv in H as (u4 & s4 & E4 & H). injection E4 as _ <-.
  apply bind_ok_inv in H as (u5 & s5 & E5 & H). injection E5 as _ <-.
  apply bind_ok_inv in H as (w6 & s6 & E6 & H). injection E6 as <- <-.
  injection H as _ <-. cbn.
  destruct (get_unique_vars_read_write_count db (function_ea (self w)) (function_end (self w))
              (collect_args db (vars_local (self w)))) as [ra wa].
  cbn.
  destruct (get_unique_vars_read_write_count db (function_ea (self w)) (function_end (self w))
              (global_vars_used (self w))) as [rg wg].
  cbn. repeat split; reflexivity.
Qed.

(** C10. When a routine's analysis completes with Chepin selected and
    Henry and Cafura computed (selected itself, or through Card and Glass),
    [get_chepin] ran first and left in [self.vars_local] the table without
    its argument and comparison variables; [get_henryncafura_metric] then
    ran on that state.  The argument table [vars_args] it detects is that
    of the reduced table, which is empty; the informational fan-in and
    fan-out are raised by the read and write counts of that argument table
    and of the global usage table; and the recorded [HenrynCafura] is the
    cyclomatic complexity plus the square of the sum of the four fan
    counters so obtained. *)
Theorem chepin_reduces_table_before_henry_cafura db chunks l s s' :
  mask_chepin (metrics_mask (self s)) = true ->
  mask_hc (metrics_mask (self s)) || mask_cs (metrics_mask (self s)) = true ->
  compute_metrics db chunks l s = (Ok tt, s') ->
  exists s0 q s1 v s2,
    vars_local (self s0) = vars_local (self s) /\
    get_chepin db (function_ea (self s)) s0 = (Ok q, s1) /\
    vars_local (self s1) = reduced_table db (vars_local (self s)) /\
    get_henryncafura_metric db (function_ea (self s))
      (mk_world (set_Chepin q (self s1)) (global_vars_dict s1)) = (Ok v, s2) /\
    vars_args (self s2) = collect_args db (reduced_table db (vars_local (self s))) /\
    vars_args (self s2) = [] /\
    fan_in_s (self s2) = len (crefs_to db (function_ea (self s))) /\
    fan_out_s (self s2) = len (calls_dict (self s)) /\
    fan_in_i (self s2)
    = fan_in_i (self s)
      + fst (get_unique_vars_read_write_count db (function_ea (self s)) (function_end (self s))
               (collect_args db (reduced_table db (vars_local (self s)))))
      + fst (get_unique_vars_read_write_count db (function_ea (self s)) (function_end (self s))
               (global_vars_used (self s))) /\
    fan_out_i (self s2)
    = fan_out_i (self s)
      + snd (get_unique_vars_read_write_count db (function_ea (self s)) (function_end (self s))
               (collect_args db (reduced_table db (vars_local (self s)))))
      + snd (get_unique_vars_read_write_count db (function_ea (self s)) (function_end (self s))
               (global_vars_used (self s))) /\
    v = CC (self s') + ((fan_in_s (self s2) + fan_in_i (self s2))
                        + (fan_out_s (self s2) + fan_out_i (self s2))) ^ 2 /\
    HenrynCafura (self s') = v.
Proof.
  intros Hch Hhc Hrun. unfold compute_metrics in Hrun.
  apply bind_ok_inv in Hrun as (w0 & s0 & E0 & Hrun). injection E0 as <- <-.
  rewrite Hch, Hhc in Hrun.
  pose (p := fun w : world =>
               (vars_local (self w), fan_in_i (self w), fan_out_i (self w), calls_dict (self w),
                global_vars_used (self w), function_ea (self w), function_end (self w))).
  assert (P : p s = p s) by reflexivity.
  do 14 advance p Hrun P.
  rewrite !when_true in Hrun.
  apply bind_ok_inv in Hrun as (u1 & s1 & E1 & Hrun).
  apply bind_ok_inv in E1 as (q & s2 & E1 & E2). injection E2 as _ <-.
  apply bind_ok_inv in Hrun as (u2 & s3 & E3 & Hrun).
  apply bind_ok_inv in E3 as (v & s4 & E3 & E4). injection E4 as _ <-.
  match type of Hrun with
  | ?m _ = _ => assert (K : keeps (fun w => (HenrynCafura (self w), CC (self w))) m)
  end.
  { unfold true_div. frame. }
  apply K in Hrun. cbn [self HenrynCafura CC set_HenrynCafura] in Hrun.
  injection Hrun as HHC HCC.
  assert (Kc : keeps (fun w => (fan_in_i (self w), fan_out_i (self w), calls_dict (self w),
                                global_vars_used (self w), function_ea (self w),
                                function_end (self w)))
                     (get_chepin db (function_ea (self s)))).
  { unfold get_chepin. frame. }
  apply Kc in E1 as Fc. cbv beta in Fc.
  pose proof (get_chepin_table _ _ _ _ _ E1) as T.
  unfold p in P. injection P as P1 P2 P3 P4 P5 P6 P7.
  rewrite P1 in T. rewrite P2, P3, P4, P5, P6, P7 in Fc.
  injection Fc as F1 F2 F3 F4 F5 F6.
  pose proof (get_henryncafura_args _ _ _ _ _ E3) as [A V].
  pose proof (get_henryncafura_fans _ _ _ _ _ E3) as (G1 & G2 & G3 & G4 & G5).
  cbn [self vars_local fan_in_i fan_out_i calls_dict global_vars_used function_ea
       function_end CC set_Chepin] in A, G1, G2, G3, G4, G5.
  rewrite T in A, G3, G4. rewrite F1, F5, F6, F4 in G3. rewrite F2, F5, F6, F4 in G4.
  rewrite F3 in G2.
  pose proof (reduced_table_has_no_argument db (vars_local (self s))) as Z0.
  match type of P1 with vars_local (self ?x) = _ => exists x, q, s2, v, s4 end.
  repeat match goal with |- _ /\ _ => split end; auto; congruence.
Qed.

(** Without Chepin the table reaches [get_henryncafura_metric] as the
    control-flow loop left it, and the argument table is that of the whole
    table. *)
Lemma henry_cafura_without_chepin db chunks l s s' :
  mask_chepin (metrics_mask (self s)) = false ->
  mask_hc (metrics_mask (self s)) || mask_cs (metrics_mask (self s)) = true ->
  compute_metrics db chunks l s = (Ok tt, s') ->
  exists s0 v s2,
    vars_local (self s0) = vars_local (self s) /\
    get_henryncafura_metric db (function_ea (self s)) s0 = (Ok v, s2) /\
    vars_args (self s2) = collect_args db (vars_local (self s)) /\
    HenrynCafura (self s') = v.
Proof.
  intros Hch Hhc Hrun. unfold compute_metrics in Hrun.
  apply bind_ok_inv in Hrun as (w0 & s0 & E0 & Hrun). injection E0 as <- <-.
  rewrite Hch, Hhc in Hrun.
  assert (P : vars_local (self s) = vars_local (self s)) by reflexivity.
  do 15 advance (fun w => vars_local (self w)) Hrun P.
  rewrite !when_true in Hrun.
  apply bind_ok_inv in Hrun as (u2 & s3 & E3 & Hrun).
  apply bind_ok_inv in E3 as (v & s4 & E3 & E4). injection E4 as _ <-.
  match type of Hrun with
  | ?m _ = _ => assert (K : keeps (fun w => HenrynCafura (self w)) m)
  end.
  { unfold true_div. frame. }
  apply K in Hrun. cbn [self HenrynCafura set_HenrynCafura] in Hrun.
  pose proof (get_henryncafura_args _ _ _ _ _ E3) as [A _]. rewrite P in A.
  match type of P with vars_local (self ?x) = _ => exists x, v, s4 end.
  repeat split; auto.
Qed.

(** The demo routine: with Chepin selected Henry and Cafura sees no
    argument and is 2; without it [arg_0] is found and the metric is 3. *)
Lemma chepin_changes_henry_cafura :
  HenrynCafura (self (snd (Metrics_function_start_analysis demo_db (demo_world all_metrics)))) = 2 /\
  HenrynCafura (self (snd (Metrics_function_start_analysis demo_db (demo_world without_chepin)))) = 3.
Proof. split; reflexivity. Qed.

(** ** Routines without edges *)

Lemma set_add_nonempty {K} `{EqDec K} (x : K) (s : list K) : set_add x s <> [].
Proof.
  unfold set_add. destruct (py_in x s) eqn:E.
  - destruct s; [discriminate | congruence].
  - now destruct s.
Qed.

Lemma add_edges_nonempty db chunk head es r : add_edges db chunk head es r <> [].
Proof. unfold add_edges. apply set_add_nonempty. Qed.

Lemma fold_add_edges_nonempty db chunk head refs : forall es,
  es <> [] \/ refs <> [] -> fold_left (add_edges db chunk head) refs es <> [].
Proof.
  induction refs as [|r refs IH]; intros es [H|H]; simpl; auto; try congruence.
  - apply IH. left. apply add_edges_nonempty.
  - apply IH. left. apply add_edges_nonempty.
Qed.

(** A step of the loop leaves edges and boundaries alone or adds an edge. *)
Lemma head_step_edges db chunks chunk l head w l' w' :
  head_step db chunks chunk l head w = (Ok l', w') ->
  (edges l' = edges l /\ boundaries l' = boundaries l) \/ edges l' <> [].
Proof.
  unfold head_step. intros H.
  destruct (head =? BADADDR db); [discriminate|].
  destruct (negb (is_code db head)).
  { injection H as <- <-. now left. }
  apply bind_ok_inv in H as (u0 & s0 & _ & H).
  apply bind_ok_inv in H as (refs & s1 & _ & H).
  apply bind_ok_inv in H as (w2 & s2 & _ & H).
  apply bind_ok_inv in H as (u3 & s3 & _ & H).
  destruct (match get_switch_info db head with Some _ => _ | None => _ end) as [sw cs].
  apply bind_ok_inv in H as (ops & s4 & _ & H).
  destruct refs as [|r refs].
  - injection H as <- <-. now left.
  - injection H as <- <-. right. simpl.
    apply fold_add_edges_nonempty. right.
    destruct (is_flow db _); [apply set_add_nonempty | discriminate].
Qed.

Lemma foldM_invariant {S A B} (I : B -> Prop) (f : B -> A -> M S B) xs :
  (forall b a s b' s', I b -> f b a s = (Ok b', s') -> I b') ->
  forall b s b' s', I b -> foldM f xs b s = (Ok b', s') -> I b'.
Proof.
  intros F. induction xs as [|x xs IH]; intros b s b' s' Hb H; simpl in H.
  - now injection H as <- <-.
  - apply bind_ok_inv in H as (b1 & s1 & E1 & H). eauto.
Qed.

(** A routine whose control-flow loop produced no edge has the routine
    start as its only boundary. *)
Lemma zero_edges_boundaries db chunks f_start w l w' :
  build_cfg db chunks f_start w = (Ok l, w') ->
  edges l = [] -> boundaries l = [f_start].
Proof.
  unfold build_cfg. intros H.
  refine (foldM_invariant (fun l => edges l = [] -> boundaries l = [f_start])
                          _ _ _ _ _ _ _ _ H); [|intros _; reflexivity].
  intros b c s b' s' Hb Hc. unfold chunk_step in Hc.
  refine (foldM_invariant (fun l => edges l = [] -> boundaries l = [f_start])
                          _ _ _ _ _ _ _ Hb Hc).
  intros b0 a s0 b0' s0' Hb0 Hs E.
  apply head_step_edges in Hs as [[Ee Eb]|Hne]; [|contradiction].
  rewrite Eb. apply Hb0. congruence.
Qed.

Lemma last_item_cons {A} (x : A) (l : list A) : exists k, last_item (x :: l) = Ok k.
Proof. unfold last_item. simpl. destruct (rev l); simpl; eauto. Qed.

(** With no edge and one block starting at the routine start, the node
    graph is the routine start alone, without successors. *)
Lemma make_graph_single_block db f_start bbl :
  make_graph db [] [f_start :: bbl] [f_start] = Ok [(f_start, None)].
Proof.
  unfold make_graph. cbn [rfold rbind].
  destruct (last_item_cons f_start bbl) as [k ->].
  cbn. unfold graph_get. cbn. now rewrite eqb_refl.
Qed.

(** C3, at the failing input.  The routine [tail_jump_db] has no edge and
    its only boundary is its start, yet its partition has two blocks and its
    graph two nodes. *)
Lemma zero_edges_two_nodes :
  let w := mk_world (Metrics_function_init tail_jump_db 0 all_metrics) [] in
  let l := mk_cfg [] [0] [("nop", 1); ("jz", 1); ("retn", 1)] [] [] 0 in
  fst (build_cfg tail_jump_db [(0, 4)] 0 w) = Ok l /\
  CC (self (snd (Metrics_function_start_analysis tail_jump_db w))) = 1 /\
  get_bbls tail_jump_db 0 4 [(0, 4)] (boundaries l) (edges l) = [[0; 1]; [3]] /\
  make_graph tail_jump_db (edges l) [[0; 1]; [3]] (boundaries l) = Ok [(0, None); (3, None)].
Proof. repeat split; reflexivity. Qed.


(** ** Conditional branches that are not block entries *)

Lemma snoc_split {A} (l pre post : list A) (h x : A) :
  l ++ [h] = pre ++ x :: post -> (post = [] /\ x = h) \/ In x l.
Proof.
  intros E. destruct post as [|z post].
  - left. apply app_inj_tail in E as [_ ->]. auto.
  - right. destruct (exists_last (l := z :: post)) as (post' & y & E'); [discriminate|].
    rewrite E' in E.
    replace (pre ++ x :: post' ++ [y]) with ((pre ++ x :: post') ++ [y]) in E
      by (now rewrite <- app_assoc).
    apply app_inj_tail in E as [-> _]. apply in_or_app. right. now left.
Qed.

Section BranchEnds.
Variable db : database.
Variables fs fe : Z.
Variable bounds : list Z.
Variable es : list (Z * Z).

Lemma plain_closed b :
Forall (plain_insn db fs fe bounds) b -> closed_block db fs fe bounds b.
Proof.
intros F pre x post -> Hx. exfalso. apply Hx.
rewrite Forall_forall in F. apply F, in_or_app. right. now left.
Qed.

Lemma plain_snoc_closed b h :
  Forall (plain_insn db fs fe bounds) b -> closed_block db fs fe bounds (b ++ [h]).
Proof.
intros F pre x post E Hx. apply snoc_split in E as [[-> _]|Hin]; auto.
exfalso. apply Hx. rewrite Forall_forall in F. auto.
Qed.

Lemma inType_eqb_eq a b : inType_eqb a b = true <-> a = b.
Proof. destruct a, b; simpl; split; congruence. Qed.

Lemma bbl_step_closed st head :
Forall (closed_block db fs fe bounds) (fst st) -> Forall (plain_insn db fs fe bounds) (snd st) ->
Forall (closed_block db fs fe bounds) (fst (bbl_step db fs fe bounds es st head)) /\
Forall (plain_insn db fs fe bounds) (snd (bbl_step db fs fe bounds es st head)).
Proof.
destruct st as [bbls bbl]. simpl. intros Hc Hp. unfold bbl_step.
unfold int_in_edges. rewrite orb_false_r.
destruct (py_in head bounds) eqn:Eb.
- apply py_in_In in Eb.
  destruct (0 <? len bbl); simpl; split; auto.
  + apply Forall_app. split; auto. constructor; auto using plain_closed.
  + constructor; auto. now left.
  + constructor; auto. now left.
- destruct (inType_eqb _ _) eqn:Et; simpl; split; auto.
  + apply Forall_app. split; auto. constructor; auto using plain_snoc_closed.
  + apply Forall_app. split; auto. constructor; auto.
    right. intros E. apply inType_eqb_eq in E. congruence.
Qed.

Lemma bbl_loop_closed hs : forall st,
Forall (closed_block db fs fe bounds) (fst st) -> Forall (plain_insn db fs fe bounds) (snd st) ->
Forall (closed_block db fs fe bounds) (fst (fold_left (bbl_step db fs fe bounds es) hs st)) /\
Forall (plain_insn db fs fe bounds) (snd (fold_left (bbl_step db fs fe bounds es) hs st)).
Proof.
induction hs as [|h hs IH]; intros st Hc Hp; simpl; auto.
destruct (bbl_step_closed st h Hc Hp). auto.
Qed.

Lemma chunk_loop_closed chunks : forall st,
Forall (closed_block db fs fe bounds) (fst st) -> Forall (plain_insn db fs fe bounds) (snd st) ->
Forall (closed_block db fs fe bounds)
  (fst (fold_left (fun st chunk => fold_left (bbl_step db fs fe bounds es) (Heads db chunk) st)
                  chunks st)) /\
Forall (plain_insn db fs fe bounds)
  (snd (fold_left (fun st chunk => fold_left (bbl_step db fs fe bounds es) (Heads db chunk) st)
                  chunks st)).
Proof.
induction chunks as [|c cs IH]; intros st Hc Hp; simpl; auto.
destruct (bbl_loop_closed (Heads db c) st Hc Hp). auto.
Qed.

(** A conditional branch that is not itself a boundary is the last
  instruction of its block. *)
Lemma conditional_branch_ends_block chunks bbl pre x post :
In bbl (get_bbls db fs fe chunks bounds es) ->
bbl = pre ++ x :: post ->
GetInstructionType db fs fe x = CONDITIONAL_BRANCH ->
~ In x bounds ->
post = [].
Proof.
intros Hin E Ht Hb. unfold get_bbls in Hin.
destruct (chunk_loop_closed chunks ([], []) (Forall_nil _) (Forall_nil _)) as [Hc Hp].
destruct (fold_left _ chunks ([], [])) as [bbls last]. simpl in Hc, Hp.
assert (C : closed_block db fs fe bounds bbl).
{ destruct (0 <? len last).
  - apply in_app_or in Hin as [Hin|[<-|[]]].
    + rewrite Forall_forall in Hc. auto.
    + now apply plain_closed.
  - rewrite Forall_forall in Hc. auto. }
apply (C pre x post E). intros [H|H]; auto.
Qed.
End BranchEnds.

(** C4, at the failing input.  In [entry_jump_db] the first instruction is
    a conditional branch and the block that holds it goes on to the next
    instruction. *)
Lemma conditional_branch_inside_block :
  let w := mk_world (Metrics_function_init entry_jump_db 0 all_metrics) [] in
  let l := mk_cfg [] [0] [("jz", 1); ("retn", 1)] [] [] 0 in
  fst (build_cfg entry_jump_db [(0, 3)] 0 w) = Ok l /\
  GetInstructionType entry_jump_db 0 3 0 = CONDITIONAL_BRANCH /\
  get_bbls entry_jump_db 0 3 [(0, 3)] (boundaries l) (edges l) = [[0; 2]].
Proof. repeat split; reflexivity. Qed.

(** ** Halstead *)

(** With no operator and no operand the logarithm of the volume raises. *)
Lemma calculate_raises_on_empty :
  calculate Halstead_init = (Raise (ValueError "math domain error"), Halstead_init).
Proof. reflexivity. Qed.

(** Whenever there is an operator or an operand, [calculate] returns; the
    domain error of [Ni] is caught. *)
Lemma calculate_returns h :
  0 < n1 h + n2 h -> exists h', calculate h = (Ok tt, h').
Proof.
  intros Hn. unfold calculate. cbv zeta.
  assert (L : math_log2 (n1 h + n2 h) = Ok (Flog2 (n1 h + n2 h))).
  { unfold math_log2. now replace (0 <? n1 h + n2 h) with true by (symmetry; apply Z.ltb_lt; lia). }
  rewrite L. eauto.
Qed.

(** With operators and no operand the difficulty keeps its value, 0 for a
    record that was never calculated. *)
Lemma calculate_difficulty_without_operands h :
  n2 h = 0 -> 0 < n1 h -> exists h', calculate h = (Ok tt, h') /\ D h' = D h.
Proof.
  intros H2 H1. unfold calculate, math_log2. rewrite H2.
  replace (0 <? n1 h) with true by (symmetry; apply Z.ltb_lt; lia).
  replace (0 <? n1 h + 0) with true by (symmetry; apply Z.ltb_lt; lia).
  cbn. rewrite H2. cbn. eauto.
Qed.

(** C5, at the failing input.  A module whose only routine is abandoned
    has empty Halstead totals, and [collect_final_metrics] raises. *)
Lemma module_halstead_raises :
  fst (Metrics_start_analysis padded_db all_metrics module_init)
  = Raise (ValueError "math domain error").
Proof. reflexivity. Qed.

(** ** What an abandoned routine leaves behind *)

(** When the analysis of a routine raises, the orchestrator goes on; the
    totals are untouched, the routine's record stays in [functions] and
    [global_vars_dict] is as the analysis left it. *)
Lemma abandoned_routine_state db metrics_used function_ea ms e w :
  dict_get (func_name db function_ea) (functions (metrics ms)) = None ->
  Metrics_function_start_analysis db
    (mk_world (Metrics_function_init db function_ea metrics_used) (globals ms)) = (Raise e, w) ->
  analyse_routine db metrics_used function_ea ms
  = (Ok tt,
     mk_module (set_functions (dict_set (func_name db function_ea) (self w)
                                        (functions (metrics ms)))
                              (metrics ms))
               (global_vars_dict w)).
Proof.
  intros Hnew Hrun. unfold analyse_routine. now rewrite Hnew, Hrun.
Qed.

(** C9, at the failing input.  The analysis of [padded_db] is abandoned in [make_graph], after the
    access to [counter] was recorded; the record stays in [functions], the
    global stays in [global_vars_dict], and the module's global-access
    total counts the access. *)
Lemma abandoned_routine_counts_globals :
  let w := mk_world (Metrics_function_init padded_db 0 bound_global) [] in
  let ms := snd (Metrics_start_analysis padded_db bound_global module_init) in
  fst (Metrics_function_start_analysis padded_db w)
  = Raise (Exception "Error when creating node graph") /\
  fst (Metrics_start_analysis padded_db bound_global module_init) = Ok tt /\
  total_func_count (metrics ms) = 0 /\
  total_loc_count (metrics ms) = 0 /\
  dict_keys (functions (metrics ms)) = ["padded"] /\
  globals ms = [("counter", 2)] /\
  global_vars_metric_total (metrics ms) = 1%Q.
Proof. repeat split; reflexivity. Qed.

(** ** The theorems at the demo routine *)

Lemma cyclomatic_complexity_formula_witness :
  mask_cc (metrics_mask (self (demo_world all_metrics))) = true /\
  Metrics_function_start_analysis demo_db (demo_world all_metrics) = (Ok tt, demo_final) /\
  CC (self demo_final) = len (edges demo_cfg) - len (boundaries demo_cfg) + 2.
Proof.
  assert (Hcfg : build_cfg demo_db
                   (enumerate_function_chunks demo_db (function_ea (self (demo_world all_metrics))))
                   (function_ea (self (demo_world all_metrics))) (demo_world all_metrics)
                 = (Ok demo_cfg, demo_after_cfg)) by reflexivity.
  assert (Hrun : Metrics_function_start_analysis demo_db (demo_world all_metrics)
                 = (Ok tt, demo_final)) by reflexivity.
  split; [reflexivity | split; [exact Hrun |]].
  exact (cyclomatic_complexity_formula demo_db (demo_world all_metrics) demo_cfg
           demo_after_cfg demo_final eq_refl Hcfg Hrun).
Defined.

Lemma get_bbls_disjoint_cover_witness :
  NoDup (heads demo_db) /\
  chunks_disjoint [(0, 5)] /\
  List.concat (get_bbls demo_db 0 5 [(0, 5)] [0; 4; 2] [(3, 4); (1, 4); (1, 2)])
  = flat_map (Heads demo_db) [(0, 5)] /\
  NoDup (List.concat (get_bbls demo_db 0 5 [(0, 5)] [0; 4; 2] [(3, 4); (1, 4); (1, 2)])).
Proof.
  assert (N : NoDup (heads demo_db)).
  { simpl. repeat constructor; simpl; intuition discriminate. }
  assert (D : chunks_disjoint [(0, 5)]) by (repeat constructor).
  pose proof (get_bbls_disjoint_cover demo_db 0 5 [(0, 5)] [0; 4; 2]
                [(3, 4); (1, 4); (1, 2)] N D) as (C & _ & U & _).
  split; [exact N | split; [exact D | split; [exact C | exact U]]].
Defined.

Lemma oviedo_formula_witness :
  mask_oviedo (metrics_mask (self (demo_world all_metrics))) = true /\
  Metrics_function_start_analysis demo_db (demo_world all_metrics) = (Ok tt, demo_final) /\
  Oviedo (self demo_final)
  = len (edges demo_cfg) + oviedo_df_sum demo_db (vars_local (self demo_after_cfg)).
Proof.
  assert (Hcfg : build_cfg demo_db
                   (enumerate_function_chunks demo_db (function_ea (self (demo_world all_metrics))))
                   (function_ea (self (demo_world all_metrics))) (demo_world all_metrics)
                 = (Ok demo_cfg, demo_after_cfg)) by reflexivity.
  assert (Hrun : Metrics_function_start_analysis demo_db (demo_world all_metrics)
                 = (Ok tt, demo_final)) by reflexivity.
  split; [reflexivity | split; [exact Hrun |]].
  exact (oviedo_formula demo_db (demo_world all_metrics) demo_cfg
           demo_after_cfg demo_final eq_refl Hcfg Hrun).
Defined.

Lemma chepin_categories_witness :
  chepin_of demo_db 0 demo_vars = Ok (6%Q, [("var_4", [2; 3])]) /\
  (forall v, In v (dict_keys [("var_4", [2; 3])]) <->
     In v (dict_keys demo_vars) /\
     ~ In v (dict_keys (collect_args demo_db demo_vars)) /\
     ~ In v (dict_keys (compared_vars demo_db demo_vars))) /\
  (forall v,
     In v (dict_keys (collect_args demo_db demo_vars)) ->
     In v (dict_keys (compared_vars demo_db demo_vars)) ->
     6%Q = (inject_Z (len (collect_args demo_db demo_vars))
            + inject_Z (2 * len [("var_4", [2; 3])])
            + inject_Z (3 * len (compared_vars demo_db demo_vars)))%Q).
Proof.
  assert (H : chepin_of demo_db 0 demo_vars = Ok (6%Q, [("var_4", [2; 3])])) by reflexivity.
  pose proof (chepin_categories demo_db 0 demo_vars 6%Q [("var_4", [2; 3])] H)
    as (M & _ & _ & _ & _ & _ & _ & O).
  split; [exact H | split; [exact M | exact O]].
Defined.

Lemma chepin_reduces_table_before_henry_cafura_witness :
  mask_chepin (metrics_mask (self demo_after_cfg)) = true /\
  mask_hc (metrics_mask (self demo_after_cfg))
  || mask_cs (metrics_mask (self demo_after_cfg)) = true /\
  compute_metrics demo_db [(0, 5)] demo_cfg demo_after_cfg = (Ok tt, demo_final) /\
  exists s0 q s1 v s2,
    vars_local (self s0) = vars_local (self demo_after_cfg) /\
    get_chepin demo_db (function_ea (self demo_after_cfg)) s0 = (Ok q, s1) /\
    vars_local (self s1) = reduced_table demo_db (vars_local (self demo_after_cfg)) /\
    get_henryncafura_metric demo_db (function_ea (self demo_after_cfg))
      (mk_world (set_Chepin q (self s1)) (global_vars_dict s1)) = (Ok v, s2) /\
    vars_args (self s2)
    = collect_args demo_db (reduced_table demo_db (vars_local (self demo_after_cfg))) /\
    vars_args (self s2) = [] /\
    fan_in_s (self s2) = len (crefs_to demo_db (function_ea (self demo_after_cfg))) /\
    fan_out_s (self s2) = len (calls_dict (self demo_after_cfg)) /\
    fan_in_i (self s2)
    = fan_in_i (self demo_after_cfg)
      + fst (get_unique_vars_read_write_count demo_db (function_ea (self demo_after_cfg))
               (function_end (self demo_after_cfg))
               (collect_args demo_db (reduced_table demo_db (vars_local (self demo_after_cfg)))))
      + fst (get_unique_vars_read_write_count demo_db (function_ea (self demo_after_cfg))
               (function_end (self demo_after_cfg))
               (global_vars_used (self demo_after_cfg))) /\
    fan_out_i (self s2)
    = fan_out_i (self demo_after_cfg)
      + snd (get_unique_vars_read_write_count demo_db (function_ea (self demo_after_cfg))
               (function_end (self demo_after_cfg))
               (collect_args demo_db (reduced_table demo_db (vars_local (self demo_after_cfg)))))
      + snd (get_unique_vars_read_write_count demo_db (function_ea (self demo_after_cfg))
               (function_end (self demo_after_cfg))
               (global_vars_used (self demo_after_cfg))) /\
    v = CC (self demo_final) + ((fan_in_s (self s2) + fan_in_i (self s2))
                                + (fan_out_s (self s2) + fan_out_i (self s2))) ^ 2 /\
    HenrynCafura (self demo_final) = v.
Proof.
  assert (Hrun : compute_metrics demo_db [(0, 5)] demo_cfg demo_after_cfg = (Ok tt, demo_final))
    by reflexivity.
  split; [reflexivity | split; [reflexivity | split; [exact Hrun |]]].
  exact (chepin_reduces_table_before_henry_cafura demo_db [(0, 5)] demo_cfg
           demo_after_cfg demo_final eq_refl eq_refl Hrun).
Defined.
